(** * uds-cli: bundle creation ([bundle.Create], [bundle.CreateAndPublish])
      and architecture selection ([config.GetArch])

    A shallow embedding of the bundle assembly code of uds-cli.  The Go
    functions are written as state-passing functions over the OCI layout
    directory [b.tmp], the destination registry and the bundle that
    [Create] updates through its pointer.  Code that lives outside the
    translated files (the [bundler] package, the oras store constructor,
    the JSON and YAML encoders, SHA-256, the archiver) is collected in one
    record of parameters, [Env]. *)

From Stdlib Require Import String Ascii List ZArith Lia.
From Stdlib.Strings Require Import Byte.
From stdpp Require Import base gmap strings list pretty.

Open Scope string_scope.
Open Scope list_scope.

Abbreviation bytes := (list byte).

(** ** Results of fallible calls *)

(** A Go pair [(value, error)]: [Err msg] stands for a non-nil error whose
    text is [msg]. *)
Inductive result (A : Type) : Type :=
| Ok (a : A)
| Err (msg : string).
Arguments Ok {A} a.
Arguments Err {A} msg.

Definition is_ok {A} (r : result A) : bool :=
  match r with Ok _ => true | Err _ => false end.

(** ** package config *)

Module config.

Definition ZarfYAML := "zarf.yaml".
Definition BlobsDir := "blobs/sha256".
Definition BundleYAML := "uds-bundle.yaml".
Definition BundlePrefix := "uds-bundle-".
Definition BundleYAMLSignature := "uds-bundle.yaml.sig".

(** [GetArch]: the loop over [priority], written as a recursion on the
    slice; [GOARCH] is [runtime.GOARCH] and [CLIArch] the package
    variable of that name. *)
Fixpoint first_specified (priority : list string) (GOARCH : string) : string :=
  match priority with
  | [] => GOARCH
  | arch :: rest =>
      if decide (arch ≠ "") then arch else first_specified rest GOARCH
  end.

Definition GetArch (CLIArch GOARCH : string) (archs : list string) : string :=
  let priority := [CLIArch] ++ archs in
  first_specified priority GOARCH.

End config.

(** ** Digests, descriptors, manifests *)

(** [digest.Digest] is the string [alg:encoded]; the record keeps the two
    parts, [Encoded] is the part after the separator. *)
Record Digest := mkDigest { Algorithm : string; Encoded : string }.

Definition Digest_String (d : Digest) : string :=
  Algorithm d +:+ ":" +:+ Encoded d.

Global Instance Digest_eq_dec : EqDecision Digest.
Proof. solve_decision. Defined.

(** [ocispec.Descriptor], with the fields this code sets. *)
Record Descriptor := mkDescriptor {
  MediaType : string;
  DescDigest : Digest;
  Size : Z;
  Annotations : gmap string string
}.

Global Instance Descriptor_eq_dec : EqDecision Descriptor.
Proof. solve_decision. Defined.

Definition set_MediaType (mt : string) (d : Descriptor) : Descriptor :=
  mkDescriptor mt (DescDigest d) (Size d) (Annotations d).

Definition set_Annotations (a : gmap string string) (d : Descriptor) : Descriptor :=
  mkDescriptor (MediaType d) (DescDigest d) (Size d) a.

(** The zero value [ocispec.Descriptor{}]. *)
Definition Descriptor_zero : Descriptor :=
  mkDescriptor "" (mkDigest "" "") 0 ∅.

(** [ocispec.Manifest]. *)
Record Manifest := mkManifest {
  SchemaVersion : Z;
  ManifestMediaType : string;
  Config : Descriptor;
  Layers : list Descriptor;
  ManifestAnnotations : gmap string string
}.

Definition Manifest_zero : Manifest :=
  mkManifest 0 "" Descriptor_zero [] ∅.

Definition with_MediaType (mt : string) (m : Manifest) : Manifest :=
  mkManifest (SchemaVersion m) mt (Config m) (Layers m) (ManifestAnnotations m).
Definition with_Layers (l : list Descriptor) (m : Manifest) : Manifest :=
  mkManifest (SchemaVersion m) (ManifestMediaType m) (Config m) l (ManifestAnnotations m).
Definition with_Config (c : Descriptor) (m : Manifest) : Manifest :=
  mkManifest (SchemaVersion m) (ManifestMediaType m) c (Layers m) (ManifestAnnotations m).
Definition with_SchemaVersion (v : Z) (m : Manifest) : Manifest :=
  mkManifest v (ManifestMediaType m) (Config m) (Layers m) (ManifestAnnotations m).
Definition with_Annotations (a : gmap string string) (m : Manifest) : Manifest :=
  mkManifest (SchemaVersion m) (ManifestMediaType m) (Config m) (Layers m) a.

(** [ocispec.Index]: the fields of [index.json]. *)
Record Index := mkIndex {
  IndexSchemaVersion : Z;
  IndexMediaType : string;
  Manifests : list Descriptor;
  IndexAnnotations : gmap string string
}.

Definition with_Manifests (l : list Descriptor) (ix : Index) : Index :=
  mkIndex (IndexSchemaVersion ix) (IndexMediaType ix) l (IndexAnnotations ix).

(** [oci.ConfigPartial] of zarf. *)
Record ConfigPartial := mkConfigPartial {
  CfgArchitecture : string;
  OCIVersion : string;
  CfgAnnotations : gmap string string
}.

(** Media types and annotation keys of the image specification and of
    zarf's [oci] package. *)
Definition MediaTypeImageManifest := "application/vnd.oci.image.manifest.v1+json".
Definition MediaTypeImageConfig := "application/vnd.oci.image.config.v1+json".
Definition MediaTypeImageIndex := "application/vnd.oci.image.index.v1+json".
Definition ZarfLayerMediaTypeBlob := "application/vnd.zarf.layer.v1.blob".

Definition AnnotationTitle := "org.opencontainers.image.title".
Definition AnnotationDescription := "org.opencontainers.image.description".
Definition AnnotationURL := "org.opencontainers.image.url".
Definition AnnotationAuthors := "org.opencontainers.image.authors".
Definition AnnotationDocumentation := "org.opencontainers.image.documentation".
Definition AnnotationSource := "org.opencontainers.image.source".
Definition AnnotationVendor := "org.opencontainers.image.vendor".

(** ** Hexadecimal form of a digest *)

(** [hex.EncodeToString]: two lowercase digits per byte, high nibble first. *)
Definition hex_digit (n : N) : ascii :=
  match n with
  | 0 => "0" | 1 => "1" | 2 => "2" | 3 => "3" | 4 => "4" | 5 => "5"
  | 6 => "6" | 7 => "7" | 8 => "8" | 9 => "9" | 10 => "a" | 11 => "b"
  | 12 => "c" | 13 => "d" | 14 => "e" | _ => "f"
  end%N%char.

Fixpoint hex_encode (bs : bytes) : string :=
  match bs with
  | [] => EmptyString
  | b :: rest =>
      let n := Byte.to_N b in
      String (hex_digit (n / 16)) (String (hex_digit (n mod 16)) (hex_encode rest))
  end.

(** The character class [[0-9a-f]]. *)
Definition is_lower_hex (c : ascii) : bool :=
  let n := N_of_ascii c in
  ((48 <=? n) && (n <=? 57) || (97 <=? n) && (n <=? 102))%N.

Fixpoint all_chars (p : ascii -> bool) (s : string) : bool :=
  match s with
  | EmptyString => true
  | String c rest => p c && all_chars p rest
  end.

(** ** package types *)

Module types.

(** [types.ZarfPackage]: the fields read or written by the bundler. *)
Record ZarfPackage := mkZarfPackage {
  Name : string;
  Repository : string;
  Path : string;
  Ref : string
}.

Definition set_Ref (r : string) (p : ZarfPackage) : ZarfPackage :=
  mkZarfPackage (Name p) (Repository p) (Path p) r.

Record UDSMetadata := mkUDSMetadata {
  MetaName : string;
  Description : string;
  Version : string;
  Architecture : string;
  URL : string;
  Authors : string;
  Documentation : string;
  Source : string;
  Vendor : string
}.

Record UDSBuildData := mkUDSBuildData {
  BuildArchitecture : string
}.

Record UDSBundle := mkUDSBundle {
  Metadata : UDSMetadata;
  Build : UDSBuildData;
  ZarfPackages : list ZarfPackage
}.

Definition set_ZarfPackages (l : list ZarfPackage) (b : UDSBundle) : UDSBundle :=
  mkUDSBundle (Metadata b) (Build b) l.

End types.

Global Instance ZarfPackage_eq_dec : EqDecision types.ZarfPackage.
Proof. solve_decision. Defined.

(** ** The world the bundler acts on *)

(** [PathMap]: source path on disk to path inside the archive. *)
Abbreviation PathMap := (gmap string string).

(** The OCI image layout under [b.tmp] together with the in-memory index
    of the oras store opened on it.  [cs_blobs] is the directory
    [blobs/sha256], keyed by file name (the hex digest); [cs_tags] are the
    manifests the store has tagged, which it saves to [index.json]. *)
Record CS := mkCS {
  cs_blobs : gmap string bytes;
  cs_index_json : option bytes;
  cs_oci_layout : option bytes;
  cs_tags : list Descriptor
}.

(** The destination repository of [remoteDst]: blobs by digest, manifests
    by the reference they were pushed under. *)
Record Registry := mkRegistry {
  reg_blobs : gmap string bytes;
  reg_manifests : gmap string (Descriptor * bytes)
}.

(** A local package once extracted into its scratch directory. *)
Record Extracted := mkExtracted {
  ex_zarf_yaml : bytes;
  ex_manifest : Manifest;
  ex_blobs : list bytes
}.

(** Which of the two destinations a remote bundler was built with. *)
Inductive Dest := DestStore | DestRemote.

(** Calls that leave the process, in the order they happen.  The index [i]
    is the position of the child package in [bundle.ZarfPackages]. *)
Inductive Event :=
| EvStoreNew (root : string)
| EvNewRemoteBundler (i : nat) (url : string)
| EvPushManifest (i : nat)
| EvPushLayers (i : nat)
| EvMakeTempDir (i : nat)
| EvExtract (i : nat) (path : string)
| EvLoad (i : nat)
| EvToBundle (i : nat)
| EvStorePush (d : Descriptor) (content : bytes)
| EvReadIndex
| EvWriteIndex (content : bytes)
| EvRegistryPush (d : Descriptor) (content : bytes)
| EvRegistryPushReference (ref : string) (d : Descriptor) (content : bytes)
| EvArchive (dst : string)
| EvRemoveAll (path : string).

(** Events of the local-archive workflow, with the child they belong to. *)
Definition local_event (e : Event) : option nat :=
  match e with
  | EvMakeTempDir i | EvExtract i _ | EvLoad i | EvToBundle i => Some i
  | _ => None
  end.

(** Events of the remote mirror of a child. *)
Definition remote_event (e : Event) : option nat :=
  match e with
  | EvNewRemoteBundler i _ | EvPushManifest i | EvPushLayers i => Some i
  | _ => None
  end.

Record State := mkState {
  s_bundle : types.UDSBundle;         (* [b.bundle], shared through the pointer *)
  s_cs : CS;                          (* the layout under [b.tmp] *)
  s_registry : Registry;              (* [remoteDst] *)
  s_scratch : gmap string Extracted;  (* per-package scratch directories *)
  s_out : gmap string bytes;          (* files written outside [b.tmp] *)
  s_defer : list string;              (* pending [defer os.RemoveAll(..)] *)
  s_trace : list Event
}.

Definition upd_bundle (f : types.UDSBundle -> types.UDSBundle) (s : State) : State :=
  mkState (f (s_bundle s)) (s_cs s) (s_registry s) (s_scratch s) (s_out s) (s_defer s) (s_trace s).
Definition upd_cs (f : CS -> CS) (s : State) : State :=
  mkState (s_bundle s) (f (s_cs s)) (s_registry s) (s_scratch s) (s_out s) (s_defer s) (s_trace s).
Definition upd_registry (f : Registry -> Registry) (s : State) : State :=
  mkState (s_bundle s) (s_cs s) (f (s_registry s)) (s_scratch s) (s_out s) (s_defer s) (s_trace s).
Definition upd_scratch (f : gmap string Extracted -> gmap string Extracted) (s : State) : State :=
  mkState (s_bundle s) (s_cs s) (s_registry s) (f (s_scratch s)) (s_out s) (s_defer s) (s_trace s).
Definition upd_out (f : gmap string bytes -> gmap string bytes) (s : State) : State :=
  mkState (s_bundle s) (s_cs s) (s_registry s) (s_scratch s) (f (s_out s)) (s_defer s) (s_trace s).
Definition upd_defer (f : list string -> list string) (s : State) : State :=
  mkState (s_bundle s) (s_cs s) (s_registry s) (s_scratch s) (s_out s) (f (s_defer s)) (s_trace s).
Definition log (e : Event) (s : State) : State :=
  mkState (s_bundle s) (s_cs s) (s_registry s) (s_scratch s) (s_out s) (s_defer s) (s_trace s ++ [e]).

(** ** The state and error monad *)

Definition M (A : Type) : Type := State -> State * result A.

Definition ret {A} (a : A) : M A := fun s => (s, Ok a).
Definition fail {A} (msg : string) : M A := fun s => (s, Err msg).
Definition bind {A B} (c : M A) (k : A -> M B) : M B :=
  fun s => match c s with
           | (s', Ok a) => k a s'
           | (s', Err e) => (s', Err e)
           end.
Definition get : M State := fun s => (s, Ok s).
Definition modify (f : State -> State) : M unit := fun s => (f s, Ok tt).
Definition emit (e : Event) : M unit := modify (log e).
Definition lift {A} (r : result A) : M A := fun s => (s, r).

Declare Scope go_scope.
Delimit Scope go_scope with go.
Notation "x <- c ;; k" := (bind c (fun x => k))
  (at level 100, c at next level, right associativity) : go_scope.
Notation "c ;;; k" := (bind c (fun _ => k))
  (at level 100, right associativity) : go_scope.
Open Scope go_scope.

(** ** Code outside the translated files *)

(** Everything the bundler calls but that is not part of the translated
    sources: the standard library, oras, zarf, the archiver, and the
    remote half of this repository's [bundler] package.  The remote
    bundler acts on the layout and the registry in ways this development
    does not look into, so its methods are arbitrary transformers. *)
Record Env := mkEnv {
  (* package bundler, remote variant *)
  RemoteBundler : Type;
  NewRemoteBundler_ : types.ZarfPackage -> string -> Dest -> result RemoteBundler;
  PushManifest_ : RemoteBundler -> CS * Registry -> (CS * Registry) * result Descriptor;
  PushLayers_ : RemoteBundler -> nat -> nat -> CS * Registry ->
                (CS * Registry) * result (list Descriptor);
  (* zarf *)
  ZarfPkg : Type;
  parse_zarf_yaml : bytes -> result ZarfPkg;
  pkg_annotations : ZarfPkg -> gmap string string;
  MakeTempDir_ : nat -> result string;
  (* crypto/sha256, encoding/json, goccy/go-yaml, path/filepath, os *)
  sha256_Sum : bytes -> bytes;
  json_Marshal_Manifest : Manifest -> bytes;
  json_Marshal_Index : Index -> bytes;
  json_Marshal_Config : ConfigPartial -> bytes;
  json_Unmarshal_Index : bytes -> result Index;
  goyaml_Marshal : types.UDSBundle -> result bytes;
  filepath_Join : list string -> string;
  os_Getwd : result string;
  os_Create_err : string -> option string;
  (* oras: opening the store on a directory; transport faults of a repository *)
  ocistore_New : string -> CS -> CS * result unit;
  registry_Push_err : Registry -> Descriptor -> bytes -> option string;
  registry_PushReference_err : Registry -> string -> Descriptor -> bytes -> option string;
  (* mholt/archiver: reading an archive; the files a path map names;
     [ArchiveAsync]: what it wrote and the error it returned, the result
     it sent for each file, and how many of these results the collecting
     loop of [writeTarball] came to read before the job queue was empty *)
  read_archive : string -> result Extracted;
  archiver_FilesFromDisk : PathMap -> CS -> result (list (string * bytes));
  archiver_Archive : list (string * bytes) -> bytes * option string;
  archive_results : list (string * bytes) -> list (option string);
  results_read : list (string * bytes) -> nat
}.

Section Model.

Context (E : Env).

(** *** oras: descriptors and the OCI store *)

(** [digest.FromBytes]. *)
Definition digest_FromBytes (content : bytes) : Digest :=
  mkDigest "sha256" (hex_encode (sha256_Sum E content)).

(** [content.NewDescriptorFromBytes]. *)
Definition NewDescriptorFromBytes (mediaType : string) (content : bytes) : Descriptor :=
  mkDescriptor mediaType (digest_FromBytes content) (Z.of_nat (length content)) ∅.

(** oras' [descriptor.IsManifest]. *)
Definition IsManifest (d : Descriptor) : bool :=
  bool_decide (MediaType d ∈
    [ "application/vnd.docker.distribution.manifest.v2+json";
      "application/vnd.docker.distribution.manifest.list.v2+json";
      MediaTypeImageManifest;
      MediaTypeImageIndex;
      "application/vnd.oci.artifact.manifest.v1+json" ]).

(** The content check of the store: digest and size of the descriptor
    against the bytes read. *)
Definition verifies (expected : Descriptor) (content : bytes) : bool :=
  bool_decide (DescDigest expected = digest_FromBytes content) &&
  bool_decide (Size expected = Z.of_nat (length content)).

(** [ocistore.NewWithContext]. *)
Definition ocistore_NewWithContext (root : string) : M unit :=
  emit (EvStoreNew root) ;;;
  fun s => let '(cs, r) := ocistore_New E root (s_cs s) in
           (upd_cs (fun _ => cs) s, r).

(** The store tags a pushed manifest by its digest and, with
    [AutoSaveIndex], saves [index.json] from its tags. *)
Definition store_tag (desc : Descriptor) (cs : CS) : CS :=
  let tags :=
    filter (fun d => DescDigest d ≠ DescDigest desc) (cs_tags cs) ++ [desc] in
  mkCS (cs_blobs cs)
       (Some (json_Marshal_Index E (mkIndex 2 "" tags ∅)))
       (cs_oci_layout cs) tags.

Definition store_write_blob (name : string) (content : bytes) (cs : CS) : CS :=
  mkCS (<[name := content]> (cs_blobs cs)) (cs_index_json cs) (cs_oci_layout cs) (cs_tags cs).

(** [Store.Push] of oras' [content/oci]: refuses a blob that is already there,
    checks the bytes against the descriptor, writes
    [blobs/sha256/<hex>], and tags the descriptor when it is a manifest. *)
Definition store_Push (expected : Descriptor) (content : bytes) : M unit :=
  emit (EvStorePush expected content) ;;;
  s <- get ;;
  let name := Encoded (DescDigest expected) in
  match cs_blobs (s_cs s) !! name with
  | Some _ =>
      fail (Digest_String (DescDigest expected) +:+ ": " +:+ MediaType expected +:+ ": already exists")
  | None =>
      if verifies expected content then
        modify (upd_cs (store_write_blob name content)) ;;;
        if IsManifest expected then modify (upd_cs (store_tag expected)) else ret tt
      else fail "mismatch digest or size"
  end.

(** *** zarf: [OrasRemote.PushLayer] and the manifest push *)

Definition registry_write_blob (d : Descriptor) (content : bytes) (r : Registry) : Registry :=
  mkRegistry (<[Encoded (DescDigest d) := content]> (reg_blobs r)) (reg_manifests r).

Definition registry_write_manifest (ref : string) (d : Descriptor) (content : bytes)
    (r : Registry) : Registry :=
  mkRegistry (<[Encoded (DescDigest d) := content]> (reg_blobs r))
             (<[ref := (d, content)]> (reg_manifests r)).

Definition PushLayer (b : bytes) (mediaType : string) : M Descriptor :=
  let desc := NewDescriptorFromBytes mediaType b in
  emit (EvRegistryPush desc b) ;;;
  s <- get ;;
  match registry_Push_err E (s_registry s) desc b with
  | Some e => fail e
  | None => modify (upd_registry (registry_write_blob desc b)) ;;; ret desc
  end.

(** [remoteDst.Repo().Manifests().PushReference]. *)
Definition PushReference (expected : Descriptor) (content : bytes) (reference : string) : M unit :=
  emit (EvRegistryPushReference reference expected content) ;;;
  s <- get ;;
  match registry_PushReference_err E (s_registry s) reference expected content with
  | Some e => fail e
  | None => modify (upd_registry (registry_write_manifest reference expected content))
  end.

(** *** package bundler, remote variant: calls into [Env] *)

Definition lift_world {A} (f : CS * Registry -> (CS * Registry) * result A) : M A :=
  fun s => let '((cs, reg), r) := f (s_cs s, s_registry s) in
           (upd_registry (fun _ => reg) (upd_cs (fun _ => cs) s), r).

Definition NewRemoteBundler (i : nat) (pkg : types.ZarfPackage) (url : string) (dst : Dest)
    : M (RemoteBundler E) :=
  emit (EvNewRemoteBundler i url) ;;;
  lift (NewRemoteBundler_ E pkg url dst).

Definition PushManifest (i : nat) (rb : RemoteBundler E) : M Descriptor :=
  emit (EvPushManifest i) ;;;
  lift_world (PushManifest_ E rb).

Definition PushLayers (i : nat) (rb : RemoteBundler E) (current total : nat)
    : M (list Descriptor) :=
  emit (EvPushLayers i) ;;;
  lift_world (PushLayers_ E rb current total).

(** *** package bundler, local variant *)

Record LocalBundler := mkLocalBundler { lb_path : string; lb_tmp : string }.

Definition NewLocalBundler (path pkgTmp : string) : LocalBundler :=
  mkLocalBundler path pkgTmp.

(** Modelled from the spec: [LocalBundler.Extract] of the [bundler]
    package, which is not among the translated files: "extract the
    child tar.zst into a per-child scratch directory". *)
Definition Extract (i : nat) (lb : LocalBundler) : M unit :=
  emit (EvExtract i (lb_path lb)) ;;;
  tree <- lift (read_archive E (lb_path lb)) ;;
  modify (upd_scratch (<[lb_tmp lb := tree]>)).

(** Modelled from the spec: [LocalBundler.Load] of the [bundler]
    package: "parse the child's zarf.yaml into the package-metadata
    type". *)
Definition Load (i : nat) (lb : LocalBundler) : M (ZarfPkg E) :=
  emit (EvLoad i) ;;;
  s <- get ;;
  match s_scratch s !! lb_tmp lb with
  | None => fail "zarf.yaml: no such file or directory"
  | Some tree => lift (parse_zarf_yaml E (ex_zarf_yaml tree))
  end.

(** The content store's [put] of the spec: "a second call with the same
    descriptor is a no-op", otherwise the store's push. *)
Definition cs_put (desc : Descriptor) (content : bytes) : M unit :=
  s <- get ;;
  match cs_blobs (s_cs s) !! Encoded (DescDigest desc) with
  | Some _ => ret tt
  | None => store_Push desc content
  end.

Definition blob_src (bundleTmp digest : string) : string :=
  filepath_Join E [bundleTmp; config.BlobsDir; digest].
Definition blob_dst (digest : string) : string :=
  filepath_Join E [config.BlobsDir; digest].

Fixpoint put_blobs (bundleTmp : string) (blobs : list bytes) (pathMap : PathMap) : M PathMap :=
  match blobs with
  | [] => ret pathMap
  | b :: rest =>
      let desc := NewDescriptorFromBytes ZarfLayerMediaTypeBlob b in
      cs_put desc b ;;;
      let digest := Encoded (DescDigest desc) in
      put_blobs bundleTmp rest (<[blob_src bundleTmp digest := blob_dst digest]> pathMap)
  end.

(** Modelled from the spec: the rewrite inside [LocalBundler.ToBundle],
    "rewrite the child's manifest to use the target media-type and
    annotations expected by bundle consumers"; which annotations those
    are is left to [pkg_annotations]. *)
Definition rewrite_manifest (zarfPkg : ZarfPkg E) (m : Manifest) : Manifest :=
  with_Annotations (pkg_annotations E zarfPkg)
    (with_MediaType MediaTypeImageManifest m).

(** Modelled from the spec: [LocalBundler.ToBundle] of the [bundler]
    package: "for each blob file under the scratch blobs/sha256/
    directory, put it into the shared bundle CS, rewrite the child's
    manifest to use the target media-type and annotations expected by
    bundle consumers, push the rewritten manifest into CS, and append
    every resulting path into the shared PathMap.  Returns the
    descriptor of the rewritten manifest."  The map is shared in Go; here
    the updated map is returned next to the descriptor. *)
Definition ToBundle (i : nat) (lb : LocalBundler) (zarfPkg : ZarfPkg E)
    (pathMap : PathMap) (bundleTmp pkgTmp : string) : M (Descriptor * PathMap) :=
  emit (EvToBundle i) ;;;
  s <- get ;;
  match s_scratch s !! pkgTmp with
  | None => fail "blobs/sha256: no such file or directory"
  | Some tree =>
      pathMap <- put_blobs bundleTmp (ex_blobs tree) pathMap ;;
      let rewritten := rewrite_manifest zarfPkg (ex_manifest tree) in
      let manifestBytes := json_Marshal_Manifest E rewritten in
      let desc := NewDescriptorFromBytes MediaTypeImageManifest manifestBytes in
      cs_put desc manifestBytes ;;;
      let digest := Encoded (DescDigest desc) in
      ret (desc, <[blob_src bundleTmp digest := blob_dst digest]> pathMap)
  end.

(** *** package bundle *)

Import types.

(** [utils.MakeTempDir] followed by [defer os.RemoveAll(pkgTmp)]: the
    removal is registered before the error is looked at, and on an
    error the returned path is empty. *)
Definition MakeTempDir (i : nat) : M string :=
  emit (EvMakeTempDir i) ;;;
  match MakeTempDir_ E i with
  | Ok pkgTmp => modify (upd_defer (cons pkgTmp)) ;;; ret pkgTmp
  | Err e => modify (upd_defer (cons "")) ;;; fail e
  end.

Definition manifestAnnotationsFromMetadata (metadata : UDSMetadata) : gmap string string :=
  let annotations := {[ AnnotationDescription := Description metadata ]} in
  let annotations :=
    if decide (URL metadata ≠ "")
    then <[AnnotationURL := URL metadata]> annotations else annotations in
  let annotations :=
    if decide (Authors metadata ≠ "")
    then <[AnnotationAuthors := Authors metadata]> annotations else annotations in
  let annotations :=
    if decide (Documentation metadata ≠ "")
    then <[AnnotationDocumentation := Documentation metadata]> annotations else annotations in
  let annotations :=
    if decide (Source metadata ≠ "")
    then <[AnnotationSource := Source metadata]> annotations else annotations in
  let annotations :=
    if decide (Vendor metadata ≠ "")
    then <[AnnotationVendor := Vendor metadata]> annotations else annotations in
  annotations.

(** The [oci.ConfigPartial] both config functions marshal. *)
Definition manifestConfig (metadata : UDSMetadata) (build : UDSBuildData) : ConfigPartial :=
  let annotations : gmap string string :=
    <[AnnotationTitle := MetaName metadata]>
      {[ AnnotationDescription := Description metadata ]} in
  mkConfigPartial (BuildArchitecture build) "1.0.1" annotations.

(** [createManifestConfig]; [json.Marshal] has no error on this type. *)
Definition createManifestConfig (metadata : UDSMetadata) (build : UDSBuildData)
    : result Descriptor :=
  let manifestConfigBytes := json_Marshal_Config E (manifestConfig metadata build) in
  let manifestConfigDesc :=
    NewDescriptorFromBytes MediaTypeImageManifest manifestConfigBytes in
  Ok manifestConfigDesc.

Definition pushManifestConfigFromMetadata (metadata : UDSMetadata) (build : UDSBuildData)
    : M Descriptor :=
  let manifestConfigBytes := json_Marshal_Config E (manifestConfig metadata build) in
  PushLayer manifestConfigBytes MediaTypeImageConfig.

Definition pushBundleManifestToStore (bundle : UDSBundle) : M Descriptor :=
  bundleManifestBytes <- lift (goyaml_Marshal E bundle) ;;
  let bundleYamlDesc := NewDescriptorFromBytes ZarfLayerMediaTypeBlob bundleManifestBytes in
  let bundleYamlDesc :=
    set_Annotations {[ AnnotationTitle := config.BundleYAML ]} bundleYamlDesc in
  store_Push bundleYamlDesc bundleManifestBytes ;;;
  ret bundleYamlDesc.

Definition pushBundleSignature (signature : bytes) : M Descriptor :=
  let signatureDesc := NewDescriptorFromBytes ZarfLayerMediaTypeBlob signature in
  store_Push signatureDesc signature ;;;
  let signatureDesc :=
    set_Annotations {[ AnnotationTitle := config.BundleYAMLSignature ]} signatureDesc in
  ret signatureDesc.

(** [under dir p]: the path [p] is [dir] or lies below it, with the
    separator of Linux and macOS, the systems the binary is built
    for. *)
Definition under (dir p : string) : Prop :=
  p = dir \/ String.prefix (dir +:+ "/") p = true.

(** [os.RemoveAll]: the path goes, and with it whatever lies below. *)
Definition os_RemoveAll (path : string) (files : gmap string bytes) : gmap string bytes :=
  filter (fun kv => ~ under path kv.1) files.

(** The first error among the results of the archive jobs. *)
Fixpoint first_error (results : list (option string)) : option string :=
  match results with
  | [] => None
  | Some e :: _ => Some e
  | None :: rest => first_error rest
  end.

(** [writeTarball].  [ArchiveAsync] runs in a goroutine and sends one
    result per file; the loop [for len(jobs) != 0] reads results only
    while jobs are left in the queue and returns the first error it
    reads, so the results of the last files may stay unread.  After the
    loop only the error of [Wait], the one [ArchiveAsync] returned, is
    looked at.  The error of [os.RemoveAll] is dropped by the source. *)
Definition writeTarball (bundle : UDSBundle) (artifactPathMap : PathMap) : M unit :=
  let filename :=
    config.BundlePrefix +:+ MetaName (Metadata bundle) +:+ "-" +:+
    Architecture (Metadata bundle) +:+ "-" +:+ Version (Metadata bundle) +:+ ".tar.zst" in
  cwd <- lift (os_Getwd E) ;;
  let dst := filepath_Join E [cwd; filename] in
  emit (EvArchive dst) ;;;
  modify (upd_out (os_RemoveAll dst)) ;;;
  match os_Create_err E dst with
  | Some e => fail e
  | None =>
      modify (upd_out (<[dst := []]>)) ;;;
      s <- get ;;
      files <- lift (archiver_FilesFromDisk E artifactPathMap (s_cs s)) ;;
      let '(written, waitErr) := archiver_Archive E files in
      modify (upd_out (<[dst := written]>)) ;;;
      match first_error (take (results_read E files) (archive_results E files)) with
      | Some e => fail e
      | None =>
          match waitErr with
          | Some e => fail e
          | None => ret tt
          end
      end
  end.

Definition add_blob_path (b_tmp : string) (artifactPathMap : PathMap) (d : Descriptor)
    : PathMap :=
  let digest := Encoded (DescDigest d) in
  <[blob_src b_tmp digest := blob_dst digest]> artifactPathMap.

(** [bundle.ZarfPackages[i].Ref = ...] through the shared bundle. *)
Definition set_package_ref (i : nat) (arch digest : string) : M unit :=
  modify (upd_bundle (fun b =>
    set_ZarfPackages
      (alter (fun p => set_Ref (Ref p +:+ "-" +:+ arch +:+ "@sha256:" +:+ digest) p)
             i (ZarfPackages b)) b)).

(** One iteration of the loop of [Create] over [bundle.ZarfPackages].
    [NewLocalBundler] returns no error; the test that follows it in the
    source looks at the error of [MakeTempDir] again, which is nil there. *)
Definition Create_pkg (b_tmp : string) (total : nat) (i : nat) (pkg : ZarfPackage)
    (acc : Manifest * PathMap) : M (Manifest * PathMap) :=
  let '(rootManifest, artifactPathMap) := acc in
  if decide (Repository pkg ≠ "") then
    let url := Repository pkg +:+ ":" +:+ Ref pkg in
    remoteBundler <- NewRemoteBundler i pkg url DestStore ;;
    pkgManifestDesc <- PushManifest i remoteBundler ;;
    let rootManifest := with_Layers (Layers rootManifest ++ [pkgManifestDesc]) rootManifest in
    let artifactPathMap := add_blob_path b_tmp artifactPathMap pkgManifestDesc in
    layerDescs <- PushLayers i remoteBundler (i + 1) total ;;
    let artifactPathMap := foldl (add_blob_path b_tmp) artifactPathMap layerDescs in
    ret (rootManifest, artifactPathMap)
  else if decide (Path pkg ≠ "") then
    pkgTmp <- MakeTempDir i ;;
    let localBundler := NewLocalBundler (Path pkg) pkgTmp in
    Extract i localBundler ;;;
    zarfPkg <- Load i localBundler ;;
    r <- ToBundle i localBundler zarfPkg artifactPathMap b_tmp pkgTmp ;;
    let '(zarfPkgDesc, artifactPathMap) := r in
    s <- get ;;
    set_package_ref i (Architecture (Metadata (s_bundle s)))
                    (Encoded (DescDigest zarfPkgDesc)) ;;;
    let rootManifest := with_Layers (Layers rootManifest ++ [zarfPkgDesc]) rootManifest in
    let artifactPathMap := add_blob_path b_tmp artifactPathMap zarfPkgDesc in
    ret (rootManifest, artifactPathMap)
  else
    fail "todo: haven't we already validated that Path or Repository is valid".

Fixpoint Create_loop (b_tmp : string) (total : nat) (i : nat) (pkgs : list ZarfPackage)
    (acc : Manifest * PathMap) : M (Manifest * PathMap) :=
  match pkgs with
  | [] => ret acc
  | pkg :: rest =>
      acc <- Create_pkg b_tmp total i pkg acc ;;
      Create_loop b_tmp total (S i) rest acc
  end.

(** The rewrite of [index.json] at the end of [Create]. *)
Definition rebuild_index (b_tmp : string) (manifestDesc : Descriptor) : M unit :=
  emit EvReadIndex ;;;
  s <- get ;;
  match cs_index_json (s_cs s) with
  | None => fail "open index.json: no such file or directory"
  | Some indexBytes =>
      index <- lift (json_Unmarshal_Index E indexBytes) ;;
      let index := with_Manifests [manifestDesc] index in
      let bundleIndexBytes := json_Marshal_Index E index in
      match os_Create_err E (filepath_Join E [b_tmp; "index.json"]) with
      | Some e => fail e
      | None =>
          emit (EvWriteIndex bundleIndexBytes) ;;;
          modify (upd_cs (fun cs =>
            mkCS (cs_blobs cs) (Some bundleIndexBytes) (cs_oci_layout cs) (cs_tags cs)))
      end
  end.

(** The body of [Create], for [b] with [b.bundle] the bundle of the
    state and [b.tmp = b_tmp].  The in-memory [rootManifest] as it
    stands when the function returns is the result. *)
Definition Create_body (b_tmp : string) (signature : bytes) : M Manifest :=
  s0 <- get ;;
  if decide (Architecture (Metadata (s_bundle s0)) = "") then
    fail "architecture is required for bundling"
  else
    ocistore_NewWithContext b_tmp ;;;
    let artifactPathMap : PathMap := ∅ in
    let rootManifest := with_MediaType MediaTypeImageManifest Manifest_zero in
    acc <- Create_loop b_tmp (length (ZarfPackages (s_bundle s0))) 0
             (ZarfPackages (s_bundle s0)) (rootManifest, artifactPathMap) ;;
    let '(rootManifest, artifactPathMap) := acc in
    s1 <- get ;;
    let bundle := s_bundle s1 in
    bundleManifestDesc <- pushBundleManifestToStore bundle ;;
    let rootManifest := with_Layers (Layers rootManifest ++ [bundleManifestDesc]) rootManifest in
    let artifactPathMap := add_blob_path b_tmp artifactPathMap bundleManifestDesc in
    manifestConfigDesc <- lift (createManifestConfig (Metadata bundle) (Build bundle)) ;;
    let rootManifest := with_Config manifestConfigDesc rootManifest in
    let rootManifest := with_SchemaVersion 2 rootManifest in
    let rootManifest :=
      with_Annotations (manifestAnnotationsFromMetadata (Metadata bundle)) rootManifest in
    let manifestBytes := json_Marshal_Manifest E rootManifest in
    let manifestDesc := NewDescriptorFromBytes MediaTypeImageManifest manifestBytes in
    store_Push manifestDesc manifestBytes ;;;
    let artifactPathMap := add_blob_path b_tmp artifactPathMap manifestDesc in
    rebuild_index b_tmp manifestDesc ;;;
    let artifactPathMap :=
      <[filepath_Join E [b_tmp; "index.json"] := "index.json"]> artifactPathMap in
    let artifactPathMap :=
      <[filepath_Join E [b_tmp; "oci-layout"] := "oci-layout"]> artifactPathMap in
    rootManifest <-
      (if decide (0 < length signature)%nat then
         signatureDesc <- pushBundleSignature signature ;;
         ret (with_Layers (Layers rootManifest ++ [signatureDesc]) rootManifest)
       else ret rootManifest) ;;
    writeTarball bundle artifactPathMap ;;;
    ret rootManifest.

(** The deferred [os.RemoveAll] calls, last registered first. *)
Fixpoint run_defers (paths : list string) (s : State) : State :=
  match paths with
  | [] => s
  | p :: rest => run_defers rest (upd_scratch (delete p) (log (EvRemoveAll p) s))
  end.

(** A function body with its own list of deferred removals, run when
    the body returns, with or without an error. *)
Definition with_defers {A} (body : M A) : M A :=
  fun s => let '(s', r) := body (upd_defer (fun _ => []) s) in
           (upd_defer (fun _ => s_defer s) (run_defers (s_defer s') s'), r).

(** [Create]: the error is all the Go function returns. *)
Definition Create (b_tmp : string) (signature : bytes) : M unit :=
  with_defers (Create_body b_tmp signature ;;; ret tt).

(** One iteration of the loop of [CreateAndPublish]. *)
Definition CreateAndPublish_pkg (total : nat) (i : nat) (pkg : ZarfPackage)
    (rootManifest : Manifest) : M Manifest :=
  let url := Repository pkg +:+ ":" +:+ Ref pkg in
  remoteBundler <- NewRemoteBundler i pkg url DestRemote ;;
  zarfManifestDesc <- PushManifest i remoteBundler ;;
  let zarfManifestDesc := set_MediaType MediaTypeImageManifest zarfManifestDesc in
  let rootManifest := with_Layers (Layers rootManifest ++ [zarfManifestDesc]) rootManifest in
  PushLayers i remoteBundler (i + 1) total ;;;
  ret rootManifest.

Fixpoint CreateAndPublish_loop (total : nat) (i : nat) (pkgs : list ZarfPackage)
    (rootManifest : Manifest) : M Manifest :=
  match pkgs with
  | [] => ret rootManifest
  | pkg :: rest =>
      rootManifest <- CreateAndPublish_pkg total i pkg rootManifest ;;
      CreateAndPublish_loop total (S i) rest rootManifest
  end.

(** [CreateAndPublish]; [reference] is [dstRef.Reference] of
    [remoteDst], whose repository is the registry of the state. *)
Definition CreateAndPublish (reference : string) (bundle : UDSBundle) (signature : bytes)
    : M unit :=
  if decide (Architecture (Metadata bundle) = "") then
    fail "architecture is required for bundling"
  else
    let rootManifest := Manifest_zero in
    rootManifest <- CreateAndPublish_loop (length (ZarfPackages bundle)) 0
                      (ZarfPackages bundle) rootManifest ;;
    bundleYamlBytes <- lift (goyaml_Marshal E bundle) ;;
    bundleYamlDesc <- PushLayer bundleYamlBytes ZarfLayerMediaTypeBlob ;;
    let bundleYamlDesc :=
      set_Annotations {[ AnnotationTitle := config.BundleYAML ]} bundleYamlDesc in
    let rootManifest := with_Layers (Layers rootManifest ++ [bundleYamlDesc]) rootManifest in
    rootManifest <-
      (if decide (0 < length signature)%nat then
         bundleYamlSigDesc <- PushLayer signature ZarfLayerMediaTypeBlob ;;
         let bundleYamlSigDesc :=
           set_Annotations {[ AnnotationTitle := config.BundleYAMLSignature ]}
                           bundleYamlSigDesc in
         ret (with_Layers (Layers rootManifest ++ [bundleYamlSigDesc]) rootManifest)
       else ret rootManifest) ;;
    configDesc <- pushManifestConfigFromMetadata (Metadata bundle) (Build bundle) ;;
    let rootManifest := with_Config configDesc rootManifest in
    let rootManifest := with_SchemaVersion 2 rootManifest in
    let rootManifest :=
      with_Annotations (manifestAnnotationsFromMetadata (Metadata bundle)) rootManifest in
    let b := json_Marshal_Manifest E rootManifest in
    let expected := NewDescriptorFromBytes MediaTypeImageManifest b in
    (fun s => match PushReference expected b reference s with
              | (s', Err e) => (s', Err ("failed to push manifest: " +:+ e))
              | ok => ok
              end) ;;;
    ret tt.

End Model.

(** ** A small environment to run the model on *)

(** Stand-ins for the parameters of [Env], simple enough to evaluate:
    the digest keeps the length, two checksums and the first bytes of the
    content; the encoders write a tag and the digests they refer to. *)
Module demo.

Import types.

Definition byte_of (n : N) : byte :=
  match Byte.of_N (n mod 256) with Some b => b | None => x00 end.

Definition checksum (content : bytes) : N :=
  foldl (fun acc b => (acc * 31 + Byte.to_N b) mod 65521)%N 7%N content.

Definition sha256 (content : bytes) : bytes :=
  let c := checksum content in
  [byte_of (N.of_nat (length content)); byte_of c; byte_of (c / 256)] ++
  take 29 (content ++ repeat x00 29).

Definition text (s : string) : bytes := list_byte_of_string s.

Definition digests (l : list Descriptor) : string :=
  String.concat "," (map (fun d => Encoded (DescDigest d)) l).

Definition marshal_manifest (m : Manifest) : bytes :=
  text ("manifest " +:+ ManifestMediaType m +:+ " " +:+ digests (Layers m)).

Definition marshal_index (ix : Index) : bytes :=
  text ("index " +:+ digests (Manifests ix)).

Definition marshal_config (c : ConfigPartial) : bytes :=
  text ("config " +:+ CfgArchitecture c +:+ " " +:+ OCIVersion c).

Definition marshal_bundle (b : UDSBundle) : result bytes :=
  Ok (text ("bundle " +:+ MetaName (Metadata b) +:+ " " +:+
            String.concat "," (map Ref (ZarfPackages b)))).

(** Opening the store on an empty directory writes an empty index. *)
Definition store_new (root : string) (cs : CS) : CS * result unit :=
  (mkCS (cs_blobs cs) (Some (text "index ")) (Some (text "oci-layout")) [], Ok tt).

(** The remote bundler of the demo: the child manifest is a short text
    made from the URL; pushing it into the store also lists it in
    [index.json], as the store does for every manifest. *)
Definition child_manifest (url : string) : bytes := text ("child " +:+ url).

Definition child_desc (url : string) : Descriptor :=
  mkDescriptor MediaTypeImageManifest
    (mkDigest "sha256" (hex_encode (sha256 (child_manifest url))))
    (Z.of_nat (length (child_manifest url))) ∅.

Definition push_manifest (url : string) (w : CS * Registry)
    : (CS * Registry) * result Descriptor :=
  let '(cs, reg) := w in
  let d := child_desc url in
  let tags := cs_tags cs ++ [d] in
  ((mkCS (<[Encoded (DescDigest d) := child_manifest url]> (cs_blobs cs))
         (Some (marshal_index (mkIndex 2 "" tags ∅)))
         (cs_oci_layout cs) tags,
    mkRegistry (<[Encoded (DescDigest d) := child_manifest url]> (reg_blobs reg))
               (reg_manifests reg)),
   Ok d).

Definition push_layers (url : string) (current total : nat) (w : CS * Registry)
    : (CS * Registry) * result (list Descriptor) :=
  (w, Ok []).

Definition archive (path : string) : result Extracted :=
  Ok (mkExtracted (text ("zarf.yaml of " +:+ path))
                  (mkManifest 2 "" Descriptor_zero [] ∅)
                  [text ("layer of " +:+ path)]).

Definition env : Env :=
  {| RemoteBundler := string;
     NewRemoteBundler_ := fun _ url _ => Ok url;
     PushManifest_ := push_manifest;
     PushLayers_ := push_layers;
     ZarfPkg := bytes;
     parse_zarf_yaml := fun b => Ok b;
     pkg_annotations := fun _ => ∅;
     MakeTempDir_ := fun i => Ok ("/tmp/zarf-" +:+ pretty i);
     sha256_Sum := sha256;
     json_Marshal_Manifest := marshal_manifest;
     json_Marshal_Index := marshal_index;
     json_Marshal_Config := marshal_config;
     json_Unmarshal_Index := fun _ => Ok (mkIndex 2 "" [] ∅);
     goyaml_Marshal := marshal_bundle;
     filepath_Join := String.concat "/";
     os_Getwd := Ok "/work";
     os_Create_err := fun _ => None;
     ocistore_New := store_new;
     registry_Push_err := fun _ _ _ => None;
     registry_PushReference_err := fun _ _ _ _ => None;
     read_archive := archive;
     archiver_FilesFromDisk := fun _ _ => Ok [];
     archiver_Archive := fun _ => ([], None);
     archive_results := fun files => map (fun _ => None) files;
     results_read := fun _ => 0 |}.

(** A second environment, whose remote bundlers do as they are built:
    with the store as destination and no remote, as in [Create], the
    child manifest goes into the store and nowhere else; with a remote
    and no store, as in [CreateAndPublish], it goes to the registry and
    nowhere else.  The host "down.example" cannot be reached. *)
Definition push_manifest_to (b : string * Dest) (w : CS * Registry)
    : (CS * Registry) * result Descriptor :=
  let '((cs, reg), r) := push_manifest (fst b) w in
  match snd b with
  | DestStore => ((cs, snd w), r)
  | DestRemote => ((fst w, reg), r)
  end.

Definition strict_env : Env :=
  {| RemoteBundler := string * Dest;
     NewRemoteBundler_ := fun pkg url dst =>
       if decide (Repository pkg = "down.example/d")
       then Err "down.example: no such host" else Ok (url, dst);
     PushManifest_ := push_manifest_to;
     PushLayers_ := fun _ _ _ w => (w, Ok []);
     ZarfPkg := bytes;
     parse_zarf_yaml := fun b => Ok b;
     pkg_annotations := fun _ => ∅;
     MakeTempDir_ := fun i => Ok ("/tmp/zarf-" +:+ pretty i);
     sha256_Sum := sha256;
     json_Marshal_Manifest := marshal_manifest;
     json_Marshal_Index := marshal_index;
     json_Marshal_Config := marshal_config;
     json_Unmarshal_Index := fun _ => Ok (mkIndex 2 "" [] ∅);
     goyaml_Marshal := marshal_bundle;
     filepath_Join := String.concat "/";
     os_Getwd := Ok "/work";
     os_Create_err := fun _ => None;
     ocistore_New := store_new;
     registry_Push_err := fun _ _ _ => None;
     registry_PushReference_err := fun _ _ _ _ => None;
     read_archive := archive;
     archiver_FilesFromDisk := fun _ _ => Ok [];
     archiver_Archive := fun _ => ([], None);
     archive_results := fun files => map (fun _ => None) files;
     results_read := fun _ => 0 |}.

Definition empty_cs : CS := mkCS ∅ None None [].
Definition empty_registry : Registry := mkRegistry ∅ ∅.

Definition metadata (arch : string) : UDSMetadata :=
  mkUDSMetadata "demo" "a demo bundle" "0.0.1" arch "" "" "" "" "".

Definition bundle_of (arch : string) (pkgs : list ZarfPackage) : UDSBundle :=
  mkUDSBundle (metadata arch) (mkUDSBuildData arch) pkgs.

Definition init (b : UDSBundle) : State :=
  mkState b empty_cs empty_registry ∅ ∅ [] [].

Definition remote_pkg : ZarfPackage := mkZarfPackage "a" "r.example/a" "" "1.0".
Definition local_pkg : ZarfPackage := mkZarfPackage "b" "" "pkgs/b.tar.zst" "v1".
Definition both_pkg : ZarfPackage := mkZarfPackage "c" "r.example/c" "pkgs/c.tar.zst" "2.0".
Definition neither_pkg : ZarfPackage := mkZarfPackage "podinfo" "" "" "0.1".

Definition down_pkg : ZarfPackage := mkZarfPackage "d" "down.example/d" "" "3.0".

Definition signature : bytes := text "sig".

(** A bundle with a remote child, a local child, and a child that has
    both a repository and a path; the states [Create] and
    [CreateAndPublish] end in. *)
Definition three : UDSBundle := bundle_of "amd64" [remote_pkg; local_pkg; both_pkg].

Definition created : State :=
  fst (Create env "/tmp/bundle" signature (init three)).

Definition one : UDSBundle := bundle_of "amd64" [remote_pkg].

(** Two bundles whose second child fails: one with neither repository
    nor path, one on a host that cannot be reached. *)
Definition broken : UDSBundle := bundle_of "amd64" [remote_pkg; neither_pkg; both_pkg].
Definition unreachable : UDSBundle := bundle_of "amd64" [remote_pkg; down_pkg; both_pkg].

Definition published : State :=
  fst (CreateAndPublish env "0.0.1" one signature (init one)).

End demo.

(** Does [s] occur inside [t]? *)
Fixpoint is_prefix (s t : string) : bool :=
  match s, t with
  | EmptyString, _ => true
  | String a s', String b t' => bool_decide (a = b) && is_prefix s' t'
  | String _ _, EmptyString => false
  end.

Fixpoint contains (s t : string) : bool :=
  is_prefix s t ||
  match t with
  | EmptyString => false
  | String _ t' => contains s t'
  end.

(** ** package test: the helpers of the end-to-end tests *)

Module test.

(** [UDSE2ETest]. *)
Record UDSE2ETest := mkUDSE2ETest {
  UdsBinPath : string;
  Arch : string;
  ApplianceMode : bool;
  ApplianceModeKeep : bool;
  RunClusterTests : bool;
  CommandLog : list string
}.

Definition set_CommandLog (l : list string) (e2e : UDSE2ETest) : UDSE2ETest :=
  mkUDSE2ETest (UdsBinPath e2e) (Arch e2e) (ApplianceMode e2e) (ApplianceModeKeep e2e)
               (RunClusterTests e2e) l.

(** [GetCLIName]; [GOOS] and [GOARCH] are the constants of [runtime]. *)
Definition GetCLIName (GOOS GOARCH : string) : string :=
  let binaryName := "" in
  if decide (GOOS = "linux") then "uds"
  else if decide (GOOS = "darwin") then
    if decide (GOARCH = "arm64") then "uds-mac-apple" else "uds-mac-intel"
  else binaryName.

(** [GetMismatchedArch]. *)
Definition GetMismatchedArch (e2e : UDSE2ETest) : string :=
  if decide (Arch e2e = "arm64") then "amd64" else "arm64".

(** [strings.Join]. *)
Fixpoint strings_Join (elems : list string) (sep : string) : string :=
  match elems with
  | [] => ""
  | [x] => x
  | x :: rest => x +:+ sep +:+ strings_Join rest sep
  end.

(** What [exec.CmdWithContext] gives back: standard output, standard
    error, and the error if the command failed. *)
Definition Output : Type := string * string * option string.

(** [UDS]: the command line is logged, then the binary is run; [exec] is
    [exec.CmdWithContext] with the print configuration. *)
Definition UDS (exec : string -> list string -> Output) (e2e : UDSE2ETest)
    (args : list string) : UDSE2ETest * Output :=
  let e2e := set_CommandLog (CommandLog e2e ++ [strings_Join args " "]) e2e in
  (e2e, exec (UdsBinPath e2e) args).

(** [strings.Trim] with a cutset of one ASCII character: the characters
    equal to [c] are cut off both ends. *)
Fixpoint trimLeftByte (s : string) (c : ascii) : string :=
  match s with
  | EmptyString => EmptyString
  | String a rest => if decide (a = c) then trimLeftByte rest c else s
  end.

Fixpoint trimRightByte (s : string) (c : ascii) : string :=
  match s with
  | EmptyString => EmptyString
  | String a rest =>
      match trimRightByte rest c with
      | EmptyString => if decide (a = c) then EmptyString else String a EmptyString
      | rest' => String a rest'
      end
  end.

Definition strings_Trim (s : string) (c : ascii) : string :=
  trimLeftByte (trimRightByte s c) c.

(** The line feed, the cutset of [GetUdsVersion]. *)
Definition LF : ascii := ascii_of_nat 10.

(** [GetUdsVersion]: [require.NoError] stops the test when the command
    failed, which is the result [None]. *)
Definition GetUdsVersion (exec : string -> list string -> Output) (e2e : UDSE2ETest)
    : UDSE2ETest * option string :=
  let '(e2e, (stdOut, stdErr, err)) := UDS exec e2e ["version"] in
  match err with
  | Some _ => (e2e, None)
  | None => (e2e, Some (strings_Trim stdOut LF))
  end.

End test.

(** ** Vocabulary of the statements *)

(** [emits P c]: whatever way [c] ends, it only appends events, and every
    event it appends satisfies [P]. *)
Definition emits {A} (P : Event -> Prop) (c : M A) : Prop :=
  forall s s' r, c s = (s', r) ->
    exists evs, s_trace s' = s_trace s ++ evs /\ Forall P evs.

(** [only_local_for L e]: if [e] belongs to the local-archive workflow of
    child [j], then child [j] of [L] has no repository and has a path. *)
Definition only_local_for (L : list types.ZarfPackage) (e : Event) : Prop :=
  forall j, local_event e = Some j ->
    exists pkg, L !! j = Some pkg /\ types.Repository pkg = "" /\ types.Path pkg ≠ "".

(** [keeps c]: however [c] ends, [b.bundle] is what it was. *)
Definition keeps {A} (c : M A) : Prop :=
  forall s s' r, c s = (s', r) -> s_bundle s' = s_bundle s.

(** The reference a local child gets: its own reference, the bundle
    architecture and the digest of its rewritten manifest. *)
Definition local_ref (E : Env) (arch : string) (pkg pkg' : types.ZarfPackage) : Prop :=
  exists tree zarfPkg,
    read_archive E (types.Path pkg) = Ok tree /\
    parse_zarf_yaml E (ex_zarf_yaml tree) = Ok zarfPkg /\
    pkg' = types.set_Ref
             (types.Ref pkg +:+ "-" +:+ arch +:+ "@sha256:" +:+
              Encoded (digest_FromBytes E
                (json_Marshal_Manifest E (rewrite_manifest E zarfPkg (ex_manifest tree)))))
             pkg.

(** What [Create] leaves in [bundle.ZarfPackages] for a child it has
    mirrored. *)
Definition mirrored (E : Env) (arch : string) (pkg pkg' : types.ZarfPackage) : Prop :=
  (types.Repository pkg ≠ "" /\ pkg' = pkg) \/
  (types.Repository pkg = "" /\ types.Path pkg ≠ "" /\ local_ref E arch pkg pkg').

(** Two manifests that differ in their layers only. *)
Definition same_header (m m' : Manifest) : Prop :=
  SchemaVersion m' = SchemaVersion m /\
  ManifestMediaType m' = ManifestMediaType m /\
  Config m' = Config m /\
  ManifestAnnotations m' = ManifestAnnotations m.

(** The descriptor [Create] makes for the signature blob. *)
Definition signature_desc (E : Env) (signature : bytes) : Descriptor :=
  set_Annotations {[ AnnotationTitle := config.BundleYAMLSignature ]}
    (NewDescriptorFromBytes E ZarfLayerMediaTypeBlob signature).

(** The descriptor both functions make for the [uds-bundle.yaml] blob. *)
Definition bundle_yaml_desc (E : Env) (yamlBytes : bytes) : Descriptor :=
  set_Annotations {[ AnnotationTitle := config.BundleYAML ]}
    (NewDescriptorFromBytes E ZarfLayerMediaTypeBlob yamlBytes).

(** The descriptor of a root manifest, as computed from its bytes. *)
Definition root_desc (E : Env) (m : Manifest) : Descriptor :=
  NewDescriptorFromBytes E MediaTypeImageManifest (json_Marshal_Manifest E m).

(** First and last character of a string, if any. *)
Definition first_char (s : string) : option ascii :=
  match s with
  | EmptyString => None
  | String a _ => Some a
  end.

Fixpoint last_char (s : string) : option ascii :=
  match s with
  | EmptyString => None
  | String a EmptyString => Some a
  | String _ rest => last_char rest
  end.

(** An annotation that is set only when its value is not empty. *)
Definition when_set (v : string) : option string :=
  if decide (v = "") then None else Some v.

(** Calls on the destination registry. *)
Definition registry_event (e : Event) : Prop :=
  match e with
  | EvRegistryPush _ _ | EvRegistryPushReference _ _ _ => True
  | _ => False
  end.

(** What [CreateAndPublish] may do: calls of the remote bundler and
    pushes to the registry. *)
Definition publish_event (e : Event) : Prop :=
  is_Some (remote_event e) \/ registry_event e.

(** A bundle without the references of its children: the metadata, the
    build data, and name, repository and path of every child, in order. *)
Definition shape (b : types.UDSBundle)
    : types.UDSMetadata * types.UDSBuildData * list (string * string * string) :=
  (types.Metadata b, types.Build b,
   (fun p => (types.Name p, types.Repository p, types.Path p)) <$> types.ZarfPackages b).

(** [keeps_shape c]: however [c] ends, the bundle has the shape it had. *)
Definition keeps_shape {A} (c : M A) : Prop :=
  forall s s' r, c s = (s', r) -> shape (s_bundle s') = shape (s_bundle s).

(** The scratch directories made and removed along a trace. *)
Definition made_dirs (evs : list Event) : list nat :=
  omap (fun e => match e with EvMakeTempDir i => Some i | _ => None end) evs.

Definition removed_dirs (evs : list Event) : list string :=
  omap (fun e => match e with EvRemoveAll p => Some p | _ => None end) evs.

(** [quiet c]: [c] makes and removes no scratch directory and leaves the
    existing ones and the pending removals alone. *)
Definition quiet {A} (c : M A) : Prop :=
  forall s s' r, c s = (s', r) ->
    s_scratch s' = s_scratch s /\ s_defer s' = s_defer s /\
    exists evs, s_trace s' = s_trace s ++ evs /\
                made_dirs evs = [] /\ removed_dirs evs = [].

(** [grows s s']: from [s] to [s'] nothing was removed, every scratch
    directory made was registered for removal, and whatever is new under
    the scratch directories lies in a registered one. *)
Definition grows (s s' : State) : Prop :=
  exists evs new,
    s_trace s' = s_trace s ++ evs /\
    s_defer s' = new ++ s_defer s /\
    length new = length (made_dirs evs) /\
    removed_dirs evs = [] /\
    forall k t, s_scratch s' !! k = Some t ->
                s_scratch s !! k = Some t \/ k ∈ s_defer s'.

Definition growing {A} (c : M A) : Prop :=
  forall s s' r, c s = (s', r) -> grows s s'.



(** The child an event belongs to, if it belongs to one. *)
Definition child_index (e : Event) : option nat :=
  match remote_event e with
  | Some i => Some i
  | None => local_event e
  end.

(** The events of child [i] along a trace. *)
Definition child_events (i : nat) (evs : list Event) : list Event :=
  filter (fun e => child_index e = Some i) evs.

(** [blocks_from i sizes]: the index [i] repeated as often as the first
    size says, then [i + 1] as often as the second, and so on. *)
Fixpoint blocks_from (i : nat) (sizes : list nat) : list nat :=
  match sizes with
  | [] => []
  | n :: rest => replicate n i ++ blocks_from (S i) rest
  end.

(** [leaves_registry c]: however [c] ends, the registry is what it
    was. *)
Definition leaves_registry {A} (c : M A) : Prop :=
  forall s s' r, c s = (s', r) -> s_registry s' = s_registry s.

(** A remote bundler that was given the store and no remote, as
    [Create] builds it ([NewRemoteBundler(pkg, url, store, nil, b.tmp)]),
    has no registry to push to: its pushes leave the registry alone. *)
Definition store_bundlers (E : Env) : Prop :=
  forall pkg url rb, NewRemoteBundler_ E pkg url DestStore = Ok rb ->
    forall w,
      snd (fst (PushManifest_ E rb w)) = snd w /\
      forall current total, snd (fst (PushLayers_ E rb current total w)) = snd w.

(** [iterations step i pkgs acc s]: the iterations of a loop over
    [pkgs], the first with index [i], run one after the other from the
    state [s] as long as each succeeds; [None] when one of them fails. *)
Fixpoint iterations {A} (step : nat -> types.ZarfPackage -> A -> M A) (i : nat)
    (pkgs : list types.ZarfPackage) (acc : A) (s : State) : option (State * A) :=
  match pkgs with
  | [] => Some (s, acc)
  | pkg :: rest =>
      match step i pkg acc s with
      | (s1, Ok acc1) => iterations step (S i) rest acc1 s1
      | (_, Err _) => None
      end
  end.

(** [in_turn total i c]: leaving aside the events of no child, the
    events of [c] are those of the children [i], [i + 1], ... up to some
    child, one child after the other with none left out; if [c]
    succeeds, [total] children had their turn. *)
Definition in_turn {A} (total i : nat) (c : M A) : Prop :=
  forall s s' r, c s = (s', r) ->
    exists evs sizes,
      s_trace s' = s_trace s ++ evs /\
      omap child_index evs = blocks_from i sizes /\
      Forall (fun n => 0 < n) sizes /\
      length sizes <= total /\
      (is_ok r = true -> length sizes = total).

(** * Theorems *)

(** ** Running monadic code *)

Lemma bind_run {A B} (c : M A) (k : A -> M B) s s' r :
  bind c k s = (s', r) ->
  (exists e, c s = (s', Err e) /\ r = Err e) \/
  (exists a s1, c s = (s1, Ok a) /\ k a s1 = (s', r)).
Proof.
  unfold bind. destruct (c s) as [s1 [a|e]]; intros H.
  - right. eauto.
  - left. inversion H; subst. eauto.
Qed.

Lemma bind_ok {A B} (c : M A) (k : A -> M B) s s' b :
  bind c k s = (s', Ok b) ->
  exists a s1, c s = (s1, Ok a) /\ k a s1 = (s', Ok b).
Proof.
  intros H. apply bind_run in H as [(e & _ & He)|H]; [discriminate|exact H].
Qed.

Lemma emit_run e s s' (r : result unit) :
  emit e s = (s', r) -> s' = log e s /\ r = Ok tt.
Proof. unfold emit, modify. intros H; inversion H; auto. Qed.

Lemma modify_run f s s' (r : result unit) :
  modify f s = (s', r) -> s' = f s /\ r = Ok tt.
Proof. unfold modify. intros H; inversion H; auto. Qed.

Lemma get_run s s' (r : result State) :
  get s = (s', r) -> s' = s /\ r = Ok s.
Proof. unfold get. intros H; inversion H; auto. Qed.

Lemma ret_run {A} (a : A) s s' r :
  ret a s = (s', r) -> s' = s /\ r = Ok a.
Proof. unfold ret. intros H; inversion H; auto. Qed.

Lemma lift_run {A} (x : result A) s s' r :
  lift x s = (s', r) -> s' = s /\ r = x.
Proof. unfold lift. intros H; inversion H; auto. Qed.

Lemma fail_run {A} msg s s' (r : result A) :
  fail msg s = (s', r) -> s' = s /\ r = Err msg.
Proof. unfold fail. intros H; inversion H; auto. Qed.

(** Peel one successful [bind] off a run. *)
Tactic Notation "mstep" hyp(H) :=
  let a := fresh "a" in
  let s := fresh "s" in
  let H1 := fresh "Hrun" in
  apply bind_ok in H as (a & s & H1 & H).

Tactic Notation "mstep" hyp(H) "as" ident(a) ident(s) ident(H1) :=
  apply bind_ok in H as (a & s & H1 & H).

(** Split a run of [bind] into the failing and the continuing case. *)
Ltac mrun H :=
  let e := fresh "e" in
  let a := fresh "a" in
  let s := fresh "s" in
  let H1 := fresh "Hrun" in
  apply bind_run in H as [(e & H & _)|(a & s & H1 & H)].

(** Resolve the runs of the primitive operations among the hypotheses. *)
Ltac prim :=
  repeat match goal with
  | H : emit _ _ = (_, _) |- _ => apply emit_run in H as [? ?]
  | H : modify _ _ = (_, _) |- _ => apply modify_run in H as [? ?]
  | H : get _ = (_, _) |- _ => apply get_run in H as [? ?]
  | H : ret _ _ = (_, _) |- _ => apply ret_run in H as [? ?]
  | H : lift _ _ = (_, _) |- _ => apply lift_run in H as [? ?]
  | H : fail _ _ = (_, _) |- _ => apply fail_run in H as [? ?]
  | H : Ok _ = Ok _ |- _ => injection H as H
  | H : Ok _ = Err _ |- _ => discriminate H
  | H : Err _ = Ok _ |- _ => discriminate H
  end.

(** The state accessors see through the updates of other fields. *)
Lemma upd_defer_restore s :
  upd_defer (fun _ => s_defer s) (upd_defer (fun _ => []) s) = s.
Proof. destruct s; reflexivity. Qed.

(** ** What a computation adds to the trace *)

Section Emits.

Context (P : Event -> Prop).

Lemma emits_ret {A} (a : A) : emits P (ret a).
Proof. intros s s' r H. prim. subst. exists []. rewrite app_nil_r. auto. Qed.

Lemma emits_fail {A} msg : emits P (@fail A msg).
Proof. intros s s' r H. prim. subst. exists []. rewrite app_nil_r. auto. Qed.

Lemma emits_lift {A} (x : result A) : emits P (lift x).
Proof. intros s s' r H. prim. subst. exists []. rewrite app_nil_r. auto. Qed.

Lemma emits_get : emits P get.
Proof. intros s s' r H. prim. subst. exists []. rewrite app_nil_r. auto. Qed.

Lemma emits_emit e : P e -> emits P (emit e).
Proof. intros He s s' r H. prim. subst. exists [e]. simpl. auto. Qed.

Lemma emits_modify f :
  (forall s, s_trace (f s) = s_trace s) -> emits P (modify f).
Proof.
  intros Hf s s' r H. prim. subst. exists []. rewrite app_nil_r, Hf. auto.
Qed.

Lemma emits_bind {A B} (c : M A) (k : A -> M B) :
  emits P c -> (forall a, emits P (k a)) -> emits P (bind c k).
Proof.
  intros Hc Hk s s' r H.
  apply bind_run in H as [(e & H & _)|(a & s1 & H1 & H2)].
  - exact (Hc _ _ _ H).
  - destruct (Hc _ _ _ H1) as (ev1 & E1 & F1).
    destruct (Hk a _ _ _ H2) as (ev2 & E2 & F2).
    exists (ev1 ++ ev2). rewrite E2, E1, app_assoc. split; [reflexivity|].
    apply Forall_app; auto.
Qed.

Lemma emits_silent {A} (c : M A) :
  (forall s, s_trace (fst (c s)) = s_trace s) -> emits P c.
Proof.
  intros Hc s s' r H. exists []. rewrite app_nil_r.
  specialize (Hc s). rewrite H in Hc. auto.
Qed.

End Emits.

Lemma bind_assoc_run {A B C} (c : M A) (k1 : A -> M B) (k2 : B -> M C) s :
  bind (bind c k1) k2 s = bind c (fun a => bind (k1 a) k2) s.
Proof. unfold bind. destruct (c s) as [s1 [a|e]]; reflexivity. Qed.

Lemma emit_first {A} e (k : unit -> M A) (P : Event -> Prop) s s' r :
  emits P (k tt) ->
  bind (emit e) k s = (s', r) ->
  exists evs, s_trace s' = s_trace s ++ e :: evs /\ Forall P evs.
Proof.
  intros Hk H.
  apply bind_run in H as [(e0 & H & _)|(u & s1 & H1 & H)];
    [apply emit_run in H as [_ H]; discriminate|].
  apply emit_run in H1 as [-> _]. destruct u.
  destruct (Hk _ _ _ H) as (evs & Heq & HF).
  exists evs. rewrite Heq. simpl. rewrite <- app_assoc. auto.
Qed.

Lemma emits_mono {A} (P Q : Event -> Prop) (c : M A) :
  (forall e, P e -> Q e) -> emits P c -> emits Q c.
Proof.
  intros HPQ Hc s s' r H. destruct (Hc _ _ _ H) as (evs & Heq & HF).
  exists evs. split; [exact Heq|]. eapply Forall_impl; eauto.
Qed.

Ltac emits_step :=
  lazymatch goal with
  | |- emits _ (ret _) => apply emits_ret
  | |- emits _ (fail _) => apply emits_fail
  | |- emits _ (lift _) => apply emits_lift
  | |- emits _ get => apply emits_get
  | |- emits _ (bind _ _) => apply emits_bind; [|intros ?]
  | |- emits _ (modify _) => apply emits_modify; intros []; reflexivity
  | |- emits _ (emit _) => apply emits_emit
  end.

Ltac emits_case :=
  match goal with
  | |- emits _ (match ?x with _ => _ end) => destruct x
  end.

Section EmitsOps.

Context (E : Env) (P : Event -> Prop).

Lemma emits_lift_world {A} (f : CS * Registry -> (CS * Registry) * result A) :
  emits P (lift_world f).
Proof.
  apply emits_silent. intros s. unfold lift_world.
  destruct (f (s_cs s, s_registry s)) as [[cs reg] r]. reflexivity.
Qed.

Lemma emits_store_Push d c :
  (forall d c, P (EvStorePush d c)) -> emits P (store_Push E d c).
Proof.
  intros HP. unfold store_Push. repeat emits_step; [apply HP|].
  emits_case; [emits_step|]. emits_case; [|emits_step].
  repeat emits_step. emits_case; repeat emits_step.
Qed.

Lemma emits_cs_put d c :
  (forall d c, P (EvStorePush d c)) -> emits P (cs_put E d c).
Proof.
  intros HP. unfold cs_put. repeat emits_step.
  emits_case; [emits_step|]. apply emits_store_Push, HP.
Qed.

Lemma emits_put_blobs tmp blobs pm :
  (forall d c, P (EvStorePush d c)) -> emits P (put_blobs E tmp blobs pm).
Proof.
  intros HP. revert pm. induction blobs as [|b rest IH]; intros pm; simpl.
  - emits_step.
  - emits_step; [apply emits_cs_put, HP|apply IH].
Qed.

Lemma emits_PushLayer b mt :
  (forall d c, P (EvRegistryPush d c)) -> emits P (PushLayer E b mt).
Proof.
  intros HP. unfold PushLayer. repeat emits_step; [apply HP|].
  emits_case; repeat emits_step.
Qed.

Lemma emits_PushReference d c ref :
  (forall r d c, P (EvRegistryPushReference r d c)) -> emits P (PushReference E d c ref).
Proof.
  intros HP. unfold PushReference. repeat emits_step; [apply HP|].
  emits_case; repeat emits_step.
Qed.

Lemma emits_NewRemoteBundler i pkg url dst :
  P (EvNewRemoteBundler i url) -> emits P (NewRemoteBundler E i pkg url dst).
Proof. intros HP. unfold NewRemoteBundler. repeat emits_step. exact HP. Qed.

Lemma emits_PushManifest i rb :
  P (EvPushManifest i) -> emits P (PushManifest E i rb).
Proof.
  intros HP. unfold PushManifest. repeat emits_step; [exact HP|].
  apply emits_lift_world.
Qed.

Lemma emits_PushLayers i rb c t :
  P (EvPushLayers i) -> emits P (PushLayers E i rb c t).
Proof.
  intros HP. unfold PushLayers. repeat emits_step; [exact HP|].
  apply emits_lift_world.
Qed.

Lemma emits_MakeTempDir i :
  P (EvMakeTempDir i) -> emits P (MakeTempDir E i).
Proof.
  intros HP. unfold MakeTempDir. repeat emits_step; [exact HP|].
  emits_case; repeat emits_step.
Qed.

Lemma emits_Extract i lb :
  P (EvExtract i (lb_path lb)) -> emits P (Extract E i lb).
Proof. intros HP. unfold Extract. repeat emits_step. exact HP. Qed.

Lemma emits_Load i lb :
  P (EvLoad i) -> emits P (Load E i lb).
Proof.
  intros HP. unfold Load. repeat emits_step; [exact HP|].
  emits_case; emits_step.
Qed.

Lemma emits_ToBundle i lb z pm tmp pkgTmp :
  P (EvToBundle i) -> (forall d c, P (EvStorePush d c)) ->
  emits P (ToBundle E i lb z pm tmp pkgTmp).
Proof.
  intros HP HS. unfold ToBundle. repeat emits_step; [exact HP|].
  emits_case; [|emits_step].
  emits_step; [apply emits_put_blobs, HS|].
  emits_step; [apply emits_cs_put, HS|emits_step].
Qed.

(** A child with a repository is mirrored by the remote bundler; only a
    child without repository and with a path goes through the local
    workflow. *)
Lemma emits_Create_pkg tmp total i pkg acc :
  (forall d c, P (EvStorePush d c)) ->
  (types.Repository pkg ≠ "" -> forall e, remote_event e = Some i -> P e) ->
  (types.Repository pkg = "" -> types.Path pkg ≠ "" ->
   forall e, local_event e = Some i -> P e) ->
  emits P (Create_pkg E tmp total i pkg acc).
Proof.
  intros HS HR HL. unfold Create_pkg. destruct acc as [rootManifest pm].
  destruct (decide (types.Repository pkg ≠ "")) as [Hrepo|Hrepo].
  - specialize (HR Hrepo).
    emits_step; [apply emits_NewRemoteBundler, HR; reflexivity|].
    emits_step; [apply emits_PushManifest, HR; reflexivity|].
    emits_step; [apply emits_PushLayers, HR; reflexivity|emits_step].
  - assert (types.Repository pkg = "") as Hempty
      by (destruct (decide (types.Repository pkg = "")); [assumption|contradiction]).
    destruct (decide (types.Path pkg ≠ "")) as [Hpath|Hpath]; [|emits_step].
    specialize (HL Hempty Hpath).
    emits_step; [apply emits_MakeTempDir, HL; reflexivity|].
    emits_step; [apply emits_Extract, HL; reflexivity|].
    emits_step; [apply emits_Load, HL; reflexivity|].
    emits_step; [apply emits_ToBundle; [apply HL; reflexivity|exact HS]|].
    emits_case. unfold set_package_ref. repeat emits_step.
Qed.

Lemma emits_run_defers paths s :
  (forall p, P (EvRemoveAll p)) ->
  exists evs, s_trace (run_defers paths s) = s_trace s ++ evs /\ Forall P evs.
Proof.
  intros HP. revert s. induction paths as [|p rest IH]; intros s; simpl.
  - exists []. rewrite app_nil_r. auto.
  - destruct (IH (upd_scratch (delete p) (log (EvRemoveAll p) s))) as (evs & Heq & HF).
    exists (EvRemoveAll p :: evs). rewrite Heq. destruct s; simpl.
    rewrite <- app_assoc. simpl. split; [reflexivity|]. constructor; auto.
Qed.

Lemma emits_with_defers {A} (body : M A) :
  (forall p, P (EvRemoveAll p)) -> emits P body -> emits P (with_defers body).
Proof.
  intros HP Hb s s' r H. unfold with_defers in H.
  destruct (body (upd_defer (fun _ => []) s)) as [s1 r1] eqn:Hrun.
  inversion H; subst; clear H.
  destruct (Hb _ _ _ Hrun) as (ev1 & E1 & F1).
  destruct (emits_run_defers (s_defer s1) s1 HP) as (ev2 & E2 & F2).
  exists (ev1 ++ ev2). split; [|apply Forall_app; auto].
  transitivity (s_trace (run_defers (s_defer s1) s1)).
  - destruct (run_defers (s_defer s1) s1); reflexivity.
  - rewrite E2, E1, app_assoc. destruct s; reflexivity.
Qed.

End EmitsOps.

(** ** The loop of [Create] and the local workflow *)

Lemma only_local_for_other L e : local_event e = None -> only_local_for L e.
Proof. intros He j Hj. congruence. Qed.

Lemma remote_not_local e i : remote_event e = Some i -> local_event e = None.
Proof. destruct e; simpl; intros H; congruence. Qed.

Section CreateTrace.

Context (E : Env) (b_tmp : string).

Lemma emits_Create_loop L total pkgs : forall i acc,
  drop i L = pkgs ->
  emits (only_local_for L) (Create_loop E b_tmp total i pkgs acc).
Proof.
  induction pkgs as [|pkg rest IH]; intros i acc Hdrop; simpl.
  - apply emits_ret.
  - assert (L !! i = Some pkg) as Hi.
    { rewrite <- (Nat.add_0_r i), <- lookup_drop, Hdrop. reflexivity. }
    apply emits_bind.
    + apply emits_Create_pkg.
      * intros d c. apply only_local_for_other. reflexivity.
      * intros _ e He. apply only_local_for_other. eapply remote_not_local, He.
      * intros Hrepo Hpath e He j Hj. rewrite He in Hj. injection Hj as <-.
        exists pkg. auto.
    + intros acc'. apply IH.
      replace (S i) with (i + 1) by lia.
      rewrite <- drop_drop, Hdrop. reflexivity.
Qed.

Lemma emits_rebuild_index P d :
  P EvReadIndex -> (forall c, P (EvWriteIndex c)) -> emits P (rebuild_index E b_tmp d).
Proof.
  intros HR HW. unfold rebuild_index. repeat emits_step; [exact HR|].
  emits_case; [|emits_step]. repeat emits_step.
  emits_case; repeat emits_step. apply HW.
Qed.

Lemma emits_writeTarball P bundle pm :
  (forall d, P (EvArchive d)) -> emits P (writeTarball E bundle pm).
Proof.
  intros HA. unfold writeTarball. repeat emits_step; [apply HA|].
  emits_case; repeat emits_step. emits_case. repeat emits_step.
  emits_case; [emits_step|]. emits_case; emits_step.
Qed.

Lemma Create_body_trace signature s s' r :
  Create_body E b_tmp signature s = (s', r) ->
  exists evs, s_trace s' = s_trace s ++ evs /\
              Forall (only_local_for (types.ZarfPackages (s_bundle s))) evs.
Proof.
  intros H. unfold Create_body in H.
  apply bind_run in H as [(e & H & _)|(s0 & s1 & Hget & H)]; prim.
  subst s0 s1.
  set (L := types.ZarfPackages (s_bundle s)) in *.
  match type of H with
  | ?c s = _ => assert (emits (only_local_for L) c) as Hem; [|exact (Hem _ _ _ H)]
  end.
  clear H.
  assert (forall e, local_event e = None -> only_local_for L e) as Hother
    by (intros e He; apply only_local_for_other, He).
  emits_case; [emits_step|].
  emits_step.
  { unfold ocistore_NewWithContext. emits_step; [emits_step; apply Hother; reflexivity|].
    apply emits_silent. intros s1. destruct (ocistore_New E b_tmp (s_cs s1)). reflexivity. }
  emits_step; [apply emits_Create_loop; reflexivity|].
  emits_case. emits_step; [emits_step|].
  emits_step.
  { unfold pushBundleManifestToStore. repeat emits_step.
    apply emits_store_Push. intros; apply Hother; reflexivity. }
  emits_step; [emits_step|].
  emits_step; [apply emits_store_Push; intros; apply Hother; reflexivity|].
  emits_step; [apply emits_rebuild_index; intros; apply Hother; reflexivity|].
  emits_step.
  { emits_case; [|emits_step]. unfold pushBundleSignature. repeat emits_step.
    apply emits_store_Push. intros; apply Hother; reflexivity. }
  emits_step; [|emits_step].
  apply emits_writeTarball. intros; apply Hother; reflexivity.
Qed.

Lemma Create_trace signature s s' r :
  Create E b_tmp signature s = (s', r) ->
  exists evs, s_trace s' = s_trace s ++ evs /\
              Forall (only_local_for (types.ZarfPackages (s_bundle s))) evs.
Proof.
  intros H. unfold Create, with_defers in H.
  destruct ((Create_body E b_tmp signature;;; ret tt) (upd_defer (fun _ => []) s))
    as [s1 r1] eqn:Hrun.
  inversion H; subst; clear H.
  assert (exists r0, Create_body E b_tmp signature (upd_defer (fun _ => []) s) = (s1, r0))
    as [r0 Hbody].
  { apply bind_run in Hrun as [(e & H & _)|(m & s3 & H & Hret)]; prim; subst; eauto. }
  apply Create_body_trace in Hbody as (ev1 & E1 & F1).
  destruct (emits_run_defers (only_local_for (types.ZarfPackages (s_bundle s)))
              (s_defer s1) s1) as (ev2 & E2 & F2).
  { intros p. apply only_local_for_other. reflexivity. }
  exists (ev1 ++ ev2). split.
  - transitivity (s_trace (run_defers (s_defer s1) s1)).
    + destruct (run_defers (s_defer s1) s1); reflexivity.
    + rewrite E2, E1, app_assoc. destruct s; reflexivity.
  - apply Forall_app. split; [|exact F2]. destruct s; exact F1.
Qed.

End CreateTrace.

(** ** The content store *)

Section Store.

Context (E : Env).

(** A successful push found no blob under the name, wrote the content
    there, and left [index.json] alone unless it pushed a manifest. *)
Lemma store_Push_ok d c s s' u :
  store_Push E d c s = (s', Ok u) ->
  cs_blobs (s_cs s) !! Encoded (DescDigest d) = None /\
  cs_blobs (s_cs s') = <[Encoded (DescDigest d) := c]> (cs_blobs (s_cs s)) /\
  (IsManifest d = false -> cs_index_json (s_cs s') = cs_index_json (s_cs s)) /\
  s_bundle s' = s_bundle s /\ s_scratch s' = s_scratch s /\
  s_registry s' = s_registry s /\ s_defer s' = s_defer s.
Proof.
  unfold store_Push. intros H. mstep H. mstep H. prim. subst. simpl in H.
  destruct (cs_blobs (s_cs s) !! Encoded (DescDigest d)) eqn:Hb; [prim|].
  destruct (verifies E d c); [|prim]. mstep H. prim. subst.
  destruct (IsManifest d); prim; subst; simpl; repeat split; auto; discriminate.
Qed.

Lemma IsManifest_blob c :
  IsManifest (NewDescriptorFromBytes E ZarfLayerMediaTypeBlob c) = false.
Proof. reflexivity. Qed.

Lemma IsManifest_set_Annotations a d :
  IsManifest (set_Annotations a d) = IsManifest d.
Proof. reflexivity. Qed.

Lemma pushBundleManifestToStore_ok bundle s s' d :
  pushBundleManifestToStore E bundle s = (s', Ok d) ->
  exists yamlBytes,
    goyaml_Marshal E bundle = Ok yamlBytes /\
    d = set_Annotations {[ AnnotationTitle := config.BundleYAML ]}
          (NewDescriptorFromBytes E ZarfLayerMediaTypeBlob yamlBytes) /\
    cs_blobs (s_cs s') = <[Encoded (DescDigest d) := yamlBytes]> (cs_blobs (s_cs s)) /\
    s_bundle s' = s_bundle s.
Proof.
  unfold pushBundleManifestToStore. intros H.
  mstep H as yamlBytes s1 Hyaml. mstep H as u s2 Hpush. prim. subst.
  apply store_Push_ok in Hpush as (_ & Hb & _ & Hbu & _).
  exists yamlBytes. repeat split; auto.
Qed.

Lemma pushBundleSignature_ok signature s s' d :
  pushBundleSignature E signature s = (s', Ok d) ->
  d = set_Annotations {[ AnnotationTitle := config.BundleYAMLSignature ]}
        (NewDescriptorFromBytes E ZarfLayerMediaTypeBlob signature) /\
  cs_blobs (s_cs s) !! Encoded (DescDigest d) = None /\
  cs_blobs (s_cs s') = <[Encoded (DescDigest d) := signature]> (cs_blobs (s_cs s)) /\
  cs_index_json (s_cs s') = cs_index_json (s_cs s) /\
  s_bundle s' = s_bundle s.
Proof.
  unfold pushBundleSignature. intros H. mstep H as u s1 Hpush. prim. subst.
  apply store_Push_ok in Hpush as (Hn & Hb & Hi & Hbu & _).
  repeat split; auto.
Qed.

Lemma rebuild_index_ok b_tmp d s s' u :
  rebuild_index E b_tmp d s = (s', Ok u) ->
  (exists ix, cs_index_json (s_cs s') = Some (json_Marshal_Index E ix) /\
              Manifests ix = [d]) /\
  cs_blobs (s_cs s') = cs_blobs (s_cs s) /\
  s_bundle s' = s_bundle s.
Proof.
  unfold rebuild_index. intros H. mstep H. mstep H. prim. subst. simpl in H.
  destruct (cs_index_json (s_cs s)) as [indexBytes|]; [|prim].
  mstep H as index s1 Hparse. prim. subst.
  destruct (os_Create_err E _); [prim|]. mstep H. prim. subst. simpl.
  split; [|auto]. exists (with_Manifests [d] index). auto.
Qed.

Lemma writeTarball_ok bundle pm s s' r :
  writeTarball E bundle pm s = (s', r) ->
  s_cs s' = s_cs s /\ s_bundle s' = s_bundle s.
Proof.
  unfold writeTarball. intros H.
  mrun H; prim; subst; [auto|].
  mrun H; prim; subst. mrun H; prim; subst.
  destruct (os_Create_err E _); [prim; subst; auto|].
  mrun H; prim; subst. mrun H; prim; subst.
  mrun H; prim; subst; [auto|].
  destruct (archiver_Archive E _) as [written err].
  mrun H; prim; subst.
  destruct (first_error _); [prim; subst; auto|].
  destruct err; prim; subst; auto.
Qed.

Lemma run_defers_cs paths s :
  s_cs (run_defers paths s) = s_cs s /\ s_bundle (run_defers paths s) = s_bundle s.
Proof.
  revert s. induction paths as [|p rest IH]; intros s; simpl; [auto|].
  destruct (IH (upd_scratch (delete p) (log (EvRemoveAll p) s))) as [-> ->].
  auto.
Qed.

End Store.

(** ** What leaves the bundle alone *)

Lemma keeps_ret {A} (a : A) : keeps (ret a).
Proof. intros s s' r H. prim. subst. reflexivity. Qed.

Lemma keeps_fail {A} msg : keeps (@fail A msg).
Proof. intros s s' r H. prim. subst. reflexivity. Qed.

Lemma keeps_lift {A} (x : result A) : keeps (lift x).
Proof. intros s s' r H. prim. subst. reflexivity. Qed.

Lemma keeps_get : keeps get.
Proof. intros s s' r H. prim. subst. reflexivity. Qed.

Lemma keeps_emit e : keeps (emit e).
Proof. intros s s' r H. prim. subst. reflexivity. Qed.

Lemma keeps_modify f :
  (forall s, s_bundle (f s) = s_bundle s) -> keeps (modify f).
Proof. intros Hf s s' r H. prim. subst. apply Hf. Qed.

Lemma keeps_bind {A B} (c : M A) (k : A -> M B) :
  keeps c -> (forall a, keeps (k a)) -> keeps (bind c k).
Proof.
  intros Hc Hk s s' r H. mrun H.
  - exact (Hc _ _ _ H).
  - rewrite (Hk _ _ _ _ H). exact (Hc _ _ _ Hrun).
Qed.

Ltac keeps_step :=
  lazymatch goal with
  | |- keeps (ret _) => apply keeps_ret
  | |- keeps (fail _) => apply keeps_fail
  | |- keeps (lift _) => apply keeps_lift
  | |- keeps get => apply keeps_get
  | |- keeps (bind _ _) => apply keeps_bind; [|intros ?]
  | |- keeps (modify _) => apply keeps_modify; intros []; reflexivity
  | |- keeps (emit _) => apply keeps_emit
  | |- keeps (match ?x with _ => _ end) => destruct x
  end.

Section Keeps.

Context (E : Env).

Lemma keeps_lift_world {A} (f : CS * Registry -> (CS * Registry) * result A) :
  keeps (lift_world f).
Proof.
  intros s s' r H. unfold lift_world in H.
  destruct (f (s_cs s, s_registry s)) as [[cs reg] r0].
  inversion H; subst. reflexivity.
Qed.

Lemma keeps_store_Push d c : keeps (store_Push E d c).
Proof. unfold store_Push. repeat keeps_step. Qed.

Lemma keeps_cs_put d c : keeps (cs_put E d c).
Proof. unfold cs_put. repeat keeps_step. apply keeps_store_Push. Qed.

Lemma keeps_put_blobs tmp blobs : forall pm, keeps (put_blobs E tmp blobs pm).
Proof.
  induction blobs as [|b rest IH]; intros pm; simpl.
  - keeps_step.
  - keeps_step; [apply keeps_cs_put|apply IH].
Qed.

Lemma keeps_NewRemoteBundler i pkg url dst : keeps (NewRemoteBundler E i pkg url dst).
Proof. unfold NewRemoteBundler. repeat keeps_step. Qed.

Lemma keeps_PushManifest i rb : keeps (PushManifest E i rb).
Proof. unfold PushManifest. repeat keeps_step. apply keeps_lift_world. Qed.

Lemma keeps_PushLayers i rb c t : keeps (PushLayers E i rb c t).
Proof. unfold PushLayers. repeat keeps_step. apply keeps_lift_world. Qed.

Lemma keeps_MakeTempDir i : keeps (MakeTempDir E i).
Proof. unfold MakeTempDir. repeat keeps_step. Qed.

End Keeps.

(** ** The local workflow, step by step *)

Section Local.

Context (E : Env).

Lemma Extract_ok i lb s s' u :
  Extract E i lb s = (s', Ok u) ->
  exists tree,
    read_archive E (lb_path lb) = Ok tree /\
    s_scratch s' = <[lb_tmp lb := tree]> (s_scratch s) /\
    s_bundle s' = s_bundle s.
Proof.
  unfold Extract. intros H. mstep H. mstep H as tree s1 Hread. prim. subst.
  exists tree. simpl. auto.
Qed.

Lemma Load_ok i lb s s' z :
  Load E i lb s = (s', Ok z) ->
  exists tree,
    s_scratch s !! lb_tmp lb = Some tree /\
    parse_zarf_yaml E (ex_zarf_yaml tree) = Ok z /\
    s_scratch s' = s_scratch s /\
    s_bundle s' = s_bundle s.
Proof.
  unfold Load. intros H. mstep H. mstep H. prim. subst. simpl in H.
  destruct (s_scratch s !! lb_tmp lb) as [tree|] eqn:Ht; prim.
  subst. exists tree. simpl. auto.
Qed.

Lemma cs_put_ok d c s s' u :
  cs_put E d c s = (s', Ok u) ->
  is_Some (cs_blobs (s_cs s') !! Encoded (DescDigest d)).
Proof.
  unfold cs_put. intros H. mstep H. prim. subst.
  destruct (cs_blobs (s_cs s) !! Encoded (DescDigest d)) eqn:Hb.
  - prim. subst. rewrite Hb. eauto.
  - apply store_Push_ok in H as (_ & -> & _). rewrite lookup_insert_eq. eauto.
Qed.

Lemma ToBundle_ok i lb z pm tmp pkgTmp s s' d pm' :
  ToBundle E i lb z pm tmp pkgTmp s = (s', Ok (d, pm')) ->
  exists tree,
    s_scratch s !! pkgTmp = Some tree /\
    d = NewDescriptorFromBytes E MediaTypeImageManifest
          (json_Marshal_Manifest E (rewrite_manifest E z (ex_manifest tree))) /\
    is_Some (cs_blobs (s_cs s') !! Encoded (DescDigest d)) /\
    s_bundle s' = s_bundle s.
Proof.
  unfold ToBundle. intros H. mstep H. mstep H. prim. subst. simpl in H.
  destruct (s_scratch s !! pkgTmp) as [tree|] eqn:Ht; [|prim].
  mstep H as pm1 s1 Hblobs. mstep H as u s2 Hput. prim. subst.
  exists tree. repeat split.
  - eapply cs_put_ok, Hput.
  - rewrite (keeps_cs_put E _ _ _ _ _ Hput), (keeps_put_blobs E _ _ _ _ _ _ Hblobs).
    reflexivity.
Qed.

End Local.

(** ** One child, then all children *)

Section Children.

Import types.
Context (E : Env) (b_tmp : string).

Lemma Create_pkg_ok total i pkg m pm s s' acc' :
  Create_pkg E b_tmp total i pkg (m, pm) s = (s', Ok acc') ->
  ZarfPackages (s_bundle s) !! i = Some pkg ->
  (exists d, fst acc' = with_Layers (Layers m ++ [d]) m) /\
  Metadata (s_bundle s') = Metadata (s_bundle s) /\
  Build (s_bundle s') = Build (s_bundle s) /\
  (forall j, j ≠ i -> ZarfPackages (s_bundle s') !! j = ZarfPackages (s_bundle s) !! j) /\
  (exists pkg', ZarfPackages (s_bundle s') !! i = Some pkg' /\
                mirrored E (Architecture (Metadata (s_bundle s))) pkg pkg').
Proof.
  unfold Create_pkg. intros H Hi.
  destruct (decide (Repository pkg ≠ "")) as [Hrepo|Hrepo].
  - mstep H as rb s1 Hnew. mstep H as d s2 Hman. mstep H as ls s3 Hlay.
    apply ret_run in H as [-> Hacc]. injection Hacc as Hacc. subst acc'.
    assert (s_bundle s3 = s_bundle s) as Hb.
    { rewrite (keeps_PushLayers E _ _ _ _ _ _ _ Hlay),
              (keeps_PushManifest E _ _ _ _ _ Hman),
              (keeps_NewRemoteBundler E _ _ _ _ _ _ _ Hnew). reflexivity. }
    rewrite Hb. split; [eauto|]. repeat split; auto.
    exists pkg. split; [exact Hi|]. left. auto.
  - assert (Repository pkg = "") as Hempty
      by (destruct (decide (Repository pkg = "")); [assumption|contradiction]).
    destruct (decide (Path pkg ≠ "")) as [Hpath|Hpath]; [|prim].
    mstep H as pkgTmp s1 Htmp. mstep H as u s2 Hext. mstep H as z s3 Hload.
    mstep H as r s4 Hto. destruct r as [d pm'].
    mstep H as s5 s6 Hget. apply get_run in Hget as [-> Hs5]. injection Hs5 as Hs5. subst s5.
    mstep H as u' s7 Hset. apply modify_run in Hset as [-> _].
    apply ret_run in H as [-> Hacc]. injection Hacc as Hacc. subst acc'.
    apply Extract_ok in Hext as (tree & Hread & Hscr & Hb2). simpl in Hread, Hscr.
    apply Load_ok in Hload as (tree' & Ht' & Hparse & Hscr3 & Hb3). simpl in Ht'.
    apply ToBundle_ok in Hto as (tree'' & Ht'' & Hd & _ & Hb4).
    rewrite Hscr, lookup_insert_eq in Ht'. injection Ht' as <-.
    rewrite Hscr3, Hscr, lookup_insert_eq in Ht''. injection Ht'' as <-.
    assert (s_bundle s4 = s_bundle s) as Hb.
    { rewrite Hb4, Hb3, Hb2. apply (keeps_MakeTempDir E _ _ _ _ Htmp). }
    simpl. rewrite Hb. split; [eauto|]. repeat split; auto.
    + intros j Hj. apply list_lookup_alter_ne. auto.
    + eexists. split.
      * rewrite list_lookup_alter_eq, Hi. reflexivity.
      * right. repeat split; auto. exists tree, z. rewrite Hd. auto.
Qed.

(** The iteration for a local child: the layer it appends is the
    descriptor of the rewritten manifest, the store holds a blob under
    that digest, and the reference of the child carries the digest. *)
Lemma Create_pkg_local_ok total i pkg m pm s s' acc' :
  Repository pkg = "" ->
  Create_pkg E b_tmp total i pkg (m, pm) s = (s', Ok acc') ->
  ZarfPackages (s_bundle s) !! i = Some pkg ->
  exists tree zarfPkg d,
    read_archive E (Path pkg) = Ok tree /\
    parse_zarf_yaml E (ex_zarf_yaml tree) = Ok zarfPkg /\
    d = NewDescriptorFromBytes E MediaTypeImageManifest
          (json_Marshal_Manifest E (rewrite_manifest E zarfPkg (ex_manifest tree))) /\
    fst acc' = with_Layers (Layers m ++ [d]) m /\
    is_Some (cs_blobs (s_cs s') !! Encoded (DescDigest d)) /\
    ZarfPackages (s_bundle s') !! i =
      Some (set_Ref (Ref pkg +:+ "-" +:+ Architecture (Metadata (s_bundle s)) +:+
                     "@sha256:" +:+ Encoded (DescDigest d)) pkg).
Proof.
  unfold Create_pkg. intros Hempty H Hi.
  destruct (decide (Repository pkg ≠ "")) as [Hrepo|_]; [contradiction|].
  destruct (decide (Path pkg ≠ "")) as [Hpath|Hpath]; [|prim].
  mstep H as pkgTmp s1 Htmp. mstep H as u s2 Hext. mstep H as z s3 Hload.
  mstep H as r s4 Hto. destruct r as [d pm'].
  mstep H as s5 s6 Hget. apply get_run in Hget as [-> Hs5]. injection Hs5 as Hs5. subst s5.
  mstep H as u' s7 Hset. apply modify_run in Hset as [-> _].
  apply ret_run in H as [-> Hacc]. injection Hacc as Hacc. subst acc'.
  apply Extract_ok in Hext as (tree & Hread & Hscr & Hb2). simpl in Hread, Hscr.
  apply Load_ok in Hload as (tree' & Ht' & Hparse & Hscr3 & Hb3). simpl in Ht'.
  apply ToBundle_ok in Hto as (tree'' & Ht'' & Hd & Hsome & Hb4).
  rewrite Hscr, lookup_insert_eq in Ht'. injection Ht' as <-.
  rewrite Hscr3, Hscr, lookup_insert_eq in Ht''. injection Ht'' as <-.
  assert (s_bundle s4 = s_bundle s) as Hb.
  { rewrite Hb4, Hb3, Hb2. apply (keeps_MakeTempDir E _ _ _ _ Htmp). }
  exists tree, z, d. simpl. rewrite Hb.
  repeat split; auto.
  rewrite list_lookup_alter_eq, Hi. reflexivity.
Qed.

Lemma Create_loop_ok total pkgs : forall i acc s s' acc',
  Create_loop E b_tmp total i pkgs acc s = (s', Ok acc') ->
  (forall k pkg, pkgs !! k = Some pkg ->
                 ZarfPackages (s_bundle s) !! (i + k) = Some pkg) ->
  (exists descs, Layers (fst acc') = Layers (fst acc) ++ descs /\
                 length descs = length pkgs) /\
  same_header (fst acc) (fst acc') /\
  Metadata (s_bundle s') = Metadata (s_bundle s) /\
  Build (s_bundle s') = Build (s_bundle s) /\
  (forall j, j < i -> ZarfPackages (s_bundle s') !! j = ZarfPackages (s_bundle s) !! j) /\
  (forall k pkg, pkgs !! k = Some pkg ->
     exists pkg', ZarfPackages (s_bundle s') !! (i + k) = Some pkg' /\
                  mirrored E (Architecture (Metadata (s_bundle s))) pkg pkg').
Proof.
  induction pkgs as [|pkg rest IH]; intros i acc s s' acc' H Hpre; simpl in H.
  - prim. subst. split; [exists []; rewrite app_nil_r; auto|].
    repeat split; auto. intros k p Hk. rewrite lookup_nil in Hk. discriminate.
  - mstep H as acc1 s1 Hstep. destruct acc as [m pm].
    assert (ZarfPackages (s_bundle s) !! i = Some pkg) as Hi.
    { rewrite <- (Nat.add_0_r i). apply Hpre. reflexivity. }
    apply Create_pkg_ok in Hstep as ([d Hd] & Hmeta & Hbuild & Hother & pkg' & Hi' & Hmir);
      [|exact Hi].
    apply IH in H as ([descs [Hl Hlen]] & Hhead & Hmeta' & Hbuild' & Hlow & Hrest).
    2:{ intros k p Hk. rewrite Hother by lia.
        replace (S i + k) with (i + S k) by lia. apply Hpre. exact Hk. }
    simpl. split; [|split; [|split; [|split; [|split]]]].
    + exists (d :: descs). rewrite Hl, Hd. simpl. rewrite <- app_assoc. simpl.
      split; [reflexivity|]. rewrite Hlen. reflexivity.
    + destruct Hhead as (H1 & H2 & H3 & H4). rewrite Hd in H1, H2, H3, H4.
      repeat split; assumption.
    + congruence.
    + congruence.
    + intros j Hj. rewrite Hlow by lia. apply Hother. lia.
    + intros [|k] p Hk; simpl in Hk.
      * injection Hk as <-. exists pkg'. rewrite Nat.add_0_r, Hlow by lia. auto.
      * destruct (Hrest k p Hk) as (p' & Hp' & Hm).
        exists p'. replace (i + S k) with (S i + k) by lia.
        split; [exact Hp'|]. rewrite Hmeta in Hm. exact Hm.
Qed.

End Children.

(** ** A successful [Create], taken apart *)

Section CreateOk.

Import types.
Context (E : Env) (b_tmp : string).

(** [m] is the manifest that was marshalled and pushed, [m_final] the
    local variable when the function returns. *)
Lemma Create_body_ok signature s s' m_final :
  Create_body E b_tmp signature s = (s', Ok m_final) ->
  exists m descs yamlBytes,
    Layers m = descs ++ [bundle_yaml_desc E yamlBytes] /\
    length descs = length (ZarfPackages (s_bundle s)) /\
    goyaml_Marshal E (s_bundle s') = Ok yamlBytes /\
    SchemaVersion m = 2%Z /\
    ManifestMediaType m = MediaTypeImageManifest /\
    Config m = NewDescriptorFromBytes E MediaTypeImageManifest
                 (json_Marshal_Config E
                    (manifestConfig (Metadata (s_bundle s)) (Build (s_bundle s)))) /\
    cs_blobs (s_cs s') !! Encoded (DescDigest (root_desc E m))
      = Some (json_Marshal_Manifest E m) /\
    (exists ix, cs_index_json (s_cs s') = Some (json_Marshal_Index E ix) /\
                Manifests ix = [root_desc E m]) /\
    m_final = (if decide (0 < length signature)%nat
               then with_Layers (Layers m ++ [signature_desc E signature]) m
               else m) /\
    ((0 < length signature)%nat ->
     cs_blobs (s_cs s') !! Encoded (DescDigest (signature_desc E signature))
       = Some signature) /\
    Metadata (s_bundle s') = Metadata (s_bundle s) /\
    (forall k pkg, ZarfPackages (s_bundle s) !! k = Some pkg ->
       exists pkg', ZarfPackages (s_bundle s') !! k = Some pkg' /\
                    mirrored E (Architecture (Metadata (s_bundle s))) pkg pkg').
Proof.
  unfold Create_body. intros H.
  mstep H as s0 s0' Hget. apply get_run in Hget as [-> Hs0].
  injection Hs0 as Hs0. subst s0.
  destruct (decide (Architecture (Metadata (s_bundle s)) = "")) as [Harch|Harch]; [prim|].
  mstep H as u1 s1 Hnew.
  assert (s_bundle s1 = s_bundle s) as Hb1.
  { unfold ocistore_NewWithContext in Hnew. mstep Hnew. prim. subst.
    simpl in Hnew. destruct (ocistore_New E b_tmp (s_cs s)) as [cs r0].
    inversion Hnew; subst. reflexivity. }
  mstep H as acc s2 Hloop. destruct acc as [m0 pm0].
  apply Create_loop_ok in Hloop
    as ([descs [Hl Hlen]] & (Hsv & Hmt & _ & _) & Hmeta & Hbuild & _ & Hpk).
  2:{ intros k pkg Hk. rewrite Hb1. exact Hk. }
  simpl in Hl, Hsv, Hmt. rewrite Hb1 in Hmeta, Hbuild, Hpk.
  mstep H as s2' s2'' Hget. apply get_run in Hget as [-> Hs2].
  injection Hs2 as Hs2. subst s2'.
  mstep H as yamlDesc s3 Hyaml.
  apply pushBundleManifestToStore_ok in Hyaml as (yamlBytes & Hy & Hyd & Hb3 & Hbu3).
  mstep H as cfg s3' Hcfg. apply lift_run in Hcfg as [-> Hcfg].
  unfold createManifestConfig in Hcfg. injection Hcfg as Hcfg.
  rewrite Hmeta, Hbuild in Hcfg.
  mstep H as u2 s4 Hpush.
  apply store_Push_ok in Hpush as (_ & Hb4 & _ & Hbu4 & _).
  mstep H as u3 s5 Hidx.
  apply rebuild_index_ok in Hidx as (Hix & Hb5 & Hbu5).
  mstep H as mf s6 Hsig.
  mstep H as u4 s7 Htar.
  apply writeTarball_ok in Htar as (Hcs7 & Hbu7).
  apply ret_run in H as [-> Hres]. injection Hres as Hres. subst mf.
  match type of Hb4 with
  | context [json_Marshal_Manifest E ?x] => set (m := x) in *
  end.
  assert (cs_blobs (s_cs s5) !! Encoded (DescDigest (root_desc E m))
          = Some (json_Marshal_Manifest E m)) as Hroot5.
  { rewrite Hb5, Hb4. apply lookup_insert_eq. }
  exists m, descs, yamlBytes.
  assert (s_bundle s5 = s_bundle s2) as Hbu by congruence.
  destruct (decide (0 < length signature)%nat) as [Hlt|Hlt].
  - mstep Hsig as sd s6' Hps. apply ret_run in Hsig as [-> Hres].
    injection Hres as Hres.
    apply pushBundleSignature_ok in Hps as (Hsd & Hnone & Hb6 & Hi6 & Hbu6).
    subst sd. fold (signature_desc E signature) in *.
    rewrite Hcs7, Hbu7, Hbu6, Hbu.
    repeat split; auto.
    + subst m. simpl. rewrite Hl, Hyd. reflexivity.
    + rewrite Hb6. rewrite lookup_insert_ne; [exact Hroot5|].
      intros Heq. rewrite Heq, Hroot5 in Hnone. discriminate.
    + rewrite Hi6. exact Hix.
    + intros _. rewrite Hb6. apply lookup_insert_eq.
  - apply ret_run in Hsig as [-> Hres]. injection Hres as Hres.
    rewrite Hcs7, Hbu7, Hbu.
    repeat split; auto.
    + subst m. simpl. rewrite Hl, Hyd. reflexivity.
    + intros Hc. contradiction.
Qed.

End CreateOk.

Section CreateRun.

Import types.
Context (E : Env) (b_tmp : string).

(** The deferred removals touch neither the layout nor the bundle. *)
Lemma Create_ok signature s s' u :
  Create E b_tmp signature s = (s', Ok u) ->
  exists s1 m_final,
    Create_body E b_tmp signature (upd_defer (fun _ => []) s) = (s1, Ok m_final) /\
    s_cs s' = s_cs s1 /\ s_bundle s' = s_bundle s1.
Proof.
  unfold Create, with_defers. intros H.
  destruct ((Create_body E b_tmp signature;;; ret tt) (upd_defer (fun _ => []) s))
    as [s1 r1] eqn:Hrun.
  inversion H; subst; clear H.
  mstep Hrun as m_final s2 Hbody. apply ret_run in Hrun as [-> _].
  exists s2, m_final. split; [exact Hbody|].
  destruct (run_defers_cs (s_defer s2) s2) as [Hcs Hbu].
  split; [rewrite <- Hcs|rewrite <- Hbu];
    destruct (run_defers (s_defer s2) s2); reflexivity.
Qed.

End CreateRun.

(** ** A successful [CreateAndPublish], taken apart *)

Section PublishOk.

Import types.
Context (E : Env).

Lemma PushLayer_ok b mt s s' d :
  PushLayer E b mt s = (s', Ok d) ->
  d = NewDescriptorFromBytes E mt b /\
  reg_blobs (s_registry s') = <[Encoded (DescDigest d) := b]> (reg_blobs (s_registry s)).
Proof.
  unfold PushLayer. intros H. mstep H. mstep H. prim. subst. simpl in H.
  destruct (registry_Push_err E _ _ _); [prim|].
  mstep H. prim. subst. simpl. auto.
Qed.

Lemma PushReference_ok d c ref s s' u :
  PushReference E d c ref s = (s', Ok u) ->
  reg_manifests (s_registry s') !! ref = Some (d, c) /\
  reg_blobs (s_registry s') !! Encoded (DescDigest d) = Some c.
Proof.
  unfold PushReference. intros H. mstep H. mstep H. prim. subst. simpl in H.
  destruct (registry_PushReference_err E _ _ _ _); prim. subst. simpl.
  split; apply lookup_insert_eq.
Qed.

Lemma CreateAndPublish_loop_ok total pkgs : forall i m s s' m',
  CreateAndPublish_loop E total i pkgs m s = (s', Ok m') ->
  (exists descs, Layers m' = Layers m ++ descs /\
                 length descs = length pkgs /\
                 Forall (fun d => MediaType d = MediaTypeImageManifest) descs) /\
  same_header m m'.
Proof.
  induction pkgs as [|pkg rest IH]; intros i m s s' m' H; simpl in H.
  - prim. subst. split; [exists []; rewrite app_nil_r; auto|].
    repeat split; reflexivity.
  - mstep H as m1 s1 Hstep. unfold CreateAndPublish_pkg in Hstep.
    mstep Hstep as rb s2 Hnew. mstep Hstep as d s3 Hman.
    mstep Hstep as ls s4 Hlay. apply ret_run in Hstep as [-> Hm1].
    injection Hm1 as Hm1. subst m1.
    apply IH in H as ((descs & Hl & Hlen & Hall) & H1 & H2 & H3 & H4).
    simpl in Hl, H1, H2, H3, H4. split.
    + exists (set_MediaType MediaTypeImageManifest d :: descs).
      rewrite Hl, <- app_assoc. simpl. rewrite Hlen.
      repeat split; auto.
    + repeat split; assumption.
Qed.

(** [m] is the manifest that was marshalled and pushed under [reference]. *)
Lemma CreateAndPublish_ok reference bundle signature s s' u :
  CreateAndPublish E reference bundle signature s = (s', Ok u) ->
  exists m descs yamlBytes,
    goyaml_Marshal E bundle = Ok yamlBytes /\
    Layers m = descs ++ [bundle_yaml_desc E yamlBytes] ++
               (if decide (0 < length signature)%nat
                then [signature_desc E signature] else []) /\
    length descs = length (ZarfPackages bundle) /\
    Forall (fun d => MediaType d = MediaTypeImageManifest) descs /\
    SchemaVersion m = 2%Z /\
    ManifestMediaType m = "" /\
    Config m = NewDescriptorFromBytes E MediaTypeImageConfig
                 (json_Marshal_Config E (manifestConfig (Metadata bundle) (Build bundle))) /\
    reg_manifests (s_registry s') !! reference
      = Some (root_desc E m, json_Marshal_Manifest E m).
Proof.
  unfold CreateAndPublish. intros H.
  destruct (decide (Architecture (Metadata bundle) = "")) as [Harch|Harch]; [prim|].
  mstep H as m0 s1 Hloop.
  apply CreateAndPublish_loop_ok in Hloop
    as ((descs & Hl & Hlen & Hall) & Hsv & Hmt & _ & _).
  simpl in Hl, Hsv, Hmt.
  mstep H as yamlBytes s2 Hyaml. apply lift_run in Hyaml as [-> Hyaml].
  mstep H as yd s3 Hpy. apply PushLayer_ok in Hpy as [Hyd _].
  mstep H as m1 s4 Hsig.
  mstep H as cfg s5 Hcfg. unfold pushManifestConfigFromMetadata in Hcfg.
  apply PushLayer_ok in Hcfg as [Hcfg _].
  mstep H as u1 s6 Hpush. apply ret_run in H as [-> _].
  match type of Hpush with
  | context [json_Marshal_Manifest E ?x] => set (m := x) in *
  end.
  assert (reg_manifests (s_registry s6) !! reference
          = Some (root_desc E m, json_Marshal_Manifest E m)) as Hreg.
  { destruct (PushReference E _ _ reference s5) as [s6' [u2|e]] eqn:Hp;
      [|discriminate].
    injection Hpush as Hs6 _. subst s6'.
    apply PushReference_ok in Hp as [Hp _]. exact Hp. }
  assert (Layers m = descs ++ [bundle_yaml_desc E yamlBytes] ++
                     (if decide (0 < length signature)%nat
                      then [signature_desc E signature] else [])) as HL.
  { subst m. simpl.
    destruct (decide (0 < length signature)%nat) as [Hlt|Hlt].
    - mstep Hsig as sd s4' Hps. apply PushLayer_ok in Hps as [Hsd _].
      apply ret_run in Hsig as [_ Hm1]. injection Hm1 as Hm1. subst m1. simpl.
      rewrite Hl, Hyd, Hsd, <- app_assoc. reflexivity.
    - apply ret_run in Hsig as [_ Hm1]. injection Hm1 as Hm1. subst m1. simpl.
      rewrite Hl, Hyd. reflexivity. }
  assert (ManifestMediaType m1 = "") as Hmt1.
  { destruct (decide (0 < length signature)%nat) as [Hlt|Hlt].
    - mstep Hsig as sd s4' Hps.
      apply ret_run in Hsig as [_ Hm1]. injection Hm1 as Hm1. subst m1. exact Hmt.
    - apply ret_run in Hsig as [_ Hm1]. injection Hm1 as Hm1. subst m1. exact Hmt. }
  exists m, descs, yamlBytes.
  repeat split; auto.
Qed.

End PublishOk.
(** ** Theorems on [config.GetArch] *)

Lemma first_specified_all_empty priority goarch :
  Forall (eq "") priority -> config.first_specified priority goarch = goarch.
Proof.
  induction 1 as [|a l Ha _ IH]; simpl; [reflexivity|].
  subst a. destruct (decide ("" ≠ "")) as [Hne|_]; [congruence|exact IH].
Qed.

Lemma first_specified_split priority goarch :
  (exists pre a post,
      priority = pre ++ a :: post /\ Forall (eq "") pre /\ a ≠ "" /\
      config.first_specified priority goarch = a)
  \/ (Forall (eq "") priority /\ config.first_specified priority goarch = goarch).
Proof.
  induction priority as [|x l IH]; simpl.
  - right. split; [constructor|reflexivity].
  - destruct (decide (x ≠ "")) as [Hx|Hx].
    + left. exists [], x, l. repeat split; [constructor|exact Hx].
    + assert (x = "") as -> by (destruct (decide (x = "")); [assumption|contradiction]).
      destruct IH as [(pre & a & post & -> & Hpre & Ha & Hr)|[Hall Hr]].
      * left. exists ("" :: pre), a, post.
        repeat split; [constructor; [reflexivity|exact Hpre]|exact Ha|exact Hr].
      * right. split; [constructor; [reflexivity|exact Hall]|exact Hr].
Qed.

(** C10. [GetArch] returns the first non-empty string of the priority list
    [CLIArch :: archs]: the list splits into a prefix of empty strings,
    the returned entry, and a rest.  When every entry is empty it returns
    [runtime.GOARCH]. *)
Theorem GetArch_first_nonempty (CLIArch GOARCH : string) (archs : list string) :
  (exists pre a post,
      CLIArch :: archs = pre ++ a :: post /\ Forall (eq "") pre /\ a ≠ "" /\
      config.GetArch CLIArch GOARCH archs = a)
  \/ (Forall (eq "") (CLIArch :: archs) /\
      config.GetArch CLIArch GOARCH archs = GOARCH).
Proof.
  unfold config.GetArch. exact (first_specified_split (CLIArch :: archs) GOARCH).
Qed.

Example GetArch_cli_wins :
  config.GetArch "arm64" "amd64" ["riscv64"] = "arm64".
Proof. reflexivity. Qed.

Example GetArch_skips_empty :
  config.GetArch "" "amd64" [""; "riscv64"; "arm64"] = "riscv64".
Proof. reflexivity. Qed.

Example GetArch_default :
  config.GetArch "" "amd64" [""; ""] = "amd64".
Proof. reflexivity. Qed.

(** ** Hexadecimal digests *)

Lemma hex_digits_of_byte (b : byte) :
  is_lower_hex (hex_digit (Byte.to_N b / 16)) = true /\
  is_lower_hex (hex_digit (Byte.to_N b mod 16)) = true.
Proof. destruct b; split; reflexivity. Qed.

Lemma hex_encode_length (bs : bytes) :
  String.length (hex_encode bs) = 2 * length bs.
Proof. induction bs as [|b rest IH]; simpl; [reflexivity|]. rewrite IH. lia. Qed.

Lemma hex_encode_lower (bs : bytes) :
  all_chars is_lower_hex (hex_encode bs) = true.
Proof.
  induction bs as [|b rest IH]; [reflexivity|].
  destruct (hex_digits_of_byte b) as [Hhi Hlo].
  cbn [hex_encode all_chars]. rewrite Hhi, Hlo, IH. reflexivity.
Qed.

Lemma demo_sha256_length (c : bytes) : length (demo.sha256 c) = 32.
Proof.
  unfold demo.sha256. rewrite length_app, length_take, length_app, repeat_length.
  cbn [length]. lia.
Qed.

(** ** The claims on the early checks *)

Section Checks.

Import types.
Context (E : Env).

(** C5. With an empty [bundle.Metadata.Architecture], [Create] and
    [CreateAndPublish] return the error "architecture is required for
    bundling", and the state they return is the state they were given:
    nothing was done to the store, the registry, the bundle or any file,
    and no call was logged. *)
Theorem architecture_required (b_tmp reference : string) (signature : bytes) (s : State) :
  Architecture (Metadata (s_bundle s)) = "" ->
  Create E b_tmp signature s = (s, Err "architecture is required for bundling") /\
  CreateAndPublish E reference (s_bundle s) signature s
    = (s, Err "architecture is required for bundling").
Proof.
  intros Harch. split.
  - unfold Create, with_defers, Create_body, bind, get.
    destruct (decide (Architecture (Metadata (s_bundle (upd_defer (fun _ => []) s))) = ""))
      as [_|Hne]; [|destruct s; contradiction].
    unfold fail. simpl. rewrite upd_defer_restore. reflexivity.
  - unfold CreateAndPublish.
    destruct (decide (Architecture (Metadata (s_bundle s)) = "")) as [_|Hne];
      [reflexivity|contradiction].
Qed.

Lemma Create_pkg_neither b_tmp total i pkg acc :
  Repository pkg = "" -> Path pkg = "" ->
  Create_pkg E b_tmp total i pkg acc
    = fail "todo: haven't we already validated that Path or Repository is valid".
Proof.
  intros Hr Hp. unfold Create_pkg. destruct acc as [m pm].
  destruct (decide (Repository pkg ≠ "")) as [H|_]; [contradiction|].
  destruct (decide (Path pkg ≠ "")) as [H|_]; [contradiction|]. reflexivity.
Qed.

(** C6, as amended.  If a child has neither a repository nor a path,
    [Create] returns an error.  The iteration of the loop that gets to
    such a child stops with the fixed text "todo: haven't we already
    validated that Path or Repository is valid" and without touching the
    state; the text is the same for every child, whatever its name. *)
Theorem Create_neither_fails (b_tmp : string) (signature : bytes) (s : State)
    (i : nat) (pkg : ZarfPackage) :
  ZarfPackages (s_bundle s) !! i = Some pkg ->
  Repository pkg = "" -> Path pkg = "" ->
  (exists msg, snd (Create E b_tmp signature s) = Err msg) /\
  (forall total acc s1,
     Create_pkg E b_tmp total i pkg acc s1
     = (s1, Err "todo: haven't we already validated that Path or Repository is valid")).
Proof.
  intros Hi Hr Hp. split.
  - destruct (Create E b_tmp signature s) as [s' [u|msg]] eqn:Hrun; [|simpl; eauto].
    exfalso.
    apply Create_ok in Hrun as (s1 & mf & Hbody & _ & _).
    apply Create_body_ok in Hbody
      as (m & descs & yb & _ & _ & _ & _ & _ & _ & _ & _ & _ & _ & _ & Hpk).
    destruct (Hpk i pkg) as (pkg' & _ & [[Hrepo _]|(_ & Hpath & _)]).
    + destruct s; exact Hi.
    + contradiction.
    + contradiction.
  - intros total acc s1. rewrite Create_pkg_neither by assumption. reflexivity.
Qed.

End Checks.

(** ** The claims on the root manifest and the index *)

Section RootManifest.

Import types.
Context (E : Env).

(** C3. After a successful [Create], [index.json] is the encoding of an
    index whose manifests are the root manifest descriptor and nothing
    else, and the blob under that descriptor's digest is the root
    manifest.  This holds for every remote bundler, whatever it did to
    the index while it pushed the children. *)
Theorem Create_index_lists_root_only (b_tmp : string) (signature : bytes) (s s' : State) :
  Create E b_tmp signature s = (s', Ok tt) ->
  exists m ix,
    cs_index_json (s_cs s') = Some (json_Marshal_Index E ix) /\
    Manifests ix = [root_desc E m] /\
    length (Manifests ix) = 1 /\
    MediaType (root_desc E m) = "application/vnd.oci.image.manifest.v1+json" /\
    cs_blobs (s_cs s') !! Encoded (DescDigest (root_desc E m))
      = Some (json_Marshal_Manifest E m).
Proof.
  intros H. apply Create_ok in H as (s1 & mf & Hbody & Hcs & _).
  apply Create_body_ok in Hbody
    as (m & descs & yb & _ & _ & _ & _ & _ & _ & Hblob & (ix & Hix & Hman) & _).
  exists m, ix. rewrite Hcs, Hman. auto.
Qed.

(** C1, the defect.  When a non-empty signature is given, the root
    manifest that a successful [Create] leaves in the store, the one
    [index.json] lists, has one layer per child and the
    [uds-bundle.yaml] layer, and stops there: its layers are not the
    list that ends with the signature descriptor. *)
Theorem Create_pushed_layers_lack_signature (b_tmp : string) (signature : bytes)
    (s s' : State) :
  (0 < length signature)%nat ->
  Create E b_tmp signature s = (s', Ok tt) ->
  exists m ix descs yamlBytes,
    cs_index_json (s_cs s') = Some (json_Marshal_Index E ix) /\
    Manifests ix = [root_desc E m] /\
    cs_blobs (s_cs s') !! Encoded (DescDigest (root_desc E m))
      = Some (json_Marshal_Manifest E m) /\
    length descs = length (ZarfPackages (s_bundle s)) /\
    Layers m = descs ++ [bundle_yaml_desc E yamlBytes] /\
    Layers m ≠ descs ++ [bundle_yaml_desc E yamlBytes] ++ [signature_desc E signature].
Proof.
  intros Hsig H. apply Create_ok in H as (s1 & mf & Hbody & Hcs & _).
  apply Create_body_ok in Hbody
    as (m & descs & yb & Hl & Hlen & _ & _ & _ & _ & Hblob & (ix & Hix & Hman) & _).
  exists m, ix, descs, yb. rewrite Hcs.
  split; [exact Hix|]. split; [exact Hman|]. split; [exact Hblob|].
  split; [rewrite Hlen; destruct s; reflexivity|]. split; [exact Hl|].
  rewrite Hl. intros Heq. apply (f_equal length) in Heq.
  rewrite !length_app in Heq. simpl in Heq. lia.
Qed.

(** The local variable does get the signature layer, after the manifest
    has been marshalled and pushed. *)
Lemma Create_body_variable_gets_signature b_tmp signature s s' m_final :
  (0 < length signature)%nat ->
  Create_body E b_tmp signature s = (s', Ok m_final) ->
  exists m, Layers m_final = Layers m ++ [signature_desc E signature] /\
            cs_blobs (s_cs s') !! Encoded (DescDigest (root_desc E m))
              = Some (json_Marshal_Manifest E m).
Proof.
  intros Hsig H.
  apply Create_body_ok in H
    as (m & descs & yb & _ & _ & _ & _ & _ & _ & Hblob & _ & Hfin & _).
  exists m. split; [|exact Hblob].
  destruct (decide (0 < length signature)%nat); [|contradiction].
  rewrite Hfin. reflexivity.
Qed.

(** Without a signature the pushed root manifest of [Create] has the
    child layers and the [uds-bundle.yaml] layer, as in C1. *)
Lemma Create_layers_without_signature b_tmp s s' :
  Create E b_tmp [] s = (s', Ok tt) ->
  exists m descs yamlBytes,
    cs_blobs (s_cs s') !! Encoded (DescDigest (root_desc E m))
      = Some (json_Marshal_Manifest E m) /\
    length descs = length (ZarfPackages (s_bundle s)) /\
    Layers m = descs ++ [bundle_yaml_desc E yamlBytes].
Proof.
  intros H. apply Create_ok in H as (s1 & mf & Hbody & Hcs & _).
  apply Create_body_ok in Hbody as (m & descs & yb & Hl & Hlen & _ & _ & _ & _ & Hblob & _).
  exists m, descs, yb. rewrite Hcs.
  split; [exact Hblob|]. split; [rewrite Hlen; destruct s; reflexivity|exact Hl].
Qed.

(** [CreateAndPublish] does what C1 and C2 say: the manifest pushed
    under the reference has the child layers, the [uds-bundle.yaml]
    layer, and the signature layer when a signature is given. *)
Lemma CreateAndPublish_layers reference bundle signature s s' :
  CreateAndPublish E reference bundle signature s = (s', Ok tt) ->
  exists m descs yamlBytes,
    reg_manifests (s_registry s') !! reference
      = Some (root_desc E m, json_Marshal_Manifest E m) /\
    length descs = length (ZarfPackages bundle) /\
    Layers m = descs ++ [bundle_yaml_desc E yamlBytes] ++
               (if decide (0 < length signature)%nat
                then [signature_desc E signature] else []).
Proof.
  intros H. apply CreateAndPublish_ok in H
    as (m & descs & yb & _ & Hl & Hlen & _ & _ & _ & _ & Hreg).
  exists m, descs, yb. auto.
Qed.

Lemma signature_desc_title signature :
  Annotations (signature_desc E signature) !! "org.opencontainers.image.title"
    = Some "uds-bundle.yaml.sig" /\
  DescDigest (signature_desc E signature) = digest_FromBytes E signature /\
  Size (signature_desc E signature) = Z.of_nat (length signature).
Proof. repeat split. Qed.

(** C8, the defect.  The manifest that a successful [CreateAndPublish]
    marshals and pushes under the reference has schema version 2, but
    its [mediaType] field is the empty string: only the descriptor it
    is pushed with carries the manifest media type. *)
Theorem CreateAndPublish_manifest_mediaType_unset (reference : string)
    (bundle : UDSBundle) (signature : bytes) (s s' : State) :
  CreateAndPublish E reference bundle signature s = (s', Ok tt) ->
  exists m,
    reg_manifests (s_registry s') !! reference
      = Some (root_desc E m, json_Marshal_Manifest E m) /\
    SchemaVersion m = 2%Z /\
    ManifestMediaType m = "" /\
    ManifestMediaType m ≠ "application/vnd.oci.image.manifest.v1+json" /\
    MediaType (root_desc E m) = "application/vnd.oci.image.manifest.v1+json".
Proof.
  intros H. apply CreateAndPublish_ok in H
    as (m & descs & yb & _ & _ & _ & _ & Hsv & Hmt & _ & Hreg).
  exists m. rewrite Hmt. repeat split; auto; discriminate.
Qed.

(** [Create] does set both fields of C8. *)
Lemma Create_manifest_header b_tmp signature s s' :
  Create E b_tmp signature s = (s', Ok tt) ->
  exists m,
    cs_blobs (s_cs s') !! Encoded (DescDigest (root_desc E m))
      = Some (json_Marshal_Manifest E m) /\
    SchemaVersion m = 2%Z /\
    ManifestMediaType m = "application/vnd.oci.image.manifest.v1+json".
Proof.
  intros H. apply Create_ok in H as (s1 & mf & Hbody & Hcs & _).
  apply Create_body_ok in Hbody as (m & descs & yb & _ & _ & _ & Hsv & Hmt & _ & Hblob & _).
  exists m. rewrite Hcs. auto.
Qed.

(** C7. The config blob is the encoding of an [oci.ConfigPartial] with
    the architecture of the build data, OCI version "1.0.1" and the two
    annotations title and description taken from the metadata.
    [createManifestConfig], which needs no registry, always succeeds and
    describes the blob with the image manifest media type, its digest
    and its size.  [pushManifestConfigFromMetadata] pushes the same
    blob: when the registry takes it, the descriptor has the image
    config media type, the same digest and size, and the registry holds
    the blob under that digest; when it fails, the error is the one of
    the registry and the registry is as before. *)
Theorem manifest_config_blob (metadata : UDSMetadata) (build : UDSBuildData) :
  exists cfg blob,
    blob = json_Marshal_Config E cfg /\
    CfgArchitecture cfg = BuildArchitecture build /\
    OCIVersion cfg = "1.0.1" /\
    (forall k, CfgAnnotations cfg !! k =
       if decide (k = "org.opencontainers.image.title") then Some (MetaName metadata)
       else if decide (k = "org.opencontainers.image.description")
            then Some (Description metadata)
            else None) /\
    (exists dl, createManifestConfig E metadata build = Ok dl /\
       MediaType dl = "application/vnd.oci.image.manifest.v1+json" /\
       DescDigest dl = digest_FromBytes E blob /\
       Size dl = Z.of_nat (length blob)) /\
    (forall s s' r,
       pushManifestConfigFromMetadata E metadata build s = (s', r) ->
       match r with
       | Ok d =>
           MediaType d = "application/vnd.oci.image.config.v1+json" /\
           DescDigest d = digest_FromBytes E blob /\
           Size d = Z.of_nat (length blob) /\
           reg_blobs (s_registry s') !! Encoded (DescDigest d) = Some blob
       | Err e =>
           s_registry s' = s_registry s /\
           exists d, registry_Push_err E (s_registry s) d blob = Some e /\
                     MediaType d = "application/vnd.oci.image.config.v1+json" /\
                     DescDigest d = digest_FromBytes E blob
       end).
Proof.
  exists (manifestConfig metadata build), (json_Marshal_Config E (manifestConfig metadata build)).
  split; [reflexivity|]. split; [reflexivity|]. split; [reflexivity|].
  split; [|split].
  - intros k. unfold manifestConfig. cbn [CfgAnnotations].
    destruct (decide (k = "org.opencontainers.image.title")) as [->|Hk1].
    + apply lookup_insert_eq.
    + rewrite lookup_insert_ne by (intros Heq; apply Hk1; symmetry; exact Heq).
      destruct (decide (k = "org.opencontainers.image.description")) as [->|Hk2].
      * apply lookup_singleton_eq.
      * apply lookup_singleton_ne. intros Heq; apply Hk2; symmetry; exact Heq.
  - eexists. split; [reflexivity|]. repeat split.
  - intros s s' r H. unfold pushManifestConfigFromMetadata in H.
    destruct r as [d|e].
    + apply PushLayer_ok in H as [-> Hb].
      split; [reflexivity|]. split; [reflexivity|]. split; [reflexivity|].
      rewrite Hb. apply lookup_insert_eq.
    + unfold PushLayer in H. mrun H; prim; subst. mrun H; prim; subst. simpl in H.
      destruct (registry_Push_err E (s_registry s) _ _) as [e'|] eqn:Herr.
      * apply fail_run in H as [-> He]. injection He as <-.
        split; [reflexivity|]. eexists. split; [exact Herr|]. split; reflexivity.
      * mrun H; prim; subst.
Qed.

End RootManifest.

(** ** The claims on the children *)

Section ChildClaims.

Import types.
Context (E : Env).

(** C4, as amended.  After a successful [Create], a child with an empty
    repository and a non-empty path has the reference
    [<original>-<arch>@sha256:<hex>], where [<hex>] is the digest of its
    rewritten manifest (the manifest of the extracted archive with the
    target media type and annotations, which [ToBundle] puts into the
    store): 64 characters out of [0-9a-f].  Right after the iteration
    that mirrors the child, the store holds a blob under that digest,
    the layer appended to the root manifest has it, and the reference
    is already rewritten. *)
Theorem Create_local_ref (b_tmp : string) (signature : bytes) (s s' : State)
    (i : nat) (pkg : ZarfPackage) :
  (forall c, length (sha256_Sum E c) = 32) ->
  Create E b_tmp signature s = (s', Ok tt) ->
  ZarfPackages (s_bundle s) !! i = Some pkg ->
  Repository pkg = "" -> Path pkg ≠ "" ->
  exists tree zarfPkg hex,
    read_archive E (Path pkg) = Ok tree /\
    parse_zarf_yaml E (ex_zarf_yaml tree) = Ok zarfPkg /\
    hex = hex_encode (sha256_Sum E
            (json_Marshal_Manifest E (rewrite_manifest E zarfPkg (ex_manifest tree)))) /\
    String.length hex = 64 /\
    all_chars is_lower_hex hex = true /\
    ZarfPackages (s_bundle s') !! i =
      Some (set_Ref (Ref pkg +:+ "-" +:+ Architecture (Metadata (s_bundle s)) +:+
                     "@sha256:" +:+ hex) pkg) /\
    (forall total m pm s1 s2 acc',
       ZarfPackages (s_bundle s1) !! i = Some pkg ->
       Create_pkg E b_tmp total i pkg (m, pm) s1 = (s2, Ok acc') ->
       is_Some (cs_blobs (s_cs s2) !! hex) /\
       MediaType <$> last (Layers (fst acc')) = Some MediaTypeImageManifest /\
       Encoded ∘ DescDigest <$> last (Layers (fst acc')) = Some hex /\
       ZarfPackages (s_bundle s2) !! i =
         Some (set_Ref (Ref pkg +:+ "-" +:+ Architecture (Metadata (s_bundle s1)) +:+
                        "@sha256:" +:+ hex) pkg)).
Proof.
  intros Hsha H Hi Hrepo Hpath.
  apply Create_ok in H as (s1 & mf & Hbody & _ & Hbu).
  apply Create_body_ok in Hbody
    as (m & descs & yb & _ & _ & _ & _ & _ & _ & _ & _ & _ & _ & _ & Hpk).
  destruct (Hpk i pkg) as (pkg' & Hi' & Hmir); [destruct s; exact Hi|].
  destruct Hmir as [[Hne _]|(_ & _ & tree & z & Hread & Hparse & Hpkg')];
    [contradiction|].
  exists tree, z, (hex_encode (sha256_Sum E
    (json_Marshal_Manifest E (rewrite_manifest E z (ex_manifest tree))))).
  split; [exact Hread|]. split; [exact Hparse|]. split; [reflexivity|].
  split; [rewrite hex_encode_length, Hsha; reflexivity|].
  split; [apply hex_encode_lower|].
  split; [rewrite Hbu, Hi', Hpkg'; destruct s; reflexivity|].
  intros total m0 pm s2 s3 acc' Hi2 Hstep.
  apply Create_pkg_local_ok in Hstep
    as (tree2 & z2 & d & Hread2 & Hparse2 & Hd & Hacc & Hsome & Href);
    [|exact Hrepo|exact Hi2].
  rewrite Hread in Hread2. injection Hread2 as <-.
  rewrite Hparse in Hparse2. injection Hparse2 as <-.
  rewrite Hacc. simpl. rewrite last_snoc. simpl.
  rewrite Hd in Hsome, Href |- *. auto.
Qed.

(** A child with a repository keeps its reference, path or no path. *)
Lemma Create_remote_ref_kept b_tmp signature s s' i pkg :
  Create E b_tmp signature s = (s', Ok tt) ->
  ZarfPackages (s_bundle s) !! i = Some pkg ->
  Repository pkg ≠ "" ->
  ZarfPackages (s_bundle s') !! i = Some pkg.
Proof.
  intros H Hi Hrepo.
  apply Create_ok in H as (s1 & mf & Hbody & _ & Hbu).
  apply Create_body_ok in Hbody
    as (m & descs & yb & _ & _ & _ & _ & _ & _ & _ & _ & _ & _ & _ & Hpk).
  destruct (Hpk i pkg) as (pkg' & Hi' & Hmir); [destruct s; exact Hi|].
  destruct Hmir as [[_ ->]|(Hempty & _)]; [|contradiction].
  rewrite Hbu. exact Hi'.
Qed.

Lemma Create_pkg_remote_first b_tmp total i pkg acc s s' r :
  Repository pkg ≠ "" ->
  Create_pkg E b_tmp total i pkg acc s = (s', r) ->
  exists evs,
    s_trace s' = s_trace s ++
                 EvNewRemoteBundler i (Repository pkg +:+ ":" +:+ Ref pkg) :: evs /\
    Forall (fun e => local_event e = None) evs.
Proof.
  intros Hrepo H. unfold Create_pkg in H. destruct acc as [m pm].
  destruct (decide (Repository pkg ≠ "")) as [_|Hne]; [|contradiction].
  unfold NewRemoteBundler in H. rewrite bind_assoc_run in H.
  eapply emit_first; [|exact H]. cbv beta.
  repeat emits_step.
  - apply emits_PushManifest. reflexivity.
  - apply emits_PushLayers. reflexivity.
Qed.

End ChildClaims.

(** ** The remote branch of [Create] *)

Section RemoteBranch.

Import types.
Context (E : Env).

Lemma child_events_app i l1 l2 :
  child_events i (l1 ++ l2) = child_events i l1 ++ child_events i l2.
Proof. apply filter_app. Qed.

Lemma child_events_none i evs :
  Forall (fun e => child_index e ≠ Some i) evs -> child_events i evs = [].
Proof.
  induction 1 as [|e evs He _ IH]; [reflexivity|].
  unfold child_events in *. rewrite filter_cons.
  destruct (decide (child_index e = Some i)); [contradiction|exact IH].
Qed.

(** A successful iteration for a child with a repository: the remote
    bundler is built for [repository:ref] with the store as its
    destination, it pushes the manifest and then the layers, and the
    descriptor of the manifest is the layer added. *)
Lemma Create_pkg_remote_ok b_tmp total i pkg m pm s1 s2 acc2 :
  Repository pkg ≠ "" ->
  Create_pkg E b_tmp total i pkg (m, pm) s1 = (s2, Ok acc2) ->
  s_trace s2 = s_trace s1 ++
    [EvNewRemoteBundler i (Repository pkg +:+ ":" +:+ Ref pkg);
     EvPushManifest i; EvPushLayers i] /\
  s_bundle s2 = s_bundle s1 /\
  exists rb d ls w1,
    NewRemoteBundler_ E pkg (Repository pkg +:+ ":" +:+ Ref pkg) DestStore = Ok rb /\
    PushManifest_ E rb (s_cs s1, s_registry s1) = (w1, Ok d) /\
    PushLayers_ E rb (i + 1) total w1 = ((s_cs s2, s_registry s2), Ok ls) /\
    fst acc2 = with_Layers (Layers m ++ [d]) m.
Proof.
  intros Hrepo H. unfold Create_pkg in H.
  destruct (decide (Repository pkg ≠ "")) as [_|Hne]; [|contradiction].
  mstep H as rb sa Hnew. mstep H as d sb Hman. mstep H as ls sc Hlay.
  apply ret_run in H as [-> Hacc]. injection Hacc as Hacc. subst acc2.
  unfold NewRemoteBundler in Hnew. mstep Hnew as u sx He.
  apply emit_run in He as [-> _]. apply lift_run in Hnew as [-> Hrb].
  unfold PushManifest in Hman. mstep Hman as u2 sy He.
  apply emit_run in He as [-> _]. unfold lift_world in Hman.
  destruct (PushManifest_ E rb _) as [[cs1 reg1] r1] eqn:HPM.
  injection Hman as Hsb Hr1. subst sb r1.
  unfold PushLayers in Hlay. mstep Hlay as u3 sz He.
  apply emit_run in He as [-> _]. unfold lift_world in Hlay.
  destruct (PushLayers_ E rb _ _ _) as [[cs2 reg2] r2] eqn:HPL.
  injection Hlay as Hsc Hr2. subst sc r2.
  destruct s1 as [bu cs reg scr out df tr]. simpl in *.
  split; [rewrite <- !app_assoc; reflexivity|]. split; [reflexivity|].
  exists rb, d, ls, (cs1, reg1). auto.
Qed.

Lemma emits_Create_loop_from b_tmp total pkgs : forall i acc,
  emits (fun e => forall n, child_index e = Some n -> i <= n)
        (Create_loop E b_tmp total i pkgs acc).
Proof.
  induction pkgs as [|pkg rest IH]; intros i acc; simpl.
  - apply emits_ret.
  - apply emits_bind.
    + apply emits_Create_pkg.
      * intros d c n Hn. discriminate.
      * intros _ e He n Hn. unfold child_index in Hn. rewrite He in Hn.
        injection Hn as <-. lia.
      * intros _ _ e He n Hn. unfold child_index in Hn.
        destruct e; simpl in *; try discriminate;
          injection He as ->; injection Hn as <-; lia.
    + intros acc'. eapply emits_mono; [|apply IH].
      intros e He n Hn. specialize (He n Hn). lia.
Qed.

Lemma emits_Create_pkg_own b_tmp total i pkg acc :
  emits (fun e => forall n, child_index e = Some n -> n = i)
        (Create_pkg E b_tmp total i pkg acc).
Proof.
  apply emits_Create_pkg.
  - intros d c n Hn. discriminate.
  - intros _ e He n Hn. unfold child_index in Hn. rewrite He in Hn.
    injection Hn as <-. reflexivity.
  - intros _ _ e He n Hn. unfold child_index in Hn.
    destruct e; simpl in *; try discriminate;
      injection He as ->; injection Hn as <-; reflexivity.
Qed.

(** In a loop that succeeds, every child with a repository is mirrored
    once, and the layer at its position is the descriptor its remote
    bundler returned. *)
Lemma Create_loop_remote b_tmp total pkgs : forall i acc s s' acc',
  Create_loop E b_tmp total i pkgs acc s = (s', Ok acc') ->
  exists evs,
    s_trace s' = s_trace s ++ evs /\
    (exists descs, Layers (fst acc') = Layers (fst acc) ++ descs /\
                   length descs = length pkgs) /\
    forall k pkg, pkgs !! k = Some pkg -> Repository pkg ≠ "" ->
      child_events (i + k) evs =
        [EvNewRemoteBundler (i + k) (Repository pkg +:+ ":" +:+ Ref pkg);
         EvPushManifest (i + k); EvPushLayers (i + k)] /\
      exists rb d ls w w1 w2,
        NewRemoteBundler_ E pkg (Repository pkg +:+ ":" +:+ Ref pkg) DestStore = Ok rb /\
        PushManifest_ E rb w = (w1, Ok d) /\
        PushLayers_ E rb (i + k + 1) total w1 = (w2, Ok ls) /\
        Layers (fst acc') !! (length (Layers (fst acc)) + k) = Some d.
Proof.
  induction pkgs as [|pkg rest IH]; intros i acc s s' acc' H; simpl in H.
  - apply ret_run in H as [-> Hacc]. injection Hacc as <-.
    exists []. rewrite app_nil_r. split; [reflexivity|].
    split; [exists []; rewrite app_nil_r; auto|].
    intros k p Hk. rewrite lookup_nil in Hk. discriminate.
  - mstep H as acc1 s1 Hstep. destruct acc as [m pm].
    destruct (emits_Create_pkg_own b_tmp total i pkg (m, pm) _ _ _ Hstep)
      as (ev1 & E1 & F1).
    destruct (emits_Create_loop_from b_tmp total rest (S i) acc1 _ _ _ H)
      as (ev2' & E2' & F2).
    assert (exists d0, fst acc1 = with_Layers (Layers m ++ [d0]) m) as [d0 Hd0].
    { unfold Create_pkg in Hstep.
      destruct (decide (Repository pkg ≠ "")).
      - mstep Hstep as rb sa Hnew. mstep Hstep as d sb Hman. mstep Hstep as ls sc Hlay.
        apply ret_run in Hstep as [_ Hacc]. injection Hacc as Hacc.
        subst acc1. simpl. eauto.
      - destruct (decide (Path pkg ≠ "")); [|prim].
        mstep Hstep as pkgTmp sa Htmp. mstep Hstep as u sb Hext.
        mstep Hstep as z sc Hload. mstep Hstep as r sd Hto. destruct r as [d pm'].
        mstep Hstep as s5 s6 Hget. mstep Hstep as u' s7 Hset.
        apply ret_run in Hstep as [_ Hacc]. injection Hacc as Hacc.
        subst acc1. simpl. eauto. }
    apply IH in H as (ev2 & E2 & [descs [Hl Hlen]] & Hrest).
    assert (ev2' = ev2) as ->.
    { rewrite E2 in E2'. apply app_inv_head in E2'. symmetry. exact E2'. }
    exists (ev1 ++ ev2).
    split; [rewrite E2, E1, app_assoc; reflexivity|].
    rewrite Hd0 in Hl. simpl in Hl. rewrite <- app_assoc in Hl. simpl in Hl.
    split.
    { exists (d0 :: descs). split; [exact Hl|]. simpl. rewrite Hlen. reflexivity. }
    intros [|k] p Hk Hrepo; simpl in Hk.
    + injection Hk as <-. rewrite Nat.add_0_r.
      apply Create_pkg_remote_ok in Hstep
        as (Htr & _ & rb & d & ls & w1 & Hrb & HPM & HPL & Hacc1); [|exact Hrepo].
      rewrite E1 in Htr. apply app_inv_head in Htr. subst ev1.
      rewrite child_events_app. split.
      * rewrite (child_events_none i ev2).
        -- rewrite app_nil_r. unfold child_events. rewrite !filter_cons. simpl.
           repeat (destruct (decide _) as [_|Hc]; [|exfalso; apply Hc; reflexivity]).
           reflexivity.
        -- eapply Forall_impl; [exact F2|]. intros e He Hc.
           specialize (He i Hc). lia.
      * exists rb, d, ls, (s_cs s, s_registry s), w1, (s_cs s1, s_registry s1).
        split; [exact Hrb|]. split; [exact HPM|]. split; [exact HPL|].
        rewrite Hl. simpl in Hacc1. rewrite Hd0 in Hacc1.
        assert (d0 = d) as ->.
        { apply (f_equal Layers) in Hacc1. simpl in Hacc1.
          apply app_inj_tail in Hacc1 as [_ Hd]. exact Hd. }
        simpl. rewrite Nat.add_0_r. apply list_lookup_middle. reflexivity.
    + destruct (Hrest k p Hk Hrepo) as (Hev & rb & d & ls & w & w1 & w2 & Hrb & HPM & HPL & Hlay).
      replace (i + S k) with (S i + k) by lia.
      rewrite child_events_app, Hev. split.
      * rewrite (child_events_none (S i + k) ev1); [reflexivity|].
        eapply Forall_impl; [exact F1|]. intros e He Hc.
        specialize (He _ Hc). lia.
      * exists rb, d, ls, w, w1, w2.
        split; [exact Hrb|]. split; [exact HPM|]. split; [exact HPL|].
        rewrite Hd0 in Hlay. simpl in Hlay. rewrite length_app in Hlay. simpl in Hlay.
        simpl. replace (length (Layers m) + S k) with (length (Layers m) + 1 + k) by lia.
        exact Hlay.
Qed.


(** A successful body of [Create], cut at its loop: what comes before
    and after the loop belongs to no child, and the root manifest in the
    store has the layers the loop collected, then the layer of
    [uds-bundle.yaml]. *)
Lemma Create_body_loop b_tmp signature s s' m_final :
  Create_body E b_tmp signature s = (s', Ok m_final) ->
  exists s1 s2 m0 pm0 m pre post,
    Create_loop E b_tmp (length (ZarfPackages (s_bundle s))) 0
      (ZarfPackages (s_bundle s))
      (with_MediaType MediaTypeImageManifest Manifest_zero, ∅) s1 = (s2, Ok (m0, pm0)) /\
    s_trace s1 = s_trace s ++ pre /\
    Forall (fun e => child_index e = None) pre /\
    s_trace s' = s_trace s2 ++ post /\
    Forall (fun e => child_index e = None) post /\
    (exists ix, cs_index_json (s_cs s') = Some (json_Marshal_Index E ix) /\
                Manifests ix = [root_desc E m]) /\
    cs_blobs (s_cs s') !! Encoded (DescDigest (root_desc E m))
      = Some (json_Marshal_Manifest E m) /\
    (exists yamlDesc, Layers m = Layers m0 ++ [yamlDesc]).
Proof.
  unfold Create_body. intros H.
  mstep H as s0 s0' Hget. apply get_run in Hget as [-> Hs0].
  injection Hs0 as Hs0. subst s0.
  destruct (decide (Architecture (Metadata (s_bundle s)) = "")) as [Harch|Harch]; [prim|].
  mstep H as u1 s1 Hnew.
  assert (emits (fun e => child_index e = None) (ocistore_NewWithContext E b_tmp)) as Hpre.
  { unfold ocistore_NewWithContext. emits_step; [emits_step; reflexivity|].
    apply emits_silent. intros sx. destruct (ocistore_New E b_tmp (s_cs sx)). reflexivity. }
  destruct (Hpre _ _ _ Hnew) as (pre & Epre & Fpre).
  mstep H as acc s2 Hloop. destruct acc as [m0 pm0].
  match type of H with
  | ?c s2 = _ => assert (emits (fun e => child_index e = None) c) as Hpost
  end.
  { emits_step; [emits_step|].
    emits_step.
    { unfold pushBundleManifestToStore. repeat emits_step.
      apply emits_store_Push. intros; reflexivity. }
    emits_step; [emits_step|].
    emits_step; [apply emits_store_Push; intros; reflexivity|].
    emits_step; [apply emits_rebuild_index; intros; reflexivity|].
    emits_step.
    { emits_case; [|emits_step]. unfold pushBundleSignature. repeat emits_step.
      apply emits_store_Push. intros; reflexivity. }
    emits_step; [|emits_step].
    apply emits_writeTarball. intros; reflexivity. }
  destruct (Hpost _ _ _ H) as (post & Epost & Fpost).
  mstep H as s2' s2'' Hget. apply get_run in Hget as [-> Hs2].
  injection Hs2 as Hs2. subst s2'.
  mstep H as yamlDesc s3 Hyaml.
  mstep H as cfg s3' Hcfg. apply lift_run in Hcfg as [-> Hcfg].
  mstep H as u2 s4 Hpush.
  apply store_Push_ok in Hpush as (Hnone4 & Hb4 & _).
  mstep H as u3 s5 Hidx.
  apply rebuild_index_ok in Hidx as (Hix & Hb5 & _).
  mstep H as mf s6 Hsig.
  mstep H as u4 s7 Htar.
  apply writeTarball_ok in Htar as (Hcs7 & _).
  apply ret_run in H as [-> _].
  match type of Hb4 with
  | context [json_Marshal_Manifest E ?x] => set (m := x) in *
  end.
  fold (root_desc E m) in *.
  assert (cs_blobs (s_cs s5) !! Encoded (DescDigest (root_desc E m))
          = Some (json_Marshal_Manifest E m)) as Hr5.
  { rewrite Hb5, Hb4. apply lookup_insert_eq. }
  exists s1, s2, m0, pm0, m, pre, post.
  split; [exact Hloop|]. split; [exact Epre|]. split; [exact Fpre|].
  split; [exact Epost|]. split; [exact Fpost|].
  assert (exists yd, Layers m = Layers m0 ++ [yd]) as Hlay
    by (subst m; simpl; eauto).
  destruct (decide (0 < length signature)%nat) as [Hlt|Hlt].
  - mstep Hsig as sd s6' Hps. apply ret_run in Hsig as [-> _].
    apply pushBundleSignature_ok in Hps as (_ & Hnone & Hb6 & Hi6 & _).
    rewrite Hcs7, Hb6, Hi6.
    split; [exact Hix|]. split; [|exact Hlay].
    rewrite lookup_insert_ne; [exact Hr5|].
    intros Heq. rewrite Heq, Hr5 in Hnone. discriminate.
  - apply ret_run in Hsig as [-> _]. rewrite Hcs7. auto.
Qed.

(** After a successful [Create], a child with a repository has been
    mirrored through the remote bundler, once, and the root manifest in
    the store lists the descriptor the bundler returned at the position
    of the child. *)
Lemma Create_remote_mirrored b_tmp signature s s' i pkg :
  Create E b_tmp signature s = (s', Ok tt) ->
  ZarfPackages (s_bundle s) !! i = Some pkg ->
  Repository pkg ≠ "" ->
  exists evs,
    s_trace s' = s_trace s ++ evs /\
    child_events i evs =
      [EvNewRemoteBundler i (Repository pkg +:+ ":" +:+ Ref pkg);
       EvPushManifest i; EvPushLayers i] /\
    exists rb d ls w w1 w2 m ix,
      NewRemoteBundler_ E pkg (Repository pkg +:+ ":" +:+ Ref pkg) DestStore = Ok rb /\
      PushManifest_ E rb w = (w1, Ok d) /\
      PushLayers_ E rb (i + 1) (length (ZarfPackages (s_bundle s))) w1 = (w2, Ok ls) /\
      cs_index_json (s_cs s') = Some (json_Marshal_Index E ix) /\
      Manifests ix = [root_desc E m] /\
      cs_blobs (s_cs s') !! Encoded (DescDigest (root_desc E m))
        = Some (json_Marshal_Manifest E m) /\
      Layers m !! i = Some d.
Proof.
  intros H Hi Hrepo. unfold Create, with_defers in H.
  destruct ((Create_body E b_tmp signature;;; ret tt) (upd_defer (fun _ => []) s))
    as [sb rb0] eqn:Hrun.
  inversion H; subst; clear H.
  mstep Hrun as m_final sb' Hbody. apply ret_run in Hrun as [-> _].
  apply Create_body_loop in Hbody
    as (s1 & s2 & m0 & pm0 & m & pre & post & Hloop & Epre & Fpre & Epost & Fpost &
        [ix [Hix Hman]] & Hblob & [yd Hlay]).
  replace (s_bundle (upd_defer (fun _ => []) s)) with (s_bundle s) in Hloop
    by (destruct s; reflexivity).
  apply Create_loop_remote in Hloop as (evl & El & _ & Hch).
  destruct (Hch i pkg Hi Hrepo)
    as (Hev & rb & d & ls & w & w1 & w2 & Hrb & HPM & HPL & Hd).
  simpl in Hev, HPL, Hd.
  destruct (emits_run_defers (fun e => child_index e = None) (s_defer sb') sb')
    as (evd & Ed & Fd); [intros p; reflexivity|].
  destruct (run_defers_cs (s_defer sb') sb') as [Hcs _].
  exists (pre ++ evl ++ post ++ evd). split.
  { transitivity (s_trace (run_defers (s_defer sb') sb')).
    - destruct (run_defers (s_defer sb') sb'); reflexivity.
    - rewrite Ed, Epost, El, Epre. destruct s; simpl. rewrite <- !app_assoc. reflexivity. }
  assert (forall l, Forall (fun e => child_index e = None) l -> child_events i l = []) as Hnone.
  { intros l Hl. apply child_events_none. eapply Forall_impl; [exact Hl|].
    intros e He Hc. rewrite He in Hc. discriminate. }
  split.
  { rewrite !child_events_app, (Hnone pre Fpre), (Hnone post Fpost), (Hnone evd Fd), Hev.
    reflexivity. }
  exists rb, d, ls, w, w1, w2, m, ix.
  assert (s_cs (upd_defer (fun _ => s_defer s) (run_defers (s_defer sb') sb')) = s_cs sb')
    as -> by (rewrite <- Hcs; destruct (run_defers (s_defer sb') sb'); reflexivity).
  split; [exact Hrb|]. split; [exact HPM|]. split; [exact HPL|].
  split; [exact Hix|]. split; [exact Hman|]. split; [exact Hblob|].
  rewrite Hlay. apply lookup_app_l_Some. exact Hd.
Qed.


(** C9. A child with a non-empty repository goes through the remote
    branch of [Create], whether or not its path is set.  Whatever
    [Create] returns, no call of the local workflow (temporary
    directory, extract, load, to-bundle) is made for it, so its path is
    never extracted or read; a call of the local workflow belongs to a
    child with an empty repository and a non-empty path.  When [Create]
    succeeds the child has been mirrored from the repository: the calls
    made for it are exactly the construction of the remote bundler for
    [repository:ref] with the store as destination, the push of its
    manifest and the push of its layers, in this order; the root
    manifest in the store lists, at the position of the child, the
    descriptor the bundler returned for the manifest; and the reference
    of the child is unchanged.  The same holds for the iteration taken
    alone. *)
Theorem Create_remote_branch_when_repository (b_tmp : string) (signature : bytes)
    (s s' : State) (r : result unit) (i : nat) (pkg : ZarfPackage) :
  Create E b_tmp signature s = (s', r) ->
  ZarfPackages (s_bundle s) !! i = Some pkg ->
  exists evs,
    s_trace s' = s_trace s ++ evs /\
    (Repository pkg ≠ "" -> Forall (fun e => local_event e ≠ Some i) evs) /\
    (forall e, e ∈ evs -> local_event e = Some i ->
               Repository pkg = "" /\ Path pkg ≠ "") /\
    (Repository pkg ≠ "" -> r = Ok tt ->
     child_events i evs =
       [EvNewRemoteBundler i (Repository pkg +:+ ":" +:+ Ref pkg);
        EvPushManifest i; EvPushLayers i] /\
     ZarfPackages (s_bundle s') !! i = Some pkg /\
     exists rb d ls w w1 w2 m ix,
       NewRemoteBundler_ E pkg (Repository pkg +:+ ":" +:+ Ref pkg) DestStore = Ok rb /\
       PushManifest_ E rb w = (w1, Ok d) /\
       PushLayers_ E rb (i + 1) (length (ZarfPackages (s_bundle s))) w1 = (w2, Ok ls) /\
       cs_index_json (s_cs s') = Some (json_Marshal_Index E ix) /\
       Manifests ix = [root_desc E m] /\
       cs_blobs (s_cs s') !! Encoded (DescDigest (root_desc E m))
         = Some (json_Marshal_Manifest E m) /\
       Layers m !! i = Some d) /\
    (Repository pkg ≠ "" ->
     forall total m pm s1 s2 r2,
       Create_pkg E b_tmp total i pkg (m, pm) s1 = (s2, r2) ->
       exists evs',
         s_trace s2 = s_trace s1 ++
                      EvNewRemoteBundler i (Repository pkg +:+ ":" +:+ Ref pkg) :: evs' /\
         Forall (fun e => local_event e = None) evs' /\
         (forall acc2, r2 = Ok acc2 ->
            evs' = [EvPushManifest i; EvPushLayers i] /\
            s_bundle s2 = s_bundle s1 /\
            exists rb d ls w1,
              NewRemoteBundler_ E pkg (Repository pkg +:+ ":" +:+ Ref pkg) DestStore
                = Ok rb /\
              PushManifest_ E rb (s_cs s1, s_registry s1) = (w1, Ok d) /\
              PushLayers_ E rb (i + 1) total w1 = ((s_cs s2, s_registry s2), Ok ls) /\
              fst acc2 = with_Layers (Layers m ++ [d]) m)).
Proof.
  intros H Hi.
  pose proof H as Hrun.
  apply Create_trace in H as (evs & Heq & HF).
  exists evs. split; [exact Heq|].
  assert (forall e, e ∈ evs -> local_event e = Some i ->
                    Repository pkg = "" /\ Path pkg ≠ "") as Honly.
  { intros e He Hloc. rewrite Forall_forall in HF.
    destruct (HF e He i Hloc) as (pkg0 & Hpkg0 & Hr & Hp).
    rewrite Hi in Hpkg0. injection Hpkg0 as <-. auto. }
  split; [|split; [exact Honly|split]].
  - intros Hrepo. apply Forall_forall. intros e He Hloc.
    destruct (Honly e He Hloc) as [Hr _]. contradiction.
  - intros Hrepo ->.
    destruct (Create_remote_mirrored _ _ _ _ _ _ Hrun Hi Hrepo)
      as (evs2 & Heq2 & Hev & Hmir).
    assert (evs2 = evs) as ->.
    { rewrite Heq in Heq2. apply app_inv_head in Heq2. symmetry. exact Heq2. }
    split; [exact Hev|]. split; [|exact Hmir].
    eapply Create_remote_ref_kept; eauto.
  - intros Hrepo total m pm s1 s2 r2 Hstep.
    destruct (Create_pkg_remote_first E _ _ _ _ _ _ _ _ Hrepo Hstep) as (evs' & Heq' & HF').
    exists evs'. split; [exact Heq'|]. split; [exact HF'|].
    intros acc2 ->.
    apply Create_pkg_remote_ok in Hstep as (Htr & Hbu & Hrest); [|exact Hrepo].
    split; [|split; [exact Hbu|exact Hrest]].
    rewrite Heq' in Htr. apply app_inv_head in Htr. injection Htr as ->. reflexivity.
Qed.

End RemoteBranch.

(** ** The theorems at concrete inputs *)

Lemma demo_created_run :
  Create demo.env "/tmp/bundle" demo.signature (demo.init demo.three)
  = (demo.created, Ok tt).
Proof. vm_compute. reflexivity. Defined.

Lemma demo_published_run :
  CreateAndPublish demo.env "0.0.1" demo.one demo.signature (demo.init demo.one)
  = (demo.published, Ok tt).
Proof. vm_compute. reflexivity. Defined.

Lemma architecture_required_witness :
  Create demo.env "/tmp/bundle" demo.signature (demo.init (demo.bundle_of "" [demo.remote_pkg]))
  = (demo.init (demo.bundle_of "" [demo.remote_pkg]),
     Err "architecture is required for bundling") /\
  CreateAndPublish demo.env "0.0.1" (demo.bundle_of "" [demo.remote_pkg]) demo.signature
    (demo.init (demo.bundle_of "" [demo.remote_pkg]))
  = (demo.init (demo.bundle_of "" [demo.remote_pkg]),
     Err "architecture is required for bundling").
Proof.
  apply (architecture_required demo.env "/tmp/bundle" "0.0.1" demo.signature
           (demo.init (demo.bundle_of "" [demo.remote_pkg]))).
  reflexivity.
Defined.

(** C6 as stated fails: for the child named "podinfo" with neither
    repository nor path, the error of [Create] does not contain the name. *)
Lemma Create_neither_error_lacks_name :
  ~ (forall (E : Env) (b_tmp : string) (signature : bytes) (s : State)
            (i : nat) (pkg : types.ZarfPackage),
       types.ZarfPackages (s_bundle s) !! i = Some pkg ->
       types.Repository pkg = "" -> types.Path pkg = "" ->
       exists msg, snd (Create E b_tmp signature s) = Err msg /\
                   contains (types.Name pkg) msg = true).
Proof.
  intros H.
  destruct (H demo.env "/tmp/bundle" []
              (demo.init (demo.bundle_of "amd64" [demo.neither_pkg]))
              0 demo.neither_pkg eq_refl eq_refl eq_refl) as (msg & Hmsg & Hc).
  vm_compute in Hmsg. injection Hmsg as <-. vm_compute in Hc. discriminate.
Qed.

Lemma Create_neither_fails_witness :
  (exists msg,
     snd (Create demo.env "/tmp/bundle" []
            (demo.init (demo.bundle_of "amd64" [demo.remote_pkg; demo.neither_pkg])))
     = Err msg) /\
  (forall total acc s1,
     Create_pkg demo.env "/tmp/bundle" total 1 demo.neither_pkg acc s1
     = (s1, Err "todo: haven't we already validated that Path or Repository is valid")).
Proof.
  apply (Create_neither_fails demo.env "/tmp/bundle" []
           (demo.init (demo.bundle_of "amd64" [demo.remote_pkg; demo.neither_pkg]))
           1 demo.neither_pkg); reflexivity.
Defined.

Lemma Create_index_lists_root_only_witness :
  exists m ix,
    cs_index_json (s_cs demo.created) = Some (json_Marshal_Index demo.env ix) /\
    Manifests ix = [root_desc demo.env m] /\
    length (Manifests ix) = 1 /\
    MediaType (root_desc demo.env m) = "application/vnd.oci.image.manifest.v1+json" /\
    cs_blobs (s_cs demo.created) !! Encoded (DescDigest (root_desc demo.env m))
      = Some (json_Marshal_Manifest demo.env m).
Proof.
  apply (Create_index_lists_root_only demo.env "/tmp/bundle" demo.signature
           (demo.init demo.three) demo.created).
  exact demo_created_run.
Defined.

Lemma Create_pushed_layers_lack_signature_witness :
  exists m ix descs yamlBytes,
    cs_index_json (s_cs demo.created) = Some (json_Marshal_Index demo.env ix) /\
    Manifests ix = [root_desc demo.env m] /\
    cs_blobs (s_cs demo.created) !! Encoded (DescDigest (root_desc demo.env m))
      = Some (json_Marshal_Manifest demo.env m) /\
    length descs = 3 /\
    Layers m = descs ++ [bundle_yaml_desc demo.env yamlBytes] /\
    Layers m ≠ descs ++ [bundle_yaml_desc demo.env yamlBytes] ++
               [signature_desc demo.env demo.signature].
Proof.
  apply (Create_pushed_layers_lack_signature demo.env "/tmp/bundle" demo.signature
           (demo.init demo.three) demo.created).
  - vm_compute. repeat constructor.
  - exact demo_created_run.
Defined.

(** C2, the defect, at a concrete input: a bundle with one remote child
    and the signature "sig".  [Create] succeeds; the root manifest in the
    store, which [index.json] lists, has the child layer and the
    [uds-bundle.yaml] layer; no layer has the title "uds-bundle.yaml.sig",
    although the signature blob itself was pushed into the store. *)
Theorem Create_signature_layer_missing :
  exists (s' : State) (m : Manifest) (yamlBytes : bytes),
    Create demo.env "/tmp/bundle" demo.signature (demo.init demo.one) = (s', Ok tt) /\
    cs_index_json (s_cs s')
      = Some (json_Marshal_Index demo.env (mkIndex 2 "" [root_desc demo.env m] ∅)) /\
    cs_blobs (s_cs s') !! Encoded (DescDigest (root_desc demo.env m))
      = Some (json_Marshal_Manifest demo.env m) /\
    Layers m = [demo.child_desc "r.example/a:1.0"; bundle_yaml_desc demo.env yamlBytes] /\
    Forall (fun d => Annotations d !! "org.opencontainers.image.title"
                     ≠ Some "uds-bundle.yaml.sig") (Layers m) /\
    cs_blobs (s_cs s') !! Encoded (DescDigest (signature_desc demo.env demo.signature))
      = Some demo.signature.
Proof.
  exists (fst (Create demo.env "/tmp/bundle" demo.signature (demo.init demo.one))).
  pose (yamlBytes := demo.text "bundle demo 1.0").
  pose (layers := [demo.child_desc "r.example/a:1.0"; bundle_yaml_desc demo.env yamlBytes]).
  exists (with_Annotations (manifestAnnotationsFromMetadata (demo.metadata "amd64"))
            (with_SchemaVersion 2
               (with_Config
                  (NewDescriptorFromBytes demo.env MediaTypeImageManifest
                     (json_Marshal_Config demo.env
                        (manifestConfig (demo.metadata "amd64")
                                        (types.mkUDSBuildData "amd64"))))
                  (with_Layers layers
                     (with_MediaType MediaTypeImageManifest Manifest_zero))))),
         yamlBytes.
  split; [vm_compute; reflexivity|].
  split; [vm_compute; reflexivity|].
  split; [vm_compute; reflexivity|].
  split; [reflexivity|].
  split; [|vm_compute; reflexivity].
  repeat constructor; vm_compute; discriminate.
Qed.

(** C4 as stated fails: the third child of [demo.three] has a non-empty
    path and a repository; [Create] mirrors it from the repository and
    its reference stays "2.0". *)
Lemma Create_ref_kept_with_repository :
  ~ (forall (E : Env) (b_tmp : string) (signature : bytes) (s s' : State)
            (i : nat) (pkg : types.ZarfPackage),
       Create E b_tmp signature s = (s', Ok tt) ->
       types.ZarfPackages (s_bundle s) !! i = Some pkg ->
       types.Path pkg ≠ "" ->
       exists hex,
         types.ZarfPackages (s_bundle s') !! i =
           Some (types.set_Ref
                   (types.Ref pkg +:+ "-" +:+
                    types.Architecture (types.Metadata (s_bundle s)) +:+
                    "@sha256:" +:+ hex) pkg)).
Proof.
  intros H.
  destruct (H demo.env "/tmp/bundle" demo.signature (demo.init demo.three)
              demo.created 2 demo.both_pkg demo_created_run eq_refl)
    as [hex Hhex]; [discriminate|].
  vm_compute in Hhex. discriminate.
Qed.

Lemma Create_local_ref_witness :
  exists tree zarfPkg hex,
    read_archive demo.env "pkgs/b.tar.zst" = Ok tree /\
    parse_zarf_yaml demo.env (ex_zarf_yaml tree) = Ok zarfPkg /\
    hex = hex_encode (sha256_Sum demo.env
            (json_Marshal_Manifest demo.env
               (rewrite_manifest demo.env zarfPkg (ex_manifest tree)))) /\
    String.length hex = 64 /\
    all_chars is_lower_hex hex = true /\
    types.ZarfPackages (s_bundle demo.created) !! 1 =
      Some (types.set_Ref ("v1" +:+ "-" +:+ "amd64" +:+ "@sha256:" +:+ hex) demo.local_pkg).
Proof.
  destruct (Create_local_ref demo.env "/tmp/bundle" demo.signature
              (demo.init demo.three) demo.created 1 demo.local_pkg)
    as (tree & z & hex & H1 & H2 & H3 & H4 & H5 & H6 & _);
    [| | | | |exists tree, z, hex; repeat split; assumption].
  - exact demo_sha256_length.
  - exact demo_created_run.
  - reflexivity.
  - reflexivity.
  - discriminate.
Defined.

Example Create_local_ref_demo :
  types.Ref <$> types.ZarfPackages (s_bundle demo.created) !! 1 =
    Some "v1-amd64@sha256:3419276d616e6966657374206170706c69636174696f6e2f766e642e6f63692e".
Proof. vm_compute. reflexivity. Qed.

Lemma manifest_config_blob_witness :
  exists cfg blob,
    blob = json_Marshal_Config demo.env cfg /\
    CfgArchitecture cfg = "amd64" /\
    OCIVersion cfg = "1.0.1" /\
    (forall k, CfgAnnotations cfg !! k =
       if decide (k = "org.opencontainers.image.title") then Some "demo"
       else if decide (k = "org.opencontainers.image.description")
            then Some "a demo bundle"
            else None) /\
    (exists dl,
       createManifestConfig demo.env (demo.metadata "amd64") (types.mkUDSBuildData "amd64")
       = Ok dl /\
       MediaType dl = "application/vnd.oci.image.manifest.v1+json" /\
       DescDigest dl = digest_FromBytes demo.env blob /\
       Size dl = Z.of_nat (length blob)) /\
    (exists s' d,
       pushManifestConfigFromMetadata demo.env (demo.metadata "amd64")
         (types.mkUDSBuildData "amd64") (demo.init demo.one) = (s', Ok d) /\
       MediaType d = "application/vnd.oci.image.config.v1+json" /\
       DescDigest d = digest_FromBytes demo.env blob /\
       Size d = Z.of_nat (length blob) /\
       reg_blobs (s_registry s') !! Encoded (DescDigest d) = Some blob).
Proof.
  destruct (manifest_config_blob demo.env (demo.metadata "amd64")
              (types.mkUDSBuildData "amd64"))
    as (cfg & blob & Hblob & Harch & Hver & Hann & Hlocal & Hremote).
  exists cfg, blob.
  split; [exact Hblob|]. split; [exact Harch|]. split; [exact Hver|].
  split; [exact Hann|]. split; [exact Hlocal|].
  destruct (pushManifestConfigFromMetadata demo.env (demo.metadata "amd64")
              (types.mkUDSBuildData "amd64") (demo.init demo.one)) as [s' r] eqn:Hrun.
  assert (exists d, r = Ok d) as [d ->].
  { revert Hrun. vm_compute. intros H. injection H as _ <-. eexists. reflexivity. }
  exists s', d. split; [reflexivity|]. exact (Hremote _ _ _ Hrun).
Defined.

Lemma CreateAndPublish_manifest_mediaType_unset_witness :
  exists m,
    reg_manifests (s_registry demo.published) !! "0.0.1"
      = Some (root_desc demo.env m, json_Marshal_Manifest demo.env m) /\
    SchemaVersion m = 2%Z /\
    ManifestMediaType m = "" /\
    ManifestMediaType m ≠ "application/vnd.oci.image.manifest.v1+json" /\
    MediaType (root_desc demo.env m) = "application/vnd.oci.image.manifest.v1+json".
Proof.
  apply (CreateAndPublish_manifest_mediaType_unset demo.env "0.0.1" demo.one demo.signature
           (demo.init demo.one) demo.published).
  exact demo_published_run.
Defined.

Lemma Create_remote_branch_when_repository_witness :
  exists evs,
    s_trace demo.created = [] ++ evs /\
    Forall (fun e => local_event e ≠ Some 2) evs /\
    child_events 2 evs =
      [EvNewRemoteBundler 2 "r.example/c:2.0"; EvPushManifest 2; EvPushLayers 2] /\
    types.ZarfPackages (s_bundle demo.created) !! 2 = Some demo.both_pkg /\
    exists d m ix,
      cs_index_json (s_cs demo.created) = Some (json_Marshal_Index demo.env ix) /\
      Manifests ix = [root_desc demo.env m] /\
      cs_blobs (s_cs demo.created) !! Encoded (DescDigest (root_desc demo.env m))
        = Some (json_Marshal_Manifest demo.env m) /\
      Layers m !! 2 = Some d.
Proof.
  destruct (Create_remote_branch_when_repository demo.env "/tmp/bundle" demo.signature
              (demo.init demo.three) demo.created (Ok tt) 2 demo.both_pkg)
    as (evs & Heq & Hno & _ & Hmir & _).
  - exact demo_created_run.
  - reflexivity.
  - assert (types.Repository demo.both_pkg ≠ "") as Hrepo by discriminate.
    destruct (Hmir Hrepo eq_refl)
      as (Hev & Href & rb & d & ls & w & w1 & w2 & m & ix & _ & _ & _ & Hix & Hman & Hblob & Hd).
    exists evs. split; [exact Heq|]. split; [exact (Hno Hrepo)|].
    split; [exact Hev|]. split; [exact Href|].
    exists d, m, ix. auto.
Defined.

Example Create_events_demo :
  omap local_event (s_trace demo.created) = [1; 1; 1; 1] /\
  omap remote_event (s_trace demo.created) = [0; 0; 0; 2; 2; 2].
Proof. split; vm_compute; reflexivity. Qed.

(** * Further properties of the code *)

(** ** [config.GetArch] *)

Lemma first_specified_mem priority goarch :
  config.first_specified priority goarch ∈ priority ++ [goarch].
Proof.
  induction priority as [|a l IH]; simpl.
  - apply list_elem_of_here.
  - destruct (decide (a ≠ "")); [apply list_elem_of_here|apply list_elem_of_further, IH].
Qed.

Lemma first_specified_nonempty priority goarch :
  goarch ≠ "" -> config.first_specified priority goarch ≠ "".
Proof.
  intros Hg. induction priority as [|a l IH]; simpl; [exact Hg|].
  destruct (decide (a ≠ "")); assumption.
Qed.

Lemma first_specified_filter priority goarch :
  config.first_specified (filter (fun a => a ≠ "") priority) goarch
  = config.first_specified priority goarch.
Proof.
  induction priority as [|a l IH]; [reflexivity|].
  rewrite filter_cons. simpl. destruct (decide (a ≠ "")) as [Ha|Ha]; simpl.
  - destruct (decide (a ≠ "")); [reflexivity|contradiction].
  - exact IH.
Qed.

(** X1. The architecture [GetArch] returns is one of its inputs: the
    global [CLIArch], one of the arguments, or [runtime.GOARCH]; and it is
    not the empty string as long as [runtime.GOARCH] is not. *)
Theorem GetArch_is_an_input_and_nonempty (CLIArch GOARCH : string) (archs : list string) :
  GOARCH ≠ "" ->
  config.GetArch CLIArch GOARCH archs ∈ CLIArch :: archs ++ [GOARCH] /\
  config.GetArch CLIArch GOARCH archs ≠ "".
Proof.
  intros Hg. unfold config.GetArch. split.
  - apply (first_specified_mem (CLIArch :: archs) GOARCH).
  - apply first_specified_nonempty, Hg.
Qed.

Lemma GetArch_is_an_input_and_nonempty_witness :
  config.GetArch "" "amd64" [""; ""] ∈ "" :: [""; ""] ++ ["amd64"] /\
  config.GetArch "" "amd64" [""; ""] ≠ "".
Proof.
  apply (GetArch_is_an_input_and_nonempty "" "amd64" [""; ""]). discriminate.
Defined.

(** X2. Empty strings among the arguments of [GetArch] change nothing:
    dropping them gives the same result.  When all [n] arguments are
    empty, or there is none, as in the tests, the result is [CLIArch]
    unless that is empty, and [runtime.GOARCH] otherwise. *)
Theorem GetArch_ignores_empty_arguments (CLIArch GOARCH : string) (archs : list string)
    (n : nat) :
  config.GetArch CLIArch GOARCH (filter (fun a => a ≠ "") archs)
    = config.GetArch CLIArch GOARCH archs /\
  config.GetArch CLIArch GOARCH (replicate n "")
    = (if decide (CLIArch = "") then GOARCH else CLIArch).
Proof.
  unfold config.GetArch. split.
  - change ([CLIArch] ++ archs) with (CLIArch :: archs).
    change ([CLIArch] ++ filter (fun a => a ≠ "") archs)
      with (CLIArch :: filter (fun a => a ≠ "") archs).
    simpl. destruct (decide (CLIArch ≠ "")); [reflexivity|].
    apply first_specified_filter.
  - simpl. destruct (decide (CLIArch ≠ "")) as [Hc|Hc];
      destruct (decide (CLIArch = "")) as [He|He]; try contradiction; [reflexivity|].
    apply first_specified_all_empty. apply Forall_forall.
    intros x Hx. apply elem_of_replicate in Hx as [-> _]. reflexivity.
Qed.

(** ** package test *)

(** X3. [GetMismatchedArch] never answers with the architecture the tests
    run on, and its answer is "amd64" or "arm64". *)
Theorem GetMismatchedArch_differs (e2e : test.UDSE2ETest) :
  test.GetMismatchedArch e2e ≠ test.Arch e2e /\
  (test.GetMismatchedArch e2e = "amd64" \/ test.GetMismatchedArch e2e = "arm64").
Proof.
  unfold test.GetMismatchedArch.
  destruct (decide (test.Arch e2e = "arm64")) as [->|Hne].
  - split; [discriminate|left; reflexivity].
  - split; [intros Heq; apply Hne; symmetry; exact Heq|right; reflexivity].
Qed.

(** X4. [GetCLIName] knows Linux and macOS only: on every other
    operating system the binary name is the empty string, and on those
    two it is never empty. *)
Theorem GetCLIName_empty_iff_unknown_os (GOOS GOARCH : string) :
  (test.GetCLIName GOOS GOARCH = "" <-> GOOS ≠ "linux" /\ GOOS ≠ "darwin") /\
  test.GetCLIName GOOS GOARCH ∈ [""; "uds"; "uds-mac-apple"; "uds-mac-intel"].
Proof.
  unfold test.GetCLIName.
  destruct (decide (GOOS = "linux")) as [->|Hl].
  - split; [split; [discriminate|intros [H _]; contradiction]|].
    apply list_elem_of_further, list_elem_of_here.
  - destruct (decide (GOOS = "darwin")) as [->|Hd].
    + destruct (decide (GOARCH = "arm64")).
      * split; [split; [discriminate|intros [_ H]; contradiction]|].
        do 2 apply list_elem_of_further. apply list_elem_of_here.
      * split; [split; [discriminate|intros [_ H]; contradiction]|].
        do 3 apply list_elem_of_further. apply list_elem_of_here.
    + split; [split; auto|apply list_elem_of_here].
Qed.

(** X5. Every call of [UDS] adds one entry to the command log, the
    arguments joined by single spaces; entries already there are kept,
    and in order.  After a series of calls the log is the old log
    followed by one entry per call. *)
Theorem UDS_command_log (exec : string -> list string -> test.Output)
    (e2e : test.UDSE2ETest) (calls : list (list string)) :
  let e2e' := foldl (fun e args => fst (test.UDS exec e args)) e2e calls in
  test.CommandLog e2e' =
    test.CommandLog e2e ++ map (fun args => test.strings_Join args " ") calls /\
  test.UdsBinPath e2e' = test.UdsBinPath e2e /\
  test.Arch e2e' = test.Arch e2e.
Proof.
  revert e2e. induction calls as [|args rest IH]; intros e2e; simpl.
  - rewrite app_nil_r. auto.
  - destruct (IH (test.set_CommandLog
                    (test.CommandLog e2e ++ [test.strings_Join args " "]) e2e))
      as (Hlog & Hbin & Harch).
    simpl in *. rewrite Hlog, Hbin, Harch, <- app_assoc. auto.
Qed.

Example UDS_join_demo :
  test.strings_Join ["deploy"; "oci://localhost:888/demo"; "--confirm"] " "
  = "deploy oci://localhost:888/demo --confirm".
Proof. reflexivity. Qed.

(** *** [strings.Trim] and [GetUdsVersion] *)

Lemma append_cons (a : ascii) (s t : string) : String a s +:+ t = String a (s +:+ t).
Proof. reflexivity. Qed.

Lemma append_assoc_string (a b c : string) : (a +:+ b) +:+ c = a +:+ (b +:+ c).
Proof.
  induction a as [|x a IH]; [reflexivity|]. rewrite !append_cons, IH. reflexivity.
Qed.

Lemma trimLeftByte_split s c :
  exists pre,
    s = pre +:+ test.trimLeftByte s c /\
    all_chars (fun a => bool_decide (a = c)) pre = true /\
    first_char (test.trimLeftByte s c) ≠ Some c.
Proof.
  induction s as [|a rest IH]; simpl.
  - exists "". repeat split. discriminate.
  - destruct (decide (a = c)) as [->|Hne].
    + destruct IH as (pre & Heq & Hall & Hfirst).
      exists (String c pre). rewrite append_cons, <- Heq. simpl. rewrite Hall.
      rewrite bool_decide_eq_true_2 by reflexivity. auto.
    + exists "". repeat split. simpl. intros [= Heq]. contradiction.
Qed.

Lemma trimRightByte_split s c :
  exists post,
    s = test.trimRightByte s c +:+ post /\
    all_chars (fun a => bool_decide (a = c)) post = true /\
    last_char (test.trimRightByte s c) ≠ Some c.
Proof.
  induction s as [|a rest IH]; simpl.
  - exists "". repeat split. discriminate.
  - destruct IH as (post & Heq & Hall & Hlast).
    destruct (test.trimRightByte rest c) as [|b t] eqn:Ht.
    + change (rest = post) in Heq. subst rest.
      destruct (decide (a = c)) as [->|Hne].
      * exists (String c post). split; [reflexivity|]. simpl. rewrite Hall.
        rewrite bool_decide_eq_true_2 by reflexivity. split; [reflexivity|discriminate].
      * exists post. split; [reflexivity|]. split; [exact Hall|].
        simpl. intros [= Heq]. contradiction.
    + exists post. rewrite append_cons, <- Heq. auto.
Qed.

Lemma trimLeftByte_last s c :
  last_char s ≠ Some c -> last_char (test.trimLeftByte s c) ≠ Some c.
Proof.
  induction s as [|a rest IH]; simpl; [auto|].
  intros Hlast. destruct (decide (a = c)) as [->|Hne]; [|exact Hlast].
  apply IH. destruct rest; [discriminate|exact Hlast].
Qed.

(** [strings.Trim] cuts a run of [c] off each end and nothing else. *)
Lemma strings_Trim_split s c :
  exists pre post,
    s = pre +:+ test.strings_Trim s c +:+ post /\
    all_chars (fun a => bool_decide (a = c)) pre = true /\
    all_chars (fun a => bool_decide (a = c)) post = true /\
    first_char (test.strings_Trim s c) ≠ Some c /\
    last_char (test.strings_Trim s c) ≠ Some c.
Proof.
  unfold test.strings_Trim.
  destruct (trimRightByte_split s c) as (post & Hs & Hpost & Hlast).
  destruct (trimLeftByte_split (test.trimRightByte s c) c) as (pre & Ht & Hpre & Hfirst).
  exists pre, post. split; [|repeat split; auto using trimLeftByte_last].
  rewrite Hs at 1. rewrite Ht at 1. apply append_assoc_string.
Qed.

(** X6. [GetUdsVersion] runs the binary with the one argument "version"
    and logs that command.  If the command fails the test stops; if not,
    the answer is the standard output with the line feeds at its two
    ends cut off and nothing else changed: it neither starts nor ends
    with a line feed. *)
Theorem GetUdsVersion_trims_output (exec : string -> list string -> test.Output)
    (e2e : test.UDSE2ETest) :
  let out := exec (test.UdsBinPath e2e) ["version"] in
  let '(e2e', r) := test.GetUdsVersion exec e2e in
  test.CommandLog e2e' = test.CommandLog e2e ++ ["version"] /\
  match r with
  | None => exists e, snd out = Some e
  | Some v =>
      snd out = None /\
      first_char v ≠ Some test.LF /\ last_char v ≠ Some test.LF /\
      exists pre post,
        fst (fst out) = pre +:+ v +:+ post /\
        all_chars (fun a => bool_decide (a = test.LF)) pre = true /\
        all_chars (fun a => bool_decide (a = test.LF)) post = true
  end.
Proof.
  unfold test.GetUdsVersion, test.UDS. simpl.
  destruct (exec (test.UdsBinPath e2e) ["version"]) as [[stdOut stdErr] [e|]]; simpl.
  - split; [reflexivity|eauto].
  - split; [reflexivity|]. split; [reflexivity|].
    destruct (strings_Trim_split stdOut test.LF) as (pre & post & Hs & Hpre & Hpost & Hf & Hl).
    split; [exact Hf|]. split; [exact Hl|]. exists pre, post. auto.
Qed.

Example GetUdsVersion_demo :
  snd (test.GetUdsVersion
         (fun _ _ => (String test.LF ("v0.0.5" +:+ String test.LF (String test.LF "")), "", None))
         (test.mkUDSE2ETest "build/uds" "amd64" false false true []))
  = Some "v0.0.5".
Proof. reflexivity. Qed.

(** ** [manifestAnnotationsFromMetadata] *)

(** X7. The annotations of the root manifest: the description is always
    there, even when empty; URL, authors, documentation, source and
    vendor are there exactly when the metadata field is not empty; no
    other key is set, so the bundle name (the title) never is. *)
Theorem manifestAnnotations_lookup (metadata : types.UDSMetadata) (k : string) :
  manifestAnnotationsFromMetadata metadata !! k =
    if decide (k = "org.opencontainers.image.description")
    then Some (types.Description metadata)
    else if decide (k = "org.opencontainers.image.url")
    then when_set (types.URL metadata)
    else if decide (k = "org.opencontainers.image.authors")
    then when_set (types.Authors metadata)
    else if decide (k = "org.opencontainers.image.documentation")
    then when_set (types.Documentation metadata)
    else if decide (k = "org.opencontainers.image.source")
    then when_set (types.Source metadata)
    else if decide (k = "org.opencontainers.image.vendor")
    then when_set (types.Vendor metadata)
    else None.
Proof.
  unfold manifestAnnotationsFromMetadata, when_set,
    AnnotationDescription, AnnotationURL, AnnotationAuthors,
    AnnotationDocumentation, AnnotationSource, AnnotationVendor.
  repeat case_decide; simplify_map_eq; try done.
Qed.

(** ** What leaves the registry alone *)

Lemma leaves_registry_ret {A} (a : A) : leaves_registry (ret a).
Proof. intros s s' r H. prim. subst. reflexivity. Qed.

Lemma leaves_registry_fail {A} msg : leaves_registry (@fail A msg).
Proof. intros s s' r H. prim. subst. reflexivity. Qed.

Lemma leaves_registry_lift {A} (x : result A) : leaves_registry (lift x).
Proof. intros s s' r H. prim. subst. reflexivity. Qed.

Lemma leaves_registry_get : leaves_registry get.
Proof. intros s s' r H. prim. subst. reflexivity. Qed.

Lemma leaves_registry_emit e : leaves_registry (emit e).
Proof. intros s s' r H. prim. subst. destruct s; reflexivity. Qed.

Lemma leaves_registry_modify f :
  (forall s, s_registry (f s) = s_registry s) -> leaves_registry (modify f).
Proof. intros Hf s s' r H. prim. subst. apply Hf. Qed.

Lemma leaves_registry_bind {A B} (c : M A) (k : A -> M B) :
  leaves_registry c -> (forall a, leaves_registry (k a)) -> leaves_registry (bind c k).
Proof.
  intros Hc Hk s s' r H. mrun H.
  - exact (Hc _ _ _ H).
  - rewrite (Hk _ _ _ _ H). exact (Hc _ _ _ Hrun).
Qed.

Ltac leaves_step :=
  lazymatch goal with
  | |- leaves_registry (ret _) => apply leaves_registry_ret
  | |- leaves_registry (fail _) => apply leaves_registry_fail
  | |- leaves_registry (lift _) => apply leaves_registry_lift
  | |- leaves_registry get => apply leaves_registry_get
  | |- leaves_registry (bind _ _) => apply leaves_registry_bind; [|intros ?]
  | |- leaves_registry (modify _) => apply leaves_registry_modify; intros []; reflexivity
  | |- leaves_registry (emit _) => apply leaves_registry_emit
  | |- leaves_registry (match ?x with _ => _ end) => destruct x
  end.

Section LeavesRegistry.

Import types.
Context (E : Env).

Lemma leaves_registry_store_Push d c : leaves_registry (store_Push E d c).
Proof. unfold store_Push. repeat leaves_step. Qed.

Lemma leaves_registry_cs_put d c : leaves_registry (cs_put E d c).
Proof. unfold cs_put. repeat leaves_step. apply leaves_registry_store_Push. Qed.

Lemma leaves_registry_put_blobs tmp blobs : forall pm,
  leaves_registry (put_blobs E tmp blobs pm).
Proof.
  induction blobs as [|b rest IH]; intros pm; simpl.
  - leaves_step.
  - leaves_step; [apply leaves_registry_cs_put|apply IH].
Qed.

Lemma leaves_registry_Create_pkg b_tmp total i pkg acc :
  store_bundlers E -> leaves_registry (Create_pkg E b_tmp total i pkg acc).
Proof.
  intros Hsb. unfold Create_pkg. destruct acc as [m pm].
  destruct (decide (Repository pkg ≠ "")).
  - intros s s' r H.
    unfold NewRemoteBundler in H. rewrite bind_assoc_run in H.
    apply bind_run in H as [(e & H & _)|(u & s1 & He & H)];
      [apply emit_run in H as [_ H]; discriminate|].
    apply emit_run in He as [-> _].
    apply bind_run in H as [(e & H & _)|(rb & s2 & Hrb & H)].
    { apply lift_run in H as [-> _]. destruct s; reflexivity. }
    apply lift_run in Hrb as [-> Hrb]. symmetry in Hrb.
    assert (forall j, leaves_registry (PushManifest E j rb)) as HPM.
    { intros j sa sb ra Ha. unfold PushManifest in Ha.
      apply bind_run in Ha as [(e & Ha & _)|(u1 & sa1 & He & Ha)];
        [apply emit_run in Ha as [_ Ha]; discriminate|].
      apply emit_run in He as [-> _]. unfold lift_world in Ha.
      destruct (Hsb _ _ _ Hrb (s_cs (log (EvPushManifest j) sa),
                               s_registry (log (EvPushManifest j) sa))) as [Hm _].
      destruct (PushManifest_ E rb _) as [[cs reg] r0].
      injection Ha as <- _. simpl in Hm. subst reg. destruct sa; reflexivity. }
    assert (forall j c t, leaves_registry (PushLayers E j rb c t)) as HPL.
    { intros j c t sa sb ra Ha. unfold PushLayers in Ha.
      apply bind_run in Ha as [(e & Ha & _)|(u1 & sa1 & He & Ha)];
        [apply emit_run in Ha as [_ Ha]; discriminate|].
      apply emit_run in He as [-> _]. unfold lift_world in Ha.
      destruct (Hsb _ _ _ Hrb (s_cs (log (EvPushLayers j) sa),
                               s_registry (log (EvPushLayers j) sa))) as [_ Hl].
      specialize (Hl c t).
      destruct (PushLayers_ E rb c t _) as [[cs reg] r0].
      injection Ha as <- _. simpl in Hl. subst reg. destruct sa; reflexivity. }
    assert (s_registry s' = s_registry (log (EvNewRemoteBundler i
              (Repository pkg +:+ ":" +:+ Ref pkg)) s)) as ->.
    { revert H. generalize (log (EvNewRemoteBundler i (Repository pkg +:+ ":" +:+ Ref pkg)) s).
      intros s0 H.
      assert (leaves_registry
                (pkgManifestDesc <- PushManifest E i rb ;;
                 layerDescs <- PushLayers E i rb (i + 1) total ;;
                 ret (with_Layers (Layers m ++ [pkgManifestDesc]) m,
                      foldl (add_blob_path E b_tmp)
                            (add_blob_path E b_tmp pm pkgManifestDesc) layerDescs)))
        as Hl; [|exact (Hl _ _ _ H)].
      leaves_step; [apply HPM|]. leaves_step; [apply HPL|]. leaves_step. }
    destruct s; reflexivity.
  - destruct (decide (Path pkg ≠ "")); [|apply leaves_registry_fail].
    leaves_step.
    { unfold MakeTempDir. repeat leaves_step. }
    leaves_step; [unfold Extract; repeat leaves_step|].
    leaves_step; [unfold Load; repeat leaves_step|].
    leaves_step.
    { unfold ToBundle. repeat leaves_step.
      - apply leaves_registry_put_blobs.
      - apply leaves_registry_cs_put. }
    leaves_step. leaves_step; [leaves_step|].
    leaves_step; [|leaves_step].
    unfold set_package_ref. leaves_step.
Qed.

Lemma leaves_registry_Create_loop b_tmp total pkgs :
  store_bundlers E ->
  forall i acc, leaves_registry (Create_loop E b_tmp total i pkgs acc).
Proof.
  intros Hsb. induction pkgs as [|pkg rest IH]; intros i acc; simpl.
  - leaves_step.
  - leaves_step; [apply leaves_registry_Create_pkg, Hsb|apply IH].
Qed.

Lemma leaves_registry_writeTarball bundle pm :
  leaves_registry (writeTarball E bundle pm).
Proof.
  unfold writeTarball. repeat leaves_step.
Qed.

Lemma leaves_registry_Create_body b_tmp signature :
  store_bundlers E -> leaves_registry (Create_body E b_tmp signature).
Proof.
  intros Hsb. unfold Create_body.
  leaves_step; [leaves_step|]. destruct (decide _); [leaves_step|].
  leaves_step.
  { unfold ocistore_NewWithContext. leaves_step; [leaves_step|].
    intros s s' r H. destruct (ocistore_New E b_tmp (s_cs s)) as [cs r0].
    inversion H; subst. destruct s; reflexivity. }
  leaves_step; [apply leaves_registry_Create_loop, Hsb|].
  leaves_step. leaves_step; [leaves_step|].
  leaves_step.
  { unfold pushBundleManifestToStore. repeat leaves_step.
    apply leaves_registry_store_Push. }
  leaves_step; [leaves_step|].
  leaves_step; [apply leaves_registry_store_Push|].
  leaves_step; [unfold rebuild_index; repeat leaves_step|].
  leaves_step.
  { leaves_step; [|leaves_step]. unfold pushBundleSignature. repeat leaves_step.
    apply leaves_registry_store_Push. }
  leaves_step; [apply leaves_registry_writeTarball|leaves_step].
Qed.

Lemma run_defers_registry paths : forall s,
  s_registry (run_defers paths s) = s_registry s.
Proof.
  induction paths as [|p rest IH]; intros s; simpl; [reflexivity|].
  rewrite IH. destruct s; reflexivity.
Qed.

End LeavesRegistry.

(** ** What the two entry points never do *)

Section Never.

Import types.
Context (E : Env).

Lemma emits_Create_loop_any (P : Event -> Prop) b_tmp total pkgs :
  (forall e, ~ registry_event e -> P e) ->
  forall i acc, emits P (Create_loop E b_tmp total i pkgs acc).
Proof.
  intros HP. induction pkgs as [|pkg rest IH]; intros i acc; simpl.
  - apply emits_ret.
  - apply emits_bind; [|intros acc'; apply IH].
    apply emits_Create_pkg.
    + intros d c. apply HP. simpl. auto.
    + intros _ e He. apply HP. destruct e; simpl in *; auto; discriminate.
    + intros _ _ e He. apply HP. destruct e; simpl in *; auto; discriminate.
Qed.

Lemma emits_Create_body_any (P : Event -> Prop) b_tmp signature :
  (forall e, ~ registry_event e -> P e) ->
  emits P (Create_body E b_tmp signature).
Proof.
  intros HP. unfold Create_body.
  emits_step; [emits_step|]. emits_case; [emits_step|].
  emits_step.
  { unfold ocistore_NewWithContext. emits_step; [emits_step; apply HP; simpl; auto|].
    apply emits_silent. intros s1. destruct (ocistore_New E b_tmp (s_cs s1)). reflexivity. }
  emits_step; [apply emits_Create_loop_any, HP|].
  emits_case. emits_step; [emits_step|].
  emits_step.
  { unfold pushBundleManifestToStore. repeat emits_step.
    apply emits_store_Push. intros; apply HP; simpl; auto. }
  emits_step; [emits_step|].
  emits_step; [apply emits_store_Push; intros; apply HP; simpl; auto|].
  emits_step; [apply emits_rebuild_index; intros; apply HP; simpl; auto|].
  emits_step.
  { emits_case; [|emits_step]. unfold pushBundleSignature. repeat emits_step.
    apply emits_store_Push. intros; apply HP; simpl; auto. }
  emits_step; [|emits_step].
  apply emits_writeTarball. intros; apply HP; simpl; auto.
Qed.

(** X8. [Create] works on the local store only.  Whatever it returns,
    none of its calls is a push to the destination registry; and the
    registry is what it was before, as long as the remote bundlers do
    as they are built: [Create] hands them the store and no remote, so
    they have no registry to push to. *)
Theorem Create_never_pushes_to_registry (b_tmp : string) (signature : bytes)
    (s s' : State) (r : result unit) :
  Create E b_tmp signature s = (s', r) ->
  (exists evs, s_trace s' = s_trace s ++ evs /\
               Forall (fun e => ~ registry_event e) evs) /\
  (store_bundlers E -> s_registry s' = s_registry s).
Proof.
  intros H. split.
  - unfold Create in H.
    eapply (emits_with_defers (fun e => ~ registry_event e)); [| |exact H].
    + intros p. simpl. auto.
    + emits_step; [|emits_step]. apply emits_Create_body_any. auto.
  - intros Hsb. unfold Create, with_defers in H.
    destruct ((Create_body E b_tmp signature;;; ret tt) (upd_defer (fun _ => []) s))
      as [s1 r1] eqn:Hrun.
    inversion H; subst; clear H.
    assert (leaves_registry (Create_body E b_tmp signature;;; ret tt)) as Hl.
    { leaves_step; [apply leaves_registry_Create_body, Hsb|leaves_step]. }
    apply Hl in Hrun.
    transitivity (s_registry (run_defers (s_defer s1) s1)).
    + destruct (run_defers (s_defer s1) s1); reflexivity.
    + rewrite run_defers_registry, Hrun. destruct s; reflexivity.
Qed.

Lemma emits_CreateAndPublish_loop total pkgs : forall i m,
  emits publish_event (CreateAndPublish_loop E total i pkgs m).
Proof.
  induction pkgs as [|pkg rest IH]; intros i m; simpl.
  - apply emits_ret.
  - apply emits_bind; [|intros m'; apply IH].
    unfold CreateAndPublish_pkg.
    emits_step; [apply emits_NewRemoteBundler; left; simpl; eauto|].
    emits_step; [apply emits_PushManifest; left; simpl; eauto|].
    emits_step; [apply emits_PushLayers; left; simpl; eauto|emits_step].
Qed.

(** X9. [CreateAndPublish] goes through the remote bundler for every
    child, whether or not the child has a repository or a path: all it
    ever does is call the remote bundler and push to the registry.  It
    never opens the local store, extracts an archive, rewrites
    [index.json] or writes a tarball. *)
Theorem CreateAndPublish_only_remote (reference : string) (bundle : UDSBundle)
    (signature : bytes) (s s' : State) (r : result unit) :
  CreateAndPublish E reference bundle signature s = (s', r) ->
  exists evs, s_trace s' = s_trace s ++ evs /\
              Forall publish_event evs /\
              Forall (fun e => local_event e = None) evs.
Proof.
  intros H.
  assert (emits publish_event (CreateAndPublish E reference bundle signature)) as Hem.
  { unfold CreateAndPublish. emits_case; [emits_step|].
    assert (forall b mt, emits publish_event (PushLayer E b mt)) as HPL.
    { intros b mt. apply emits_PushLayer. intros; right; simpl; auto. }
    emits_step; [apply emits_CreateAndPublish_loop|].
    emits_step; [emits_step|]. emits_step; [apply HPL|].
    emits_step.
    { emits_case; [|emits_step]. emits_step; [apply HPL|emits_step]. }
    emits_step; [apply HPL|].
    emits_step; [|emits_step].
    intros s1 s2 r2 Hrun.
    destruct (PushReference E _ _ reference s1) as [s3 r3] eqn:Hp.
    assert (s2 = s3) as -> by (destruct r3; inversion Hrun; reflexivity).
    eapply emits_PushReference; [|exact Hp]. intros; right; simpl; auto. }
  destruct (Hem _ _ _ H) as (evs & Heq & HF).
  exists evs. split; [exact Heq|]. split; [exact HF|].
  eapply Forall_impl; [exact HF|].
  intros e [[i Hi]|Hr]; destruct e; simpl in *; try reflexivity; try discriminate;
    contradiction.
Qed.

(** X10. In the manifest [CreateAndPublish] pushes, the layer of every
    child has the image manifest media type, whatever media type the
    descriptor returned by the remote bundler had; the layers after
    them ([uds-bundle.yaml], the signature) have zarf's blob media type. *)
Theorem CreateAndPublish_layer_media_types (reference : string) (bundle : UDSBundle)
    (signature : bytes) (s s' : State) :
  CreateAndPublish E reference bundle signature s = (s', Ok tt) ->
  exists m children rest,
    reg_manifests (s_registry s') !! reference
      = Some (root_desc E m, json_Marshal_Manifest E m) /\
    Layers m = children ++ rest /\
    length children = length (ZarfPackages bundle) /\
    Forall (fun d => MediaType d = "application/vnd.oci.image.manifest.v1+json") children /\
    Forall (fun d => MediaType d = "application/vnd.zarf.layer.v1.blob") rest.
Proof.
  intros H. apply CreateAndPublish_ok in H
    as (m & descs & yb & _ & Hl & Hlen & Hall & _ & _ & _ & Hreg).
  exists m, descs, ([bundle_yaml_desc E yb] ++
                    (if decide (0 < length signature)%nat
                     then [signature_desc E signature] else [])).
  repeat split; auto.
  destruct (decide (0 < length signature)%nat); repeat constructor.
Qed.

End Never.

(** ** The blobs [Create] leaves in the store *)

Section CreateBlobs.

Import types.
Context (E : Env) (b_tmp : string).

(** The bundle YAML and the root manifest, as they lie in the store when
    [Create] has succeeded. *)
Lemma Create_body_blobs signature s s' m_final :
  Create_body E b_tmp signature s = (s', Ok m_final) ->
  exists m yamlBytes,
    goyaml_Marshal E (s_bundle s') = Ok yamlBytes /\
    last (Layers m) = Some (bundle_yaml_desc E yamlBytes) /\
    ManifestAnnotations m = manifestAnnotationsFromMetadata (Metadata (s_bundle s)) /\
    cs_blobs (s_cs s') !! Encoded (DescDigest (bundle_yaml_desc E yamlBytes))
      = Some yamlBytes /\
    cs_blobs (s_cs s') !! Encoded (DescDigest (root_desc E m))
      = Some (json_Marshal_Manifest E m) /\
    (exists ix, cs_index_json (s_cs s') = Some (json_Marshal_Index E ix) /\
                Manifests ix = [root_desc E m]).
Proof.
  unfold Create_body. intros H.
  mstep H as s0 s0' Hget. apply get_run in Hget as [-> Hs0].
  injection Hs0 as Hs0. subst s0.
  destruct (decide (Architecture (Metadata (s_bundle s)) = "")) as [Harch|Harch]; [prim|].
  mstep H as u1 s1 Hnew.
  assert (s_bundle s1 = s_bundle s) as Hb1.
  { unfold ocistore_NewWithContext in Hnew. mstep Hnew. prim. subst.
    simpl in Hnew. destruct (ocistore_New E b_tmp (s_cs s)) as [cs r0].
    inversion Hnew; subst. reflexivity. }
  mstep H as acc s2 Hloop. destruct acc as [m0 pm0].
  apply Create_loop_ok in Hloop as (_ & _ & Hmeta & _).
  2:{ intros k pkg Hk. rewrite Hb1. exact Hk. }
  rewrite Hb1 in Hmeta.
  mstep H as s2' s2'' Hget. apply get_run in Hget as [-> Hs2].
  injection Hs2 as Hs2. subst s2'.
  mstep H as yamlDesc s3 Hyaml.
  apply pushBundleManifestToStore_ok in Hyaml as (yamlBytes & Hy & Hyd & Hb3 & Hbu3).
  mstep H as cfg s3' Hcfg. apply lift_run in Hcfg as [-> Hcfg].
  mstep H as u2 s4 Hpush.
  apply store_Push_ok in Hpush as (Hnone4 & Hb4 & _ & Hbu4 & _).
  mstep H as u3 s5 Hidx.
  apply rebuild_index_ok in Hidx as (Hix & Hb5 & Hbu5).
  mstep H as mf s6 Hsig.
  mstep H as u4 s7 Htar.
  apply writeTarball_ok in Htar as (Hcs7 & Hbu7).
  apply ret_run in H as [-> _].
  match type of Hb4 with
  | context [json_Marshal_Manifest E ?x] => set (m := x) in *
  end.
  subst yamlDesc. fold (bundle_yaml_desc E yamlBytes) in *.
  fold (root_desc E m) in *.
  assert (cs_blobs (s_cs s3) !! Encoded (DescDigest (bundle_yaml_desc E yamlBytes))
          = Some yamlBytes) as Hy3 by (rewrite Hb3; apply lookup_insert_eq).
  assert (cs_blobs (s_cs s5) !! Encoded (DescDigest (bundle_yaml_desc E yamlBytes))
          = Some yamlBytes) as Hy5.
  { rewrite Hb5, Hb4, lookup_insert_ne; [exact Hy3|].
    intros Heq. rewrite Heq, Hy3 in Hnone4. discriminate. }
  assert (cs_blobs (s_cs s5) !! Encoded (DescDigest (root_desc E m))
          = Some (json_Marshal_Manifest E m)) as Hr5.
  { rewrite Hb5, Hb4. apply lookup_insert_eq. }
  assert (s_bundle s5 = s_bundle s2) as Hbu by congruence.
  exists m, yamlBytes.
  assert (last (Layers m) = Some (bundle_yaml_desc E yamlBytes)) as Hlast
    by (subst m; simpl; apply last_snoc).
  assert (ManifestAnnotations m = manifestAnnotationsFromMetadata (Metadata (s_bundle s)))
    as Hann by (subst m; simpl; rewrite Hmeta; reflexivity).
  destruct (decide (0 < length signature)%nat) as [Hlt|Hlt].
  - mstep Hsig as sd s6' Hps. apply ret_run in Hsig as [-> _].
    apply pushBundleSignature_ok in Hps as (_ & Hnone & Hb6 & Hi6 & Hbu6).
    rewrite Hcs7, Hbu7, Hbu6, Hbu, Hb6, Hi6.
    split; [exact Hy|]. split; [exact Hlast|]. split; [exact Hann|].
    split; [|split; [|exact Hix]].
    + rewrite lookup_insert_ne; [exact Hy5|].
      intros Heq. rewrite Heq, Hy5 in Hnone. discriminate.
    + rewrite lookup_insert_ne; [exact Hr5|].
      intros Heq. rewrite Heq, Hr5 in Hnone. discriminate.
  - apply ret_run in Hsig as [-> _].
    rewrite Hcs7, Hbu7, Hbu. auto 10.
Qed.

(** X11. After a successful [Create], the last layer of the stored root
    manifest describes [uds-bundle.yaml], and the store holds that blob:
    it is the YAML of the bundle as [Create] leaves it, with the
    references of the local children already rewritten, not the YAML of
    the bundle that was handed in. *)
Theorem Create_bundle_yaml_stored (signature : bytes) (s s' : State) :
  Create E b_tmp signature s = (s', Ok tt) ->
  exists m ix yamlBytes,
    cs_index_json (s_cs s') = Some (json_Marshal_Index E ix) /\
    Manifests ix = [root_desc E m] /\
    cs_blobs (s_cs s') !! Encoded (DescDigest (root_desc E m))
      = Some (json_Marshal_Manifest E m) /\
    last (Layers m) = Some (bundle_yaml_desc E yamlBytes) /\
    Annotations (bundle_yaml_desc E yamlBytes) !! "org.opencontainers.image.title"
      = Some "uds-bundle.yaml" /\
    Size (bundle_yaml_desc E yamlBytes) = Z.of_nat (length yamlBytes) /\
    goyaml_Marshal E (s_bundle s') = Ok yamlBytes /\
    cs_blobs (s_cs s') !! Encoded (DescDigest (bundle_yaml_desc E yamlBytes))
      = Some yamlBytes.
Proof.
  intros H. apply Create_ok in H as (s1 & mf & Hbody & Hcs & Hbu).
  apply Create_body_blobs in Hbody
    as (m & yb & Hy & Hlast & _ & Hyb & Hroot & ix & Hix & Hman).
  exists m, ix, yb. rewrite Hcs, Hbu. repeat split; auto.
Qed.

(** X12. The root manifest [Create] stores is annotated from the bundle
    metadata by [manifestAnnotationsFromMetadata]: it has the description
    and never a title. *)
Theorem Create_root_manifest_annotations (signature : bytes) (s s' : State) :
  Create E b_tmp signature s = (s', Ok tt) ->
  exists m,
    cs_blobs (s_cs s') !! Encoded (DescDigest (root_desc E m))
      = Some (json_Marshal_Manifest E m) /\
    ManifestAnnotations m = manifestAnnotationsFromMetadata (Metadata (s_bundle s)) /\
    ManifestAnnotations m !! "org.opencontainers.image.description"
      = Some (Description (Metadata (s_bundle s))) /\
    ManifestAnnotations m !! "org.opencontainers.image.title" = None.
Proof.
  intros H. apply Create_ok in H as (s1 & mf & Hbody & Hcs & Hbu).
  apply Create_body_blobs in Hbody
    as (m & yb & _ & _ & Hann & _ & Hroot & _).
  exists m. rewrite Hcs, Hann.
  split; [exact Hroot|]. split; [destruct s; reflexivity|].
  replace (Metadata (s_bundle (upd_defer (fun _ => []) s)))
    with (Metadata (s_bundle s)) by (destruct s; reflexivity).
  unfold manifestAnnotationsFromMetadata,
    AnnotationDescription, AnnotationURL, AnnotationAuthors,
    AnnotationDocumentation, AnnotationSource, AnnotationVendor.
  split; repeat case_decide; simplify_map_eq; done.
Qed.

End CreateBlobs.

(** ** What [Create] changes in the bundle *)

Section Shape.

Import types.
Context (E : Env) (b_tmp : string).

Lemma keeps_keeps_shape {A} (c : M A) : keeps c -> keeps_shape c.
Proof. intros Hc s s' r H. rewrite (Hc _ _ _ H). reflexivity. Qed.

Lemma keeps_shape_bind {A B} (c : M A) (k : A -> M B) :
  keeps_shape c -> (forall a, keeps_shape (k a)) -> keeps_shape (bind c k).
Proof.
  intros Hc Hk s s' r H. mrun H.
  - exact (Hc _ _ _ H).
  - rewrite (Hk _ _ _ _ H). exact (Hc _ _ _ Hrun).
Qed.

Lemma fmap_alter_same {X Y} (f : X -> Y) (g : X -> X) i (l : list X) :
  (forall x, f (g x) = f x) -> f <$> alter g i l = f <$> l.
Proof.
  intros Hfg. apply list_eq. intros j. rewrite !list_lookup_fmap.
  destruct (decide (i = j)) as [->|Hne].
  - rewrite list_lookup_alter_eq. destruct (l !! j); simpl; [rewrite Hfg|]; reflexivity.
  - rewrite list_lookup_alter_ne by exact Hne. reflexivity.
Qed.

Lemma keeps_shape_set_package_ref i arch digest :
  keeps_shape (set_package_ref i arch digest).
Proof.
  intros s s' r H. unfold set_package_ref in H. apply modify_run in H as [-> _].
  destruct s as [b cs reg scr out dfr tr]. unfold shape. simpl.
  rewrite fmap_alter_same by reflexivity. reflexivity.
Qed.

Lemma keeps_Extract i lb : keeps (Extract E i lb).
Proof. unfold Extract. repeat keeps_step. Qed.

Lemma keeps_Load i lb : keeps (Load E i lb).
Proof. unfold Load. repeat keeps_step. Qed.

Lemma keeps_ToBundle i lb z pm tmp pkgTmp : keeps (ToBundle E i lb z pm tmp pkgTmp).
Proof.
  unfold ToBundle. repeat keeps_step.
  - apply keeps_put_blobs.
  - apply keeps_cs_put.
Qed.

Lemma keeps_shape_Create_pkg total i pkg acc :
  keeps_shape (Create_pkg E b_tmp total i pkg acc).
Proof.
  unfold Create_pkg. destruct acc as [m pm].
  destruct (decide (Repository pkg ≠ "")).
  - apply keeps_keeps_shape. repeat keeps_step.
    + apply keeps_NewRemoteBundler.
    + apply keeps_PushManifest.
    + apply keeps_PushLayers.
  - destruct (decide (Path pkg ≠ "")); [|apply keeps_keeps_shape, keeps_fail].
    apply keeps_shape_bind; [apply keeps_keeps_shape, keeps_MakeTempDir|intros pkgTmp].
    apply keeps_shape_bind; [apply keeps_keeps_shape, keeps_Extract|intros u].
    apply keeps_shape_bind; [apply keeps_keeps_shape, keeps_Load|intros z].
    apply keeps_shape_bind; [apply keeps_keeps_shape, keeps_ToBundle|intros [d pm']].
    apply keeps_shape_bind; [apply keeps_keeps_shape, keeps_get|intros s1].
    apply keeps_shape_bind; [apply keeps_shape_set_package_ref|intros u'].
    apply keeps_keeps_shape, keeps_ret.
Qed.

Lemma keeps_shape_Create_loop total pkgs : forall i acc,
  keeps_shape (Create_loop E b_tmp total i pkgs acc).
Proof.
  induction pkgs as [|pkg rest IH]; intros i acc; simpl.
  - apply keeps_keeps_shape, keeps_ret.
  - apply keeps_shape_bind; [apply keeps_shape_Create_pkg|intros acc'; apply IH].
Qed.

Lemma keeps_ocistore_NewWithContext root : keeps (ocistore_NewWithContext E root).
Proof.
  unfold ocistore_NewWithContext. keeps_step; [keeps_step|].
  intros s s' r H. destruct (ocistore_New E root (s_cs s)) as [cs r0].
  inversion H; subst. reflexivity.
Qed.

Lemma keeps_rebuild_index d : keeps (rebuild_index E b_tmp d).
Proof. unfold rebuild_index. repeat keeps_step. Qed.

Lemma keeps_writeTarball bundle pm : keeps (writeTarball E bundle pm).
Proof. intros s s' r H. apply writeTarball_ok in H as [_ H]. exact H. Qed.

Lemma keeps_shape_Create_body signature : keeps_shape (Create_body E b_tmp signature).
Proof.
  unfold Create_body.
  apply keeps_shape_bind; [apply keeps_keeps_shape, keeps_get|intros s0].
  destruct (decide _); [apply keeps_keeps_shape, keeps_fail|].
  apply keeps_shape_bind;
    [apply keeps_keeps_shape, keeps_ocistore_NewWithContext|intros u].
  apply keeps_shape_bind; [apply keeps_shape_Create_loop|intros [m pm]].
  apply keeps_keeps_shape. repeat keeps_step.
  - unfold pushBundleManifestToStore. repeat keeps_step. apply keeps_store_Push.
  - apply keeps_store_Push.
  - apply keeps_rebuild_index.
  - unfold pushBundleSignature. repeat keeps_step. apply keeps_store_Push.
  - apply keeps_writeTarball.
Qed.

(** X13. Whether [Create] succeeds or fails, and wherever it fails, the
    only thing it changes in [b.bundle] is the reference of children:
    metadata and build data are untouched, no child is added, dropped or
    moved, and every child keeps its name, repository and path. *)
Theorem Create_keeps_bundle_shape (signature : bytes) (s s' : State) (r : result unit) :
  Create E b_tmp signature s = (s', r) ->
  Metadata (s_bundle s') = Metadata (s_bundle s) /\
  Build (s_bundle s') = Build (s_bundle s) /\
  length (ZarfPackages (s_bundle s')) = length (ZarfPackages (s_bundle s)) /\
  (forall i pkg', ZarfPackages (s_bundle s') !! i = Some pkg' ->
     exists pkg, ZarfPackages (s_bundle s) !! i = Some pkg /\
                 Name pkg' = Name pkg /\ Repository pkg' = Repository pkg /\
                 Path pkg' = Path pkg).
Proof.
  unfold Create, with_defers. intros H.
  destruct ((Create_body E b_tmp signature;;; ret tt) (upd_defer (fun _ => []) s))
    as [s1 r1] eqn:Hrun.
  inversion H; subst; clear H.
  assert (shape (s_bundle s1) = shape (s_bundle s)) as Hshape.
  { assert (keeps_shape (Create_body E b_tmp signature;;; ret tt)) as Hk.
    { apply keeps_shape_bind; [apply keeps_shape_Create_body|].
      intros m. apply keeps_keeps_shape, keeps_ret. }
    rewrite (Hk _ _ _ Hrun). destruct s; reflexivity. }
  destruct (run_defers_cs (s_defer s1) s1) as [_ Hbu].
  replace (s_bundle (upd_defer (fun _ => s_defer s) (run_defers (s_defer s1) s1)))
    with (s_bundle s1)
    by (rewrite <- Hbu; destruct (run_defers (s_defer s1) s1); reflexivity).
  unfold shape in Hshape. injection Hshape as Hm Hb Hl.
  split; [exact Hm|]. split; [exact Hb|]. split.
  - apply (f_equal length) in Hl. rewrite !length_fmap in Hl. exact Hl.
  - intros i pkg' Hi.
    assert (((fun p => (Name p, Repository p, Path p)) <$> ZarfPackages (s_bundle s)) !! i
            = Some (Name pkg', Repository pkg', Path pkg')) as Hlook.
    { rewrite <- Hl, list_lookup_fmap, Hi. reflexivity. }
    rewrite list_lookup_fmap in Hlook.
    destruct (ZarfPackages (s_bundle s) !! i) as [pkg|]; [|discriminate].
    exists pkg. injection Hlook as H1 H2 H3. auto.
Qed.

End Shape.

(** ** [writeTarball] *)

Section Tarball.

Import types.
Context (E : Env).




End Tarball.

(** ** Scratch directories *)

Lemma quiet_ret {A} (a : A) : quiet (ret a).
Proof.
  intros s s' r H. prim. subst. repeat split. exists []. rewrite app_nil_r. auto.
Qed.

Lemma quiet_fail {A} msg : quiet (@fail A msg).
Proof.
  intros s s' r H. prim. subst. repeat split. exists []. rewrite app_nil_r. auto.
Qed.

Lemma quiet_lift {A} (x : result A) : quiet (lift x).
Proof.
  intros s s' r H. prim. subst. repeat split. exists []. rewrite app_nil_r. auto.
Qed.

Lemma quiet_get : quiet get.
Proof.
  intros s s' r H. prim. subst. repeat split. exists []. rewrite app_nil_r. auto.
Qed.

Lemma quiet_emit e : made_dirs [e] = [] -> removed_dirs [e] = [] -> quiet (emit e).
Proof.
  intros Hm Hr s s' r H. prim. subst. repeat split. exists [e]. auto.
Qed.

Lemma quiet_modify f :
  (forall s, s_scratch (f s) = s_scratch s /\ s_defer (f s) = s_defer s /\
             s_trace (f s) = s_trace s) ->
  quiet (modify f).
Proof.
  intros Hf s s' r H. prim. subst. destruct (Hf s) as (H1 & H2 & H3).
  repeat split; auto. exists []. rewrite app_nil_r. auto.
Qed.

Lemma quiet_bind {A B} (c : M A) (k : A -> M B) :
  quiet c -> (forall a, quiet (k a)) -> quiet (bind c k).
Proof.
  intros Hc Hk s s' r H. mrun H.
  - exact (Hc _ _ _ H).
  - destruct (Hc _ _ _ Hrun) as (S1 & D1 & ev1 & T1 & M1 & R1).
    destruct (Hk _ _ _ _ H) as (S2 & D2 & ev2 & T2 & M2 & R2).
    split; [congruence|]. split; [congruence|].
    exists (ev1 ++ ev2). rewrite T2, T1, app_assoc.
    unfold made_dirs, removed_dirs in *. rewrite !omap_app, M1, M2, R1, R2. auto.
Qed.

Ltac quiet_step :=
  lazymatch goal with
  | |- quiet (ret _) => apply quiet_ret
  | |- quiet (fail _) => apply quiet_fail
  | |- quiet (lift _) => apply quiet_lift
  | |- quiet get => apply quiet_get
  | |- quiet (bind _ _) => apply quiet_bind; [|intros ?]
  | |- quiet (modify _) => apply quiet_modify; intros []; auto
  | |- quiet (emit _) => apply quiet_emit; reflexivity
  | |- quiet (match ?x with _ => _ end) => destruct x
  end.

Section Scratch.

Import types.
Context (E : Env) (b_tmp : string).

Lemma quiet_lift_world {A} (f : CS * Registry -> (CS * Registry) * result A) :
  quiet (lift_world f).
Proof.
  intros s s' r H. unfold lift_world in H.
  destruct (f (s_cs s, s_registry s)) as [[cs reg] r0].
  inversion H; subst. repeat split. exists []. rewrite app_nil_r. auto.
Qed.

Lemma quiet_store_Push d c : quiet (store_Push E d c).
Proof. unfold store_Push. repeat quiet_step. Qed.

Lemma quiet_cs_put d c : quiet (cs_put E d c).
Proof. unfold cs_put. repeat quiet_step. apply quiet_store_Push. Qed.

Lemma quiet_put_blobs tmp blobs : forall pm, quiet (put_blobs E tmp blobs pm).
Proof.
  induction blobs as [|b rest IH]; intros pm; simpl.
  - quiet_step.
  - quiet_step; [apply quiet_cs_put|apply IH].
Qed.

Lemma quiet_ocistore_NewWithContext root : quiet (ocistore_NewWithContext E root).
Proof.
  unfold ocistore_NewWithContext. quiet_step; [quiet_step|].
  intros s s' r H. destruct (ocistore_New E root (s_cs s)) as [cs r0].
  inversion H; subst. repeat split. exists []. rewrite app_nil_r. auto.
Qed.

Lemma quiet_remote_pkg total i pkg m pm :
  quiet (remoteBundler <- NewRemoteBundler E i pkg
                            (Repository pkg +:+ ":" +:+ Ref pkg) DestStore ;;
         pkgManifestDesc <- PushManifest E i remoteBundler ;;
         layerDescs <- PushLayers E i remoteBundler (i + 1) total ;;
         ret (with_Layers (Layers m ++ [pkgManifestDesc]) m,
              foldl (add_blob_path E b_tmp)
                    (add_blob_path E b_tmp pm pkgManifestDesc) layerDescs)).
Proof.
  unfold NewRemoteBundler, PushManifest, PushLayers.
  repeat quiet_step; apply quiet_lift_world.
Qed.

Lemma quiet_ToBundle i lb z pm tmp pkgTmp : quiet (ToBundle E i lb z pm tmp pkgTmp).
Proof.
  unfold ToBundle. repeat quiet_step.
  - apply quiet_put_blobs.
  - apply quiet_cs_put.
Qed.

Lemma quiet_Load i lb : quiet (Load E i lb).
Proof. unfold Load. repeat quiet_step. Qed.

Lemma quiet_writeTarball bundle pm : quiet (writeTarball E bundle pm).
Proof. unfold writeTarball. repeat quiet_step. Qed.

Lemma quiet_rebuild_index d : quiet (rebuild_index E b_tmp d).
Proof. unfold rebuild_index. repeat quiet_step. Qed.

Lemma grows_refl s : grows s s.
Proof.
  exists [], []. rewrite app_nil_r. repeat split; auto.
Qed.

Lemma grows_trans s1 s2 s3 : grows s1 s2 -> grows s2 s3 -> grows s1 s3.
Proof.
  intros (ev1 & n1 & T1 & D1 & L1 & R1 & S1) (ev2 & n2 & T2 & D2 & L2 & R2 & S2).
  exists (ev1 ++ ev2), (n2 ++ n1).
  split; [rewrite T2, T1, app_assoc; reflexivity|].
  split; [rewrite D2, D1, app_assoc; reflexivity|].
  unfold made_dirs, removed_dirs in *. rewrite !omap_app, R1, R2, !length_app.
  split; [lia|]. split; [reflexivity|].
  intros k t Hk. destruct (S2 k t Hk) as [Hk2|Hin]; [|right; exact Hin].
  destruct (S1 k t Hk2) as [Hk1|Hin]; [left; exact Hk1|right].
  rewrite D2. apply elem_of_app. right. exact Hin.
Qed.

Lemma quiet_growing {A} (c : M A) : quiet c -> growing c.
Proof.
  intros Hc s s' r H. destruct (Hc _ _ _ H) as (Hs & Hd & evs & Ht & Hm & Hr).
  exists evs, []. rewrite Hm, Hd, Hs. repeat split; auto.
Qed.

Lemma growing_bind {A B} (c : M A) (k : A -> M B) :
  growing c -> (forall a, growing (k a)) -> growing (bind c k).
Proof.
  intros Hc Hk s s' r H. mrun H.
  - exact (Hc _ _ _ H).
  - eapply grows_trans; [exact (Hc _ _ _ Hrun)|exact (Hk _ _ _ _ H)].
Qed.

(** [MakeTempDir] registers the removal of the directory it returns. *)
Lemma MakeTempDir_grows i s s' r :
  MakeTempDir E i s = (s', r) ->
  grows s s' /\ s_scratch s' = s_scratch s /\
  forall pkgTmp, r = Ok pkgTmp -> pkgTmp ∈ s_defer s'.
Proof.
  unfold MakeTempDir. intros H. mrun H; prim; subst.
  destruct (MakeTempDir_ E i) as [p|e].
  - mrun H; prim; subst. simpl. split; [|split; [reflexivity|]].
    + exists [EvMakeTempDir i], [p]. simpl. repeat split; auto.
    + intros pkgTmp [= <-]. apply list_elem_of_here.
  - apply bind_run in H as [(e' & H & ->)|(a' & s1 & H1 & H)]; prim; subst.
    simpl. split; [|split; [reflexivity|intros ? [=]]].
    exists [EvMakeTempDir i], [""]. simpl. repeat split; auto.
Qed.

(** [Extract] writes into the scratch directory it was given. *)
Lemma Extract_grows i lb s s' r :
  lb_tmp lb ∈ s_defer s ->
  Extract E i lb s = (s', r) -> grows s s'.
Proof.
  unfold Extract. intros Hin H. mrun H; prim; subst.
  exists [EvExtract i (lb_path lb)], [].
  apply bind_run in H as [(e' & H & ->)|(tree & s1 & H1 & H)]; prim; subst; simpl.
  - repeat split; auto.
  - repeat split; auto. intros k t Hk.
    destruct (decide (k = lb_tmp lb)) as [->|Hne]; [right; exact Hin|left].
    rewrite lookup_insert_ne in Hk by auto. exact Hk.
Qed.

Lemma growing_Create_pkg total i pkg acc :
  growing (Create_pkg E b_tmp total i pkg acc).
Proof.
  unfold Create_pkg. destruct acc as [m pm].
  destruct (decide (Repository pkg ≠ "")).
  - apply quiet_growing, quiet_remote_pkg.
  - destruct (decide (Path pkg ≠ "")); [|apply quiet_growing, quiet_fail].
    intros s s' r H.
    apply bind_run in H as [(e & H & _)|(pkgTmp & s1 & Hmk & H)].
    + apply MakeTempDir_grows in H as [H _]. exact H.
    + apply MakeTempDir_grows in Hmk as (Hg1 & _ & Hin).
      specialize (Hin pkgTmp eq_refl).
      eapply grows_trans; [exact Hg1|].
      apply bind_run in H as [(e & H & _)|(u & s2 & Hex & H)].
      * eapply Extract_grows; [|exact H]. exact Hin.
      * eapply grows_trans; [eapply Extract_grows; [|exact Hex]; exact Hin|].
        revert H. generalize s2 s' r.
        apply quiet_growing.
        quiet_step; [apply quiet_Load|].
        quiet_step; [apply quiet_ToBundle|].
        quiet_step. unfold set_package_ref. repeat quiet_step.
Qed.

Lemma growing_Create_loop total pkgs : forall i acc,
  growing (Create_loop E b_tmp total i pkgs acc).
Proof.
  induction pkgs as [|pkg rest IH]; intros i acc; simpl.
  - apply quiet_growing, quiet_ret.
  - apply growing_bind; [apply growing_Create_pkg|intros acc'; apply IH].
Qed.

Lemma growing_Create_body signature : growing (Create_body E b_tmp signature).
Proof.
  unfold Create_body.
  apply growing_bind; [apply quiet_growing, quiet_get|intros s0].
  destruct (decide _); [apply quiet_growing, quiet_fail|].
  apply growing_bind; [apply quiet_growing, quiet_ocistore_NewWithContext|intros u].
  apply growing_bind; [apply growing_Create_loop|intros [m pm]].
  apply quiet_growing. repeat quiet_step.
  - unfold pushBundleManifestToStore. repeat quiet_step. apply quiet_store_Push.
  - apply quiet_store_Push.
  - apply quiet_rebuild_index.
  - unfold pushBundleSignature. repeat quiet_step. apply quiet_store_Push.
  - apply quiet_writeTarball.
Qed.

(** The deferred removals: every listed directory is removed, in the
    order of the list, and nothing else is touched. *)
Lemma run_defers_effect paths : forall s,
  s_trace (run_defers paths s) = s_trace s ++ map EvRemoveAll paths /\
  (forall k, s_scratch (run_defers paths s) !! k =
             if decide (k ∈ paths) then None else s_scratch s !! k).
Proof.
  induction paths as [|p rest IH]; intros s; simpl.
  - rewrite app_nil_r. split; [reflexivity|]. intros k.
    destruct (decide (k ∈ [])) as [Hin|_]; [|reflexivity].
    apply elem_of_nil in Hin. contradiction.
  - destruct (IH (upd_scratch (delete p) (log (EvRemoveAll p) s))) as [Ht Hs].
    rewrite Ht. split; [destruct s; simpl; rewrite <- app_assoc; reflexivity|].
    intros k. rewrite Hs.
    destruct (decide (k ∈ rest)) as [Hin|Hnin].
    + destruct (decide (k ∈ p :: rest)) as [_|Hn]; [reflexivity|].
      exfalso. apply Hn. apply list_elem_of_further. exact Hin.
    + destruct s as [b cs reg scr out dfr tr]. simpl.
      destruct (decide (k = p)) as [->|Hne].
      * rewrite lookup_delete_eq.
        destruct (decide (p ∈ p :: rest)) as [_|Hn]; [reflexivity|].
        exfalso. apply Hn. apply list_elem_of_here.
      * rewrite lookup_delete_ne by auto.
        destruct (decide (k ∈ p :: rest)) as [Hin|_]; [|reflexivity].
        apply elem_of_cons in Hin as [Heq|Hin]; contradiction.
Qed.

Lemma removed_dirs_map paths : removed_dirs (map EvRemoveAll paths) = paths.
Proof. induction paths as [|p rest IH]; simpl; [reflexivity|]. rewrite IH. reflexivity. Qed.

Lemma made_dirs_map paths : made_dirs (map EvRemoveAll paths) = [].
Proof. induction paths as [|p rest IH]; simpl; [reflexivity|exact IH]. Qed.

(** X15. However [Create] ends, every scratch directory it made for a
    local child is removed again before it returns, failed runs
    included: there is one removal per call of [MakeTempDir], the
    pending removals of the caller are what they were, and what is left
    under the scratch directories was there before.  The removal is the
    deferred [os.RemoveAll], whose error the source drops; here it
    removes the directory. *)
Theorem Create_removes_its_scratch_dirs (signature : bytes) (s s' : State)
    (r : result unit) :
  Create E b_tmp signature s = (s', r) ->
  exists evs,
    s_trace s' = s_trace s ++ evs /\
    length (removed_dirs evs) = length (made_dirs evs) /\
    s_defer s' = s_defer s /\
    (forall k t, s_scratch s' !! k = Some t -> s_scratch s !! k = Some t).
Proof.
  unfold Create, with_defers. intros H.
  destruct ((Create_body E b_tmp signature;;; ret tt) (upd_defer (fun _ => []) s))
    as [s1 r1] eqn:Hrun.
  inversion H; subst; clear H.
  assert (growing (Create_body E b_tmp signature;;; ret tt)) as Hg.
  { apply growing_bind; [apply growing_Create_body|].
    intros m. apply quiet_growing, quiet_ret. }
  destruct (Hg _ _ _ Hrun) as (evs & new & Ht & Hd & Hl & Hr & Hs).
  destruct (run_defers_effect (s_defer s1) s1) as [Ht2 Hs2].
  exists (evs ++ map EvRemoveAll (s_defer s1)).
  split; [|split; [|split]].
  - transitivity (s_trace (run_defers (s_defer s1) s1));
      [destruct (run_defers (s_defer s1) s1); reflexivity|].
    rewrite Ht2, Ht, app_assoc. destruct s; reflexivity.
  - unfold removed_dirs, made_dirs in *. rewrite !omap_app, Hr.
    fold (removed_dirs (map EvRemoveAll (s_defer s1))).
    fold (made_dirs (map EvRemoveAll (s_defer s1))).
    rewrite removed_dirs_map, made_dirs_map, app_nil_r. simpl.
    rewrite Hd, length_app, <- Hl. destruct s; simpl. lia.
  - destruct (run_defers (s_defer s1) s1); reflexivity.
  - intros k t Hk.
    assert (s_scratch (run_defers (s_defer s1) s1) !! k = Some t) as Hk'
      by (destruct (run_defers (s_defer s1) s1); exact Hk).
    rewrite Hs2 in Hk'.
    destruct (decide (k ∈ s_defer s1)) as [Hin|Hnin]; [discriminate|].
    destruct (Hs k t Hk') as [Hold|Hin]; [|contradiction].
    destruct s; exact Hold.
Qed.

End Scratch.

(** ** The order of the pushes of [CreateAndPublish] *)

Section PublishOrder.

Import types.
Context (E : Env).





End PublishOrder.

(** ** One child after the other *)

Section InTurn.

Import types.
Context (E : Env) (b_tmp : string).

Lemma omap_child_index_replicate i evs :
  Forall (fun e => child_index e = Some i \/ child_index e = None) evs ->
  omap child_index evs = replicate (length (omap child_index evs)) i.
Proof.
  induction 1 as [|e evs [He|He] _ IH]; simpl; [reflexivity| |].
  - rewrite He. cbn [length replicate]. f_equal. exact IH.
  - rewrite He. exact IH.
Qed.

Lemma omap_child_index_none evs :
  Forall (fun e => child_index e = None) evs -> omap child_index evs = [].
Proof.
  induction 1 as [|e evs He _ IH]; simpl; [reflexivity|]. rewrite He. exact IH.
Qed.

(** The events of one iteration belong to its child; there is at least
    one unless the child has neither repository nor path. *)
Lemma Create_pkg_turn total i pkg acc s s' r :
  Create_pkg E b_tmp total i pkg acc s = (s', r) ->
  exists evs n,
    s_trace s' = s_trace s ++ evs /\
    omap child_index evs = replicate n i /\
    (is_ok r = true -> 0 < n) /\
    (n = 0 -> evs = []).
Proof.
  intros H.
  assert (emits (fun e => child_index e = Some i \/ child_index e = None)
                (Create_pkg E b_tmp total i pkg acc)) as Hem.
  { apply emits_Create_pkg.
    - intros d c. right. reflexivity.
    - intros _ e He. left. unfold child_index. rewrite He. reflexivity.
    - intros _ _ e He. left. unfold child_index.
      destruct e; simpl in *; try discriminate; exact He. }
  destruct (Hem _ _ _ H) as (evs & Heq & HF).
  unfold Create_pkg in H. destruct acc as [m pm].
  destruct (decide (Repository pkg ≠ "")) as [Hrepo|Hrepo].
  - unfold NewRemoteBundler in H. rewrite bind_assoc_run in H.
    apply bind_run in H as [(e0 & H & _)|(u & s1 & H1 & H)];
      [apply emit_run in H as [_ H]; discriminate|].
    apply emit_run in H1 as [-> _].
    exists evs, (length (omap child_index evs)).
    split; [exact Heq|]. split; [apply omap_child_index_replicate, HF|].
    assert (exists evs', evs = EvNewRemoteBundler i (Repository pkg +:+ ":" +:+ Ref pkg) :: evs')
      as [evs' ->].
    { assert (emits (fun _ => True)
                (remoteBundler <- lift (NewRemoteBundler_ E pkg
                     (Repository pkg +:+ ":" +:+ Ref pkg) DestStore) ;;
                 pkgManifestDesc <- PushManifest E i remoteBundler ;;
                 layerDescs <- PushLayers E i remoteBundler (i + 1) total ;;
                 ret (with_Layers (Layers m ++ [pkgManifestDesc]) m,
                      foldl (add_blob_path E b_tmp)
                            (add_blob_path E b_tmp pm pkgManifestDesc) layerDescs)))
        as Hrest.
      { repeat emits_step; [apply emits_PushManifest|apply emits_PushLayers]; exact I. }
      destruct (Hrest _ _ _ H) as (evs' & Heq' & _).
      exists evs'. simpl in Heq'. rewrite Heq, <- app_assoc in Heq'.
      apply app_inv_head in Heq'. exact Heq'. }
    simpl. split; [intros _; lia|discriminate].
  - destruct (decide (Path pkg ≠ "")) as [Hpath|Hpath].
    + unfold MakeTempDir in H.
      exists evs, (length (omap child_index evs)).
      split; [exact Heq|]. split; [apply omap_child_index_replicate, HF|].
      assert (exists evs', evs = EvMakeTempDir i :: evs') as [evs' ->].
      { rewrite bind_assoc_run in H.
        apply bind_run in H as [(e0 & H & _)|(u & s1 & H1 & H)];
          [apply emit_run in H as [_ H]; discriminate|].
        apply emit_run in H1 as [-> _].
        match type of H with
        | ?c _ = _ => assert (emits (fun _ => True) c) as Hrest
        end.
        { emits_step.
          - emits_case; repeat emits_step.
          - emits_step; [apply emits_Extract; exact I|].
            emits_step; [apply emits_Load; exact I|].
            emits_step; [apply emits_ToBundle; intros; exact I|].
            emits_case. unfold set_package_ref. repeat emits_step. }
        destruct (Hrest _ _ _ H) as (evs' & Heq' & _).
        exists evs'. simpl in Heq'. rewrite Heq, <- app_assoc in Heq'.
        apply app_inv_head in Heq'. exact Heq'. }
      simpl. split; [intros _; lia|discriminate].
    + apply fail_run in H as [-> ->]. exists [], 0.
      rewrite app_nil_r. repeat split; auto. discriminate.
Qed.

Lemma in_turn_Create_loop pkgs : forall i acc,
  in_turn (length pkgs) i (Create_loop E b_tmp (i + length pkgs) i pkgs acc).
Proof.
  induction pkgs as [|pkg rest IH]; intros i acc s s' r H; simpl in H.
  - apply ret_run in H as [-> ->]. exists [], []. rewrite app_nil_r.
    split; [reflexivity|]. split; [reflexivity|]. split; [constructor|].
    split; [reflexivity|]. intros _. reflexivity.
  - apply bind_run in H as [(e & H & ->)|(acc1 & s1 & H1 & H)].
    + apply Create_pkg_turn in H as (evs & n & Heq & Hidx & _ & Hzero).
      destruct n as [|n].
      * exists evs, []. rewrite (Hzero eq_refl) in *. simpl.
        split; [exact Heq|]. split; [reflexivity|]. split; [constructor|].
        split; [lia|discriminate].
      * exists evs, [S n]. simpl. rewrite app_nil_r.
        split; [exact Heq|]. split; [exact Hidx|].
        split; [constructor; [lia|constructor]|]. split; [lia|discriminate].
    + apply Create_pkg_turn in H1 as (ev1 & n & E1 & Hidx & Hpos & _).
      specialize (Hpos eq_refl).
      replace (i + S (length rest)) with (S i + length rest) in H by lia.
      destruct (IH _ _ _ _ _ H) as (ev2 & sizes & E2 & Hidx2 & Hall & Hlen & Hok).
      exists (ev1 ++ ev2), (n :: sizes).
      split; [rewrite E2, E1, app_assoc; reflexivity|].
      split; [rewrite omap_app, Hidx, Hidx2; reflexivity|].
      split; [constructor; assumption|]. simpl.
      split; [lia|]. intros Hr. rewrite (Hok Hr). reflexivity.
Qed.

Lemma in_turn_bind_none {A B} total (c : M A) (k : A -> M B) :
  in_turn total 0 c ->
  (forall a, emits (fun e => child_index e = None) (k a)) ->
  in_turn total 0 (bind c k).
Proof.
  intros Hc Hk s s' r H.
  apply bind_run in H as [(e & H & ->)|(a & s1 & H1 & H)].
  - destruct (Hc _ _ _ H) as (evs & sizes & Heq & Hidx & Hall & Hlen & _).
    exists evs, sizes.
    split; [exact Heq|]. split; [exact Hidx|]. split; [exact Hall|].
    split; [exact Hlen|discriminate].
  - destruct (Hc _ _ _ H1) as (ev1 & sizes & E1 & Hidx & Hall & Hlen & Hok).
    destruct (Hk a _ _ _ H) as (ev2 & E2 & F2).
    exists (ev1 ++ ev2), sizes.
    split; [rewrite E2, E1, app_assoc; reflexivity|].
    split; [rewrite omap_app, Hidx, (omap_child_index_none ev2 F2), app_nil_r; reflexivity|].
    split; [exact Hall|]. split; [exact Hlen|]. intros _. apply Hok. reflexivity.
Qed.

Lemma in_turn_prefix {A B} total (c : M A) (k : A -> M B) :
  emits (fun e => child_index e = None) c ->
  (forall a, in_turn total 0 (k a)) ->
  in_turn total 0 (bind c k).
Proof.
  intros Hc Hk s s' r H.
  apply bind_run in H as [(e & H & ->)|(a & s1 & H1 & H)].
  - destruct (Hc _ _ _ H) as (evs & Heq & HF).
    exists evs, []. split; [exact Heq|].
    split; [apply omap_child_index_none, HF|]. split; [constructor|].
    split; [simpl; lia|discriminate].
  - destruct (Hc _ _ _ H1) as (ev1 & E1 & F1).
    destruct (Hk a _ _ _ H) as (ev2 & sizes & E2 & Hidx & Hall & Hlen & Hok).
    exists (ev1 ++ ev2), sizes.
    split; [rewrite E2, E1, app_assoc; reflexivity|].
    split; [rewrite omap_app, (omap_child_index_none ev1 F1); exact Hidx|].
    split; [exact Hall|]. split; [exact Hlen|exact Hok].
Qed.

Lemma Create_body_turn signature s s' (r : result Manifest) :
  Create_body E b_tmp signature s = (s', r) ->
  exists evs sizes,
    s_trace s' = s_trace s ++ evs /\
    omap child_index evs = blocks_from 0 sizes /\
    Forall (fun n => 0 < n) sizes /\
    length sizes <= length (ZarfPackages (s_bundle s)) /\
    (is_ok r = true -> length sizes = length (ZarfPackages (s_bundle s))).
Proof.
  intros H. unfold Create_body in H.
  apply bind_run in H as [(e & Hg & _)|(s0 & s0' & Hg & H)];
    [apply get_run in Hg as [_ Hg]; discriminate|].
  apply get_run in Hg as [-> Hs0]. injection Hs0 as Hs0. subst s0.
  destruct (decide (Architecture (Metadata (s_bundle s)) = "")) as [Harch|Harch].
  - apply fail_run in H as [-> ->]. exists [], []. rewrite app_nil_r.
    split; [reflexivity|]. split; [reflexivity|]. split; [constructor|].
    split; [simpl; lia|discriminate].
  - revert H.
    match goal with
    | |- ?c s = _ -> _ =>
        assert (in_turn (length (ZarfPackages (s_bundle s))) 0 c) as Hin;
          [|intros H; exact (Hin _ _ _ H)]
    end.
    apply in_turn_prefix.
    { unfold ocistore_NewWithContext. emits_step; [emits_step; reflexivity|].
      apply emits_silent. intros s1. destruct (ocistore_New E b_tmp (s_cs s1)). reflexivity. }
    intros _. apply in_turn_bind_none.
    { exact (in_turn_Create_loop (ZarfPackages (s_bundle s)) 0 _). }
    intros acc. emits_case. emits_step; [emits_step|].
    emits_step.
    { unfold pushBundleManifestToStore. repeat emits_step.
      apply emits_store_Push. intros; reflexivity. }
    emits_step; [emits_step|].
    emits_step; [apply emits_store_Push; intros; reflexivity|].
    emits_step; [apply emits_rebuild_index; intros; reflexivity|].
    emits_step.
    { emits_case; [|emits_step]. unfold pushBundleSignature. repeat emits_step.
      apply emits_store_Push. intros; reflexivity. }
    emits_step; [|emits_step].
    apply emits_writeTarball. intros; reflexivity.
Qed.

(** The calls [Create] makes for the children come in blocks, child 0
    first, then child 1, and so on; a run that succeeds has a block for
    every child. *)
Lemma Create_turns (signature : bytes) (s s' : State) (r : result unit) :
  Create E b_tmp signature s = (s', r) ->
  exists evs sizes,
    s_trace s' = s_trace s ++ evs /\
    omap child_index evs = blocks_from 0 sizes /\
    Forall (fun n => 0 < n) sizes /\
    length sizes <= length (ZarfPackages (s_bundle s)) /\
    (r = Ok tt -> length sizes = length (ZarfPackages (s_bundle s))).
Proof.
  unfold Create, with_defers. intros H.
  destruct ((Create_body E b_tmp signature;;; ret tt) (upd_defer (fun _ => []) s))
    as [s1 r1] eqn:Hrun.
  inversion H; subst; clear H.
  assert (exists ev1 sizes,
            s_trace s1 = s_trace s ++ ev1 /\
            omap child_index ev1 = blocks_from 0 sizes /\
            Forall (fun n => 0 < n) sizes /\
            length sizes <= length (ZarfPackages (s_bundle s)) /\
            (r = Ok tt -> length sizes = length (ZarfPackages (s_bundle s))))
    as (ev1 & sizes & E1 & Hidx & Hall & Hlen & Hok).
  { apply bind_run in Hrun as [(e & Hb & ->)|(m & s2 & Hb & Hr)].
    - apply Create_body_turn in Hb as (ev1 & sizes & E1 & Hidx & Hall & Hlen & _).
      exists ev1, sizes. destruct s; simpl in *.
      split; [exact E1|]. split; [exact Hidx|]. split; [exact Hall|].
      split; [exact Hlen|discriminate].
    - apply ret_run in Hr as [-> ->].
      apply Create_body_turn in Hb as (ev1 & sizes & E1 & Hidx & Hall & Hlen & Hok).
      exists ev1, sizes. destruct s; simpl in *.
      split; [exact E1|]. split; [exact Hidx|]. split; [exact Hall|].
      split; [exact Hlen|]. intros _. apply Hok. reflexivity. }
  destruct (run_defers_effect (s_defer s1) s1) as [Ht _].
  exists (ev1 ++ map EvRemoveAll (s_defer s1)), sizes.
  split.
  { transitivity (s_trace (run_defers (s_defer s1) s1)).
    - destruct (run_defers (s_defer s1) s1); reflexivity.
    - rewrite Ht, E1, app_assoc. reflexivity. }
  split.
  { rewrite omap_app, Hidx.
    rewrite (omap_child_index_none (map EvRemoveAll (s_defer s1))), app_nil_r;
      [reflexivity|].
    generalize (s_defer s1). intros l.
    induction l as [|p0 l IHl]; simpl; constructor; [reflexivity|exact IHl]. }
  split; [exact Hall|]. split; [exact Hlen|exact Hok].
Qed.

Lemma CreateAndPublish_pkg_turn total i pkg m s s' (r : result Manifest) :
  CreateAndPublish_pkg E total i pkg m s = (s', r) ->
  exists evs n,
    s_trace s' = s_trace s ++ evs /\
    omap child_index evs = replicate (S n) i.
Proof.
  intros H.
  assert (emits (fun e => child_index e = Some i \/ child_index e = None)
                (CreateAndPublish_pkg E total i pkg m)) as Hem.
  { unfold CreateAndPublish_pkg.
    emits_step; [apply emits_NewRemoteBundler; left; reflexivity|].
    emits_step; [apply emits_PushManifest; left; reflexivity|].
    emits_step; [apply emits_PushLayers; left; reflexivity|emits_step]. }
  destruct (Hem _ _ _ H) as (evs & Heq & HF).
  unfold CreateAndPublish_pkg, NewRemoteBundler in H. rewrite bind_assoc_run in H.
  apply bind_run in H as [(e0 & H & _)|(u & s1 & H1 & H)];
    [apply emit_run in H as [_ H]; discriminate|].
  apply emit_run in H1 as [-> _].
  match type of H with
  | ?c _ = _ => assert (emits (fun _ => True) c) as Hrest
  end.
  { repeat emits_step; [apply emits_PushManifest|apply emits_PushLayers]; exact I. }
  destruct (Hrest _ _ _ H) as (evs' & Heq' & _).
  simpl in Heq'. rewrite Heq, <- app_assoc in Heq'.
  apply app_inv_head in Heq'. subst evs.
  apply omap_child_index_replicate in HF. simpl in HF.
  exists (EvNewRemoteBundler i (Repository pkg +:+ ":" +:+ Ref pkg) :: evs'),
         (length (omap child_index evs')).
  split; [exact Heq|exact HF].
Qed.

Lemma in_turn_CreateAndPublish_loop pkgs : forall i m,
  in_turn (length pkgs) i (CreateAndPublish_loop E (i + length pkgs) i pkgs m).
Proof.
  induction pkgs as [|pkg rest IH]; intros i m s s' r H; simpl in H.
  - apply ret_run in H as [-> ->]. exists [], []. rewrite app_nil_r.
    split; [reflexivity|]. split; [reflexivity|]. split; [constructor|].
    split; [reflexivity|]. intros _. reflexivity.
  - apply bind_run in H as [(e & H & ->)|(m1 & s1 & H1 & H)].
    + apply CreateAndPublish_pkg_turn in H as (evs & n & Heq & Hidx).
      exists evs, [S n]. simpl. rewrite app_nil_r.
      split; [exact Heq|]. split; [exact Hidx|].
      split; [constructor; [lia|constructor]|]. split; [lia|discriminate].
    + apply CreateAndPublish_pkg_turn in H1 as (ev1 & n & E1 & Hidx).
      replace (i + S (length rest)) with (S i + length rest) in H by lia.
      destruct (IH _ _ _ _ _ H) as (ev2 & sizes & E2 & Hidx2 & Hall & Hlen & Hok).
      exists (ev1 ++ ev2), (S n :: sizes).
      split; [rewrite E2, E1, app_assoc; reflexivity|].
      split; [rewrite omap_app, Hidx, Hidx2; reflexivity|].
      split; [constructor; [lia|assumption]|]. simpl.
      split; [lia|]. intros Hr. rewrite (Hok Hr). reflexivity.
Qed.

(** The same for [CreateAndPublish]. *)
Lemma CreateAndPublish_turns (reference : string) (bundle : UDSBundle)
    (signature : bytes) (s s' : State) (r : result unit) :
  CreateAndPublish E reference bundle signature s = (s', r) ->
  exists evs sizes,
    s_trace s' = s_trace s ++ evs /\
    omap child_index evs = blocks_from 0 sizes /\
    Forall (fun n => 0 < n) sizes /\
    length sizes <= length (ZarfPackages bundle) /\
    (r = Ok tt -> length sizes = length (ZarfPackages bundle)).
Proof.
  intros H.
  assert (in_turn (length (ZarfPackages bundle)) 0
            (CreateAndPublish E reference bundle signature)) as Hin.
  { unfold CreateAndPublish. destruct (decide _) as [Harch|Harch].
    - intros s1 s2 r2 Hf. apply fail_run in Hf as [-> ->].
      exists [], []. rewrite app_nil_r.
      split; [reflexivity|]. split; [reflexivity|]. split; [constructor|].
      split; [simpl; lia|discriminate].
    - apply in_turn_bind_none.
      { exact (in_turn_CreateAndPublish_loop (ZarfPackages bundle) 0 _). }
      intros m0.
      assert (forall b mt, emits (fun e => child_index e = None) (PushLayer E b mt)) as HPL.
      { intros b mt. apply emits_PushLayer. intros; reflexivity. }
      emits_step; [emits_step|]. emits_step; [apply HPL|].
      emits_step.
      { emits_case; [|emits_step]. emits_step; [apply HPL|emits_step]. }
      emits_step; [apply HPL|].
      emits_step; [|emits_step].
      intros s1 s2 r2 Hrun.
      destruct (PushReference E _ _ reference s1) as [s3 r3] eqn:Hp.
      assert (s2 = s3) as -> by (destruct r3; inversion Hrun; reflexivity).
      eapply emits_PushReference; [|exact Hp]. intros; reflexivity. }
  destruct (Hin _ _ _ H) as (evs & sizes & Heq & Hidx & Hall & Hlen & Hok).
  exists evs, sizes. split; [exact Heq|]. split; [exact Hidx|].
  split; [exact Hall|]. split; [exact Hlen|]. intros ->. apply Hok. reflexivity.
Qed.

End InTurn.

(** ** The loops stop at the first failure *)

Section Stops.

Import types.
Context (E : Env) (b_tmp : string).

Lemma Create_loop_prefix total l1 : forall i acc s sk acck l2,
  iterations (Create_pkg E b_tmp total) i l1 acc s = Some (sk, acck) ->
  Create_loop E b_tmp total i (l1 ++ l2) acc s
  = Create_loop E b_tmp total (i + length l1) l2 acck sk.
Proof.
  induction l1 as [|pkg rest IH]; intros i acc s sk acck l2 H; simpl in H.
  - injection H as -> ->. simpl. rewrite Nat.add_0_r. reflexivity.
  - destruct (Create_pkg E b_tmp total i pkg acc s) as [s1 [acc1|e]] eqn:Hstep;
      [|discriminate].
    simpl. unfold bind at 1. rewrite Hstep.
    rewrite (IH _ _ _ _ _ l2 H). f_equal. lia.
Qed.

Lemma CreateAndPublish_loop_prefix total l1 : forall i m s sk mk l2,
  iterations (CreateAndPublish_pkg E total) i l1 m s = Some (sk, mk) ->
  CreateAndPublish_loop E total i (l1 ++ l2) m s
  = CreateAndPublish_loop E total (i + length l1) l2 mk sk.
Proof.
  induction l1 as [|pkg rest IH]; intros i m s sk mk l2 H; simpl in H.
  - injection H as -> ->. simpl. rewrite Nat.add_0_r. reflexivity.
  - destruct (CreateAndPublish_pkg E total i pkg m s) as [s1 [m1|e]] eqn:Hstep;
      [|discriminate].
    simpl. unfold bind at 1. rewrite Hstep.
    rewrite (IH _ _ _ _ _ l2 H). f_equal. lia.
Qed.

(** The loop of [Create] stops at the first child that fails. *)
Lemma Create_loop_stops total pkgs k pkg acc0 s1 sk acc s2 e :
  pkgs !! k = Some pkg ->
  iterations (Create_pkg E b_tmp total) 0 (take k pkgs) acc0 s1 = Some (sk, acc) ->
  Create_pkg E b_tmp total k pkg acc sk = (s2, Err e) ->
  Create_loop E b_tmp total 0 pkgs acc0 s1 = (s2, Err e).
Proof.
  intros Hk Hit Hfail.
  rewrite <- (take_drop_middle pkgs k pkg Hk).
  rewrite (Create_loop_prefix _ _ _ _ _ _ _ _ Hit).
  rewrite length_take_le by (apply lookup_lt_Some in Hk; lia).
  simpl. unfold bind. rewrite Hfail. reflexivity.
Qed.

Lemma CreateAndPublish_loop_stops total pkgs k pkg m0 s1 sk m s2 e :
  pkgs !! k = Some pkg ->
  iterations (CreateAndPublish_pkg E total) 0 (take k pkgs) m0 s1 = Some (sk, m) ->
  CreateAndPublish_pkg E total k pkg m sk = (s2, Err e) ->
  CreateAndPublish_loop E total 0 pkgs m0 s1 = (s2, Err e).
Proof.
  intros Hk Hit Hfail.
  rewrite <- (take_drop_middle pkgs k pkg Hk).
  rewrite (CreateAndPublish_loop_prefix _ _ _ _ _ _ _ _ Hit).
  rewrite length_take_le by (apply lookup_lt_Some in Hk; lia).
  simpl. unfold bind. rewrite Hfail. reflexivity.
Qed.

(** X17. [Create] takes the children one after the other, in the order
    of [bundle.ZarfPackages], and stops at the first one that fails.
    Leaving aside the calls that belong to no child, the calls of any
    run come in blocks, those of child 0 first, then those of child 1,
    and so on, with no child left out or revisited, and a run that
    succeeds has a block for every child.  When the iterations for the
    children before child [k] have succeeded and the one for child [k]
    fails, [Create] returns the error of that iteration, and all that
    follows the failed iteration is the removal of the scratch
    directories: no later child is touched. *)
Theorem Create_children_in_turn (signature : bytes) (s s' : State) (r : result unit) :
  Create E b_tmp signature s = (s', r) ->
  (exists evs sizes,
     s_trace s' = s_trace s ++ evs /\
     omap child_index evs = blocks_from 0 sizes /\
     Forall (fun n => 0 < n) sizes /\
     length sizes <= length (ZarfPackages (s_bundle s)) /\
     (r = Ok tt -> length sizes = length (ZarfPackages (s_bundle s)))) /\
  (forall k pkg s1 sk acc s2 e,
     Architecture (Metadata (s_bundle s)) ≠ "" ->
     ocistore_NewWithContext E b_tmp (upd_defer (fun _ => []) s) = (s1, Ok tt) ->
     ZarfPackages (s_bundle s) !! k = Some pkg ->
     iterations (Create_pkg E b_tmp (length (ZarfPackages (s_bundle s)))) 0
       (take k (ZarfPackages (s_bundle s)))
       (with_MediaType MediaTypeImageManifest Manifest_zero, ∅) s1 = Some (sk, acc) ->
     Create_pkg E b_tmp (length (ZarfPackages (s_bundle s))) k pkg acc sk = (s2, Err e) ->
     r = Err e /\
     s_trace s' = s_trace s2 ++ map EvRemoveAll (s_defer s2)).
Proof.
  intros H. split; [exact (Create_turns E b_tmp signature s s' r H)|].
  intros k pkg s1 sk acc s2 e Harch Hopen Hk Hit Hfail.
  pose proof (Create_loop_stops _ _ _ _ _ _ _ _ _ _ Hk Hit Hfail) as Hloop.
  assert (Create_body E b_tmp signature (upd_defer (fun _ => []) s) = (s2, Err e)) as Hbody.
  { unfold Create_body. unfold bind at 1. unfold get.
    replace (s_bundle (upd_defer (fun _ => []) s)) with (s_bundle s)
      by (destruct s; reflexivity).
    destruct (decide (Architecture (Metadata (s_bundle s)) = "")); [contradiction|].
    unfold bind at 1. rewrite Hopen. unfold bind at 1. rewrite Hloop. reflexivity. }
  unfold Create, with_defers in H. unfold bind in H. rewrite Hbody in H.
  injection H as <- <-. split; [reflexivity|].
  destruct (run_defers_effect (s_defer s2) s2) as [Ht _].
  rewrite <- Ht. destruct (run_defers (s_defer s2) s2); reflexivity.
Qed.

(** X18. [CreateAndPublish] takes the children one after the other as
    well and stops at the first one that fails.  The calls of any run
    come in blocks, child 0 first, then child 1, and so on, with no
    child left out or revisited, and a run that succeeds has mirrored
    every child.  When the iterations for the children before child [k]
    have succeeded and the one for child [k] fails, [CreateAndPublish]
    returns the error of that iteration and does nothing more: the
    state it ends in is the one the failed iteration left, so no later
    child is touched and no root manifest is pushed. *)
Theorem CreateAndPublish_children_in_turn (reference : string) (bundle : UDSBundle)
    (signature : bytes) (s s' : State) (r : result unit) :
  CreateAndPublish E reference bundle signature s = (s', r) ->
  (exists evs sizes,
     s_trace s' = s_trace s ++ evs /\
     omap child_index evs = blocks_from 0 sizes /\
     Forall (fun n => 0 < n) sizes /\
     length sizes <= length (ZarfPackages bundle) /\
     (r = Ok tt -> length sizes = length (ZarfPackages bundle))) /\
  (forall k pkg sk m s2 e,
     Architecture (Metadata bundle) ≠ "" ->
     ZarfPackages bundle !! k = Some pkg ->
     iterations (CreateAndPublish_pkg E (length (ZarfPackages bundle))) 0
       (take k (ZarfPackages bundle)) Manifest_zero s = Some (sk, m) ->
     CreateAndPublish_pkg E (length (ZarfPackages bundle)) k pkg m sk = (s2, Err e) ->
     r = Err e /\ s' = s2).
Proof.
  intros H.
  split; [exact (CreateAndPublish_turns E reference bundle signature s s' r H)|].
  intros k pkg sk m s2 e Harch Hk Hit Hfail.
  pose proof (CreateAndPublish_loop_stops _ _ _ _ _ _ _ _ _ _ Hk Hit Hfail) as Hloop.
  unfold CreateAndPublish in H.
  destruct (decide (Architecture (Metadata bundle) = "")); [contradiction|].
  unfold bind at 1 in H. rewrite Hloop in H. injection H as <- <-. auto.
Qed.

End Stops.

(** ** The further properties at concrete inputs *)

(** The bundle with a remote child, a local child and a child with both
    a repository and a path, created with the signature "sig", with
    remote bundlers that push to the destination they were built for. *)
Lemma Create_never_pushes_to_registry_witness :
  (exists evs,
     s_trace (fst (Create demo.strict_env "/tmp/bundle" demo.signature
                     (demo.init demo.three)))
     = s_trace (demo.init demo.three) ++ evs /\
     Forall (fun e => ~ registry_event e) evs) /\
  s_registry (fst (Create demo.strict_env "/tmp/bundle" demo.signature
                     (demo.init demo.three)))
  = demo.empty_registry.
Proof.
  destruct (Create_never_pushes_to_registry demo.strict_env "/tmp/bundle" demo.signature
              (demo.init demo.three)
              (fst (Create demo.strict_env "/tmp/bundle" demo.signature
                      (demo.init demo.three)))
              (snd (Create demo.strict_env "/tmp/bundle" demo.signature
                      (demo.init demo.three))))
    as [Hev Hreg].
  - destruct (Create demo.strict_env "/tmp/bundle" demo.signature (demo.init demo.three));
      reflexivity.
  - split; [exact Hev|]. apply Hreg.
    intros pkg url [u dst] Hrb [cs reg]. simpl in Hrb.
    destruct (decide (types.Repository pkg = "down.example/d")); [discriminate|].
    injection Hrb as _ <-. split; [reflexivity|]. intros current total. reflexivity.
Defined.

(** The bundle with one remote child, published under "0.0.1". *)
Lemma CreateAndPublish_only_remote_witness :
  exists evs, s_trace demo.published = s_trace (demo.init demo.one) ++ evs /\
              Forall publish_event evs /\
              Forall (fun e => local_event e = None) evs.
Proof.
  apply (CreateAndPublish_only_remote demo.env "0.0.1" demo.one demo.signature
           (demo.init demo.one) demo.published (Ok tt)).
  exact demo_published_run.
Defined.

Lemma CreateAndPublish_layer_media_types_witness :
  exists m children rest,
    reg_manifests (s_registry demo.published) !! "0.0.1"
      = Some (root_desc demo.env m, json_Marshal_Manifest demo.env m) /\
    Layers m = children ++ rest /\
    length children = length (types.ZarfPackages demo.one) /\
    Forall (fun d => MediaType d = "application/vnd.oci.image.manifest.v1+json") children /\
    Forall (fun d => MediaType d = "application/vnd.zarf.layer.v1.blob") rest.
Proof.
  apply (CreateAndPublish_layer_media_types demo.env "0.0.1" demo.one demo.signature
           (demo.init demo.one) demo.published).
  exact demo_published_run.
Defined.

Lemma Create_bundle_yaml_stored_witness :
  exists m ix yamlBytes,
    cs_index_json (s_cs demo.created) = Some (json_Marshal_Index demo.env ix) /\
    Manifests ix = [root_desc demo.env m] /\
    cs_blobs (s_cs demo.created) !! Encoded (DescDigest (root_desc demo.env m))
      = Some (json_Marshal_Manifest demo.env m) /\
    last (Layers m) = Some (bundle_yaml_desc demo.env yamlBytes) /\
    Annotations (bundle_yaml_desc demo.env yamlBytes) !! "org.opencontainers.image.title"
      = Some "uds-bundle.yaml" /\
    Size (bundle_yaml_desc demo.env yamlBytes) = Z.of_nat (length yamlBytes) /\
    goyaml_Marshal demo.env (s_bundle demo.created) = Ok yamlBytes /\
    cs_blobs (s_cs demo.created) !! Encoded (DescDigest (bundle_yaml_desc demo.env yamlBytes))
      = Some yamlBytes.
Proof.
  apply (Create_bundle_yaml_stored demo.env "/tmp/bundle" demo.signature
           (demo.init demo.three) demo.created).
  exact demo_created_run.
Defined.

Lemma Create_root_manifest_annotations_witness :
  exists m,
    cs_blobs (s_cs demo.created) !! Encoded (DescDigest (root_desc demo.env m))
      = Some (json_Marshal_Manifest demo.env m) /\
    ManifestAnnotations m
      = manifestAnnotationsFromMetadata (types.Metadata (s_bundle (demo.init demo.three))) /\
    ManifestAnnotations m !! "org.opencontainers.image.description"
      = Some (types.Description (types.Metadata (s_bundle (demo.init demo.three)))) /\
    ManifestAnnotations m !! "org.opencontainers.image.title" = None.
Proof.
  apply (Create_root_manifest_annotations demo.env "/tmp/bundle" demo.signature
           (demo.init demo.three) demo.created).
  exact demo_created_run.
Defined.

Lemma Create_keeps_bundle_shape_witness :
  types.Metadata (s_bundle demo.created) = types.Metadata (s_bundle (demo.init demo.three)) /\
  types.Build (s_bundle demo.created) = types.Build (s_bundle (demo.init demo.three)) /\
  length (types.ZarfPackages (s_bundle demo.created))
    = length (types.ZarfPackages (s_bundle (demo.init demo.three))) /\
  (forall i pkg', types.ZarfPackages (s_bundle demo.created) !! i = Some pkg' ->
     exists pkg, types.ZarfPackages (s_bundle (demo.init demo.three)) !! i = Some pkg /\
                 types.Name pkg' = types.Name pkg /\
                 types.Repository pkg' = types.Repository pkg /\
                 types.Path pkg' = types.Path pkg).
Proof.
  apply (Create_keeps_bundle_shape demo.env "/tmp/bundle" demo.signature
           (demo.init demo.three) demo.created (Ok tt)).
  exact demo_created_run.
Defined.


Lemma Create_removes_its_scratch_dirs_witness :
  exists evs,
    s_trace demo.created = s_trace (demo.init demo.three) ++ evs /\
    length (removed_dirs evs) = length (made_dirs evs) /\
    s_defer demo.created = s_defer (demo.init demo.three) /\
    (forall k t, s_scratch demo.created !! k = Some t ->
                 s_scratch (demo.init demo.three) !! k = Some t).
Proof.
  apply (Create_removes_its_scratch_dirs demo.env "/tmp/bundle" demo.signature
           (demo.init demo.three) demo.created (Ok tt)).
  exact demo_created_run.
Defined.


(** [Create] on a bundle whose second child has neither repository nor
    path: the first child is mirrored, the second fails without a call,
    the third is never touched. *)
Lemma Create_children_in_turn_witness :
  snd (Create demo.env "/tmp/bundle" demo.signature (demo.init demo.broken))
  = Err "todo: haven't we already validated that Path or Repository is valid" /\
  exists evs sizes,
    s_trace (fst (Create demo.env "/tmp/bundle" demo.signature (demo.init demo.broken)))
    = s_trace (demo.init demo.broken) ++ evs /\
    omap child_index evs = blocks_from 0 sizes /\
    Forall (fun n => 0 < n) sizes /\
    length sizes <= 3.
Proof.
  destruct (Create_children_in_turn demo.env "/tmp/bundle" demo.signature
              (demo.init demo.broken)
              (fst (Create demo.env "/tmp/bundle" demo.signature (demo.init demo.broken)))
              (snd (Create demo.env "/tmp/bundle" demo.signature (demo.init demo.broken))))
    as [Hturns Hstop].
  - destruct (Create demo.env "/tmp/bundle" demo.signature (demo.init demo.broken));
      reflexivity.
  - split.
    + edestruct (Hstop 1 demo.neither_pkg) as [Hr _].
      * discriminate.
      * vm_compute. reflexivity.
      * reflexivity.
      * vm_compute. reflexivity.
      * vm_compute. reflexivity.
      * exact Hr.
    + destruct Hturns as (evs & sizes & Heq & Hidx & Hpos & Hlen & _).
      exists evs, sizes. auto.
Defined.

(** [CreateAndPublish] on a bundle whose second child lives on a host
    that cannot be reached: the first child is mirrored, the second
    fails, the third is never touched and nothing is tagged. *)
Lemma CreateAndPublish_children_in_turn_witness :
  snd (CreateAndPublish demo.strict_env "0.0.1" demo.unreachable demo.signature
         (demo.init demo.unreachable))
  = Err "down.example: no such host" /\
  reg_manifests (s_registry (fst (CreateAndPublish demo.strict_env "0.0.1" demo.unreachable
                                    demo.signature (demo.init demo.unreachable)))) = ∅ /\
  exists evs sizes,
    s_trace (fst (CreateAndPublish demo.strict_env "0.0.1" demo.unreachable demo.signature
                    (demo.init demo.unreachable)))
    = s_trace (demo.init demo.unreachable) ++ evs /\
    omap child_index evs = blocks_from 0 sizes /\
    Forall (fun n => 0 < n) sizes /\
    length sizes <= 3.
Proof.
  destruct (CreateAndPublish_children_in_turn demo.strict_env "0.0.1" demo.unreachable
              demo.signature (demo.init demo.unreachable)
              (fst (CreateAndPublish demo.strict_env "0.0.1" demo.unreachable
                      demo.signature (demo.init demo.unreachable)))
              (snd (CreateAndPublish demo.strict_env "0.0.1" demo.unreachable
                      demo.signature (demo.init demo.unreachable))))
    as [Hturns Hstop].
  - destruct (CreateAndPublish demo.strict_env "0.0.1" demo.unreachable demo.signature
                (demo.init demo.unreachable)); reflexivity.
  - edestruct (Hstop 1 demo.down_pkg) as [Hr Hs].
    + discriminate.
    + reflexivity.
    + vm_compute. reflexivity.
    + vm_compute. reflexivity.
    + split; [exact Hr|]. split; [rewrite Hs; vm_compute; reflexivity|].
      destruct Hturns as (evs & sizes & Heq & Hidx & Hpos & Hlen & _).
      exists evs, sizes. auto.
Defined.
